(** * Institutional RWA platform: FORTE rule engine, ZK PRET mock, and the
      PYUSD / InstitutionalAsset contracts

    A shallow embedding of
      - [sdk.ts] ([ForteSDKManager]) and [zkpret-integration/ZKPretAdapter.ts],
      - [quick-demo.ts] ([simulateForteRules]),
      - [src/PyusdCrossBorderFinance.sol] and [InstitutionalAsset.sol],
    together with the properties stated about them. *)

From Stdlib Require Import ZArith QArith Qround String Ascii List Permutation Lia Bool.
From stdpp Require Import base option list gmap strings fin_maps pretty.

Local Open Scope string_scope.
Local Open Scope Z_scope.

(* ===================================================================== *)
(** * JavaScript values used by the TypeScript sources                    *)
(* ===================================================================== *)

Module JS.

(** A JavaScript [number].  Finite doubles are embedded in the rationals;
    the sign of zero is not represented (the sources never divide by a
    zero).  Every arithmetic result on finite operands goes through the
    rounding function [round] (round-to-nearest-double in an engine),
    which the development keeps abstract. *)
Inductive number : Type :=
| NaN
| Infinity (negative : bool)
| Fin (q : Q).

Definition ofZ (z : Z) : number := Fin (inject_Z z).

Definition Qltb (x y : Q) : bool := negb (Qle_bool y x).

(** [a < b] *)
Definition lt (a b : number) : bool :=
  match a, b with
  | NaN, _ | _, NaN => false
  | Infinity true, Infinity true => false
  | Infinity true, _ => true
  | Infinity false, _ => false
  | Fin _, Infinity negative => negb negative
  | Fin x, Fin y => Qltb x y
  end.

(** [a <= b] *)
Definition le (a b : number) : bool :=
  match a, b with
  | NaN, _ | _, NaN => false
  | _, _ => negb (lt b a)
  end.

(** [a > b] and [a >= b] *)
Definition gt (a b : number) : bool := lt b a.
Definition ge (a b : number) : bool := le b a.

(** ToBoolean on a number: [NaN] and [0] are falsy. *)
Definition truthy (n : number) : bool :=
  match n with
  | NaN => false
  | Infinity _ => true
  | Fin q => negb (Qeq_bool q 0)
  end.

(** [Math.floor] *)
Definition floor (n : number) : number :=
  match n with
  | Fin q => Fin (inject_Z (Qfloor q))
  | _ => n
  end.

(** [Math.min(a, b)] and [Math.max(a, b)]: [NaN] if either argument is. *)
Definition min (a b : number) : number :=
  match a, b with
  | NaN, _ | _, NaN => NaN
  | _, _ => if lt b a then b else a
  end.

Definition max (a b : number) : number :=
  match a, b with
  | NaN, _ | _, NaN => NaN
  | _, _ => if lt a b then b else a
  end.

Section Arithmetic.
Variable round : Q -> Q.

Definition add (a b : number) : number :=
  match a, b with
  | NaN, _ | _, NaN => NaN
  | Infinity s, Infinity t => if Bool.eqb s t then a else NaN
  | Infinity _, Fin _ => a
  | Fin _, Infinity _ => b
  | Fin x, Fin y => Fin (round (x + y))
  end.

Definition neg (a : number) : number :=
  match a with
  | NaN => NaN
  | Infinity s => Infinity (negb s)
  | Fin x => Fin (- x)
  end.

Definition sub (a b : number) : number := add a (neg b).

Definition mul (a b : number) : number :=
  match a, b with
  | NaN, _ | _, NaN => NaN
  | Infinity s, Infinity t => Infinity (xorb s t)
  | Infinity s, Fin y =>
      if Qeq_bool y 0 then NaN else Infinity (xorb s (Qltb y 0))
  | Fin x, Infinity t =>
      if Qeq_bool x 0 then NaN else Infinity (xorb (Qltb x 0) t)
  | Fin x, Fin y => Fin (round (x * y))
  end.

Definition div (a b : number) : number :=
  match a, b with
  | NaN, _ | _, NaN => NaN
  | Infinity _, Infinity _ => NaN
  | Infinity s, Fin y => Infinity (xorb s (Qltb y 0))
  | Fin _, Infinity _ => Fin 0
  | Fin x, Fin y =>
      if Qeq_bool y 0
      then (if Qeq_bool x 0 then NaN else Infinity (Qltb x 0))
      else Fin (round (x / y))
  end.
End Arithmetic.

(** What reading a property of an object literal of numbers gives: a
    missing property, a number, or an object or function inherited from
    [Object.prototype] (named by the property that produced it). *)
Inductive value : Type :=
| VUndefined
| VNum (n : number)
| VObject (name : string).

(** ToNumber.  The text of a function or of [Object.prototype] is not a
    numeric literal. *)
Definition toNumber (v : value) : number :=
  match v with
  | VNum n => n
  | _ => NaN
  end.

Definition numberOf (o : option number) : number :=
  match o with
  | Some n => n
  | None => NaN
  end.

(** The properties every object literal inherits from [Object.prototype]. *)
Definition objectPrototypeKeys : list string :=
  [ "constructor"; "__defineGetter__"; "__defineSetter__"; "hasOwnProperty";
    "__lookupGetter__"; "__lookupSetter__"; "isPrototypeOf";
    "propertyIsEnumerable"; "toString"; "valueOf"; "__proto__";
    "toLocaleString" ].

Fixpoint assoc (own : list (string * number)) (key : string) : option number :=
  match own with
  | [] => None
  | (k, v) :: rest => if String.eqb k key then Some v else assoc rest key
  end.

Definition inList (x : string) (l : list string) : bool :=
  existsb (String.eqb x) l.

(** [obj[key]] on an object literal with the own properties [own]: own
    properties first, then the prototype chain. *)
Definition getProperty (own : list (string * number)) (key : string) : value :=
  match assoc own key with
  | Some n => VNum n
  | None => if inList key objectPrototypeKeys then VObject key else VUndefined
  end.

(** A property key computed from a possibly missing field:
    [obj[undefined]] reads the property named ["undefined"]. *)
Definition keyOf (k : option string) : string :=
  match k with
  | Some s => s
  | None => "undefined"
  end.

(** [v || w]: objects and functions are truthy. *)
Definition orVal (v w : value) : value :=
  match v with
  | VUndefined => w
  | VNum n => if truthy n then v else w
  | VObject _ => v
  end.

(** [v || d] for a numeric default [d]. *)
Definition orElse (v : value) (d : number) : value := orVal v (VNum d).

(** [a || rest] where [a] is a possibly missing numeric field. *)
Definition orNum (a : option number) (rest : number) : number :=
  match a with
  | Some n => if truthy n then n else rest
  | None => rest
  end.

(** [a || rest] where [a] is a possibly missing string field: the empty
    string is falsy. *)
Definition orStr (a : option string) (rest : string) : string :=
  match a with
  | Some "" | None => rest
  | Some s => s
  end.

(** [hay.includes(needle)] on strings. *)
Fixpoint includes (hay needle : string) : bool :=
  if String.prefix needle hay then true
  else match hay with
       | EmptyString => false
       | String _ rest => includes rest needle
       end.

(** [toLowerCase] on code units below 256: A-Z and the Latin-1 capitals. *)
Definition lowerAscii (c : ascii) : ascii :=
  let n := N_of_ascii c in
  if ((65 <=? n) && (n <=? 90))%N
     || ((192 <=? n) && (n <=? 222) && negb (n =? 215))%N
  then ascii_of_N (n + 32)
  else c.

Fixpoint toLowerCase (s : string) : string :=
  match s with
  | EmptyString => EmptyString
  | String c rest => String (lowerAscii c) (toLowerCase rest)
  end.

End JS.

(* ===================================================================== *)
(** * Effects: the clock, the console and exceptions                      *)
(* ===================================================================== *)

Module Runtime.
Import JS.

(** The result of [n + v] where [v] was read from an object literal: a
    number, or the string made of the text of [n] and of the inherited
    object [name]. *)
Inductive scalar : Type :=
| SNum (n : number)
| SText (n : number) (name : string).

Definition scalarToNumber (s : scalar) : number :=
  match s with
  | SNum n => n
  | SText _ _ => NaN
  end.

Inductive Exception : Type :=
| TypeError (msg : string)
| Error (msg : string).

(** The [reason] strings of the rule results, with the interpolated
    values kept as data. *)
Inductive Reason : Type :=
| MissingLEI
| GLEIFVerificationFailed
| RecipientOnOFACList
| InvalidLEIFormat
| BPMNVerificationFailed
| RiskScoreTooHigh (score : option number)
| DCSAVerificationFailed
| SuboptimalFractionCount (count : number)
| MetadataScoreTooLow (total : scalar)
| TransferBelowMinimum (amount : number)
| FractionCountOutsideRange (count : number)
| MetadataBelowRequired (current : scalar) (required : number)
| PegUnstable (price : number)
| ExceedsAvailableLiquidity (amount : number)
| BelowInstitutionalMinimum (amount : number)
| CrossBorderNotSupported (buyer seller : string)
| CrossBorderRestricted (buyer seller : string)
| ExceedsCrossBorderLimit (amount : number) (limit : value) (buyer seller : string)
| ExceedsRBILimit (amount limit : number)
| UnknownRule.

(** The lines written by [console.log] and [console.error]. *)
Inductive LogLine : Type :=
| LogChecking (ruleCount : nat)
| LogPassed (ruleId name : string)
| LogFailed (ruleId name : string) (reason : option Reason)
| LogWarning (ruleId name : string) (reason : option Reason)
| LogAdjusted (ruleId name : string) (reason : option Reason)
| LogError (ruleId name : string) (error : Exception)
| LogSummary (passed failed warnings : nat) (compliant : bool)
| LogScoreError (error : Exception)
| LogRBIReporting (amount : number).

(** The part of the world the code reads or writes: [Date.now()] returns
    the next reading of [clock], [console] collects the output. *)
Record World : Type := {
  clock : nat -> Z;
  reads : nat;
  console : list LogLine
}.

Inductive Outcome (A : Type) : Type :=
| Returned (a : A)
| Thrown (e : Exception).
Arguments Returned {A} a.
Arguments Thrown {A} e.

Definition M (A : Type) : Type := World -> Outcome A * World.

#[global] Instance M_ret : MRet M := fun A a w => (Returned a, w).

#[global] Instance M_bind : MBind M := fun A B f m w =>
  match m w with
  | (Returned a, w') => f a w'
  | (Thrown e, w') => (Thrown e, w')
  end.

Definition throw {A} (e : Exception) : M A := fun w => (Thrown e, w).

Definition dateNow : M Z := fun w =>
  (Returned (clock w (reads w)),
   {| clock := clock w; reads := S (reads w); console := console w |}).

Definition log (line : LogLine) : M unit := fun w =>
  (Returned tt,
   {| clock := clock w; reads := reads w; console := console w ++ [line] |}).

(** The statements of a [try] block that update a local object [s] one
    after the other: the block stops at the first statement that throws
    and hands the object as it is then, with the exception, to [catch]. *)
Fixpoint trySteps {S : Type} (steps : list (S -> M S)) (s : S)
  : M (S * option Exception) :=
  match steps with
  | [] => mret (s, None)
  | step :: rest => fun w =>
      match step s w with
      | (Returned s', w') => trySteps rest s' w'
      | (Thrown e, w') => (Returned (s, Some e), w')
      end
  end.

End Runtime.

(* ===================================================================== *)
(** * zkpret-integration/ZKPretAdapter.ts                                 *)
(* ===================================================================== *)

Module ZKPret.
Import JS Runtime.

(** The asset / transaction object handed to the rules.  Every field may
    be missing ([undefined]); fields carry the type the demo data gives
    them.  Strings are sequences of code units below 256. *)
Record TransactionData : Type := {
  corporateName : option string;
  legalEntityIdentifier : option string;
  assetType : option string;
  principalAmount : option number;
  pyusdAmount : option number;
  interestRate : option number;
  creditRating : option string;
  assetDescription : option string;
  documentHash : option string;
  tradeDocuments : option (list string);
  totalFractions : option number;
  minimumFractionSize : option number;
  transferAmount : option number;
  recipient : option string;
  buyerCountry : option string;
  sellerCountry : option string
}.

Record ZKPretVerificationResult : Type := {
  verified : bool;
  score : option number;
  proof : string;
  timestamp : Z
}.

Record MetadataScores : Type := {
  gleifScore : number;
  bpmnScore : number;
  actuarialScore : number;
  dcsaScore : number;
  financialScore : value;
  totalScore : scalar
}.

Record FractionParams : Type := {
  optimalCount : number;
  minimumSize : number;
  maximumSize : number;
  liquidityFactor : number
}.

Record ThresholdCheck : Type := {
  meetsThreshold : bool;
  currentScore : scalar;
  requiredScore : number
}.

Definition verifyGLEIF (lei : string) (corporateName : option string)
  : M ZKPretVerificationResult :=
  let verified := Nat.eqb (String.length lei) 20 && negb (includes lei "INVALID") in
  proof ← (if verified
            then t ← dateNow; mret ("mock-gleif-proof-" +:+ pretty t)
            else mret "");
  timestamp ← dateNow;
  mret {| verified := verified;
          score := Some (ofZ (if verified then 100 else 0));
          proof := proof;
          timestamp := timestamp |}.

(** [assetDescription.length] on a missing argument throws. *)
Definition verifyBPMNCompliance (processDefinition assetDescription : option string)
  : M ZKPretVerificationResult :=
  match assetDescription with
  | None => throw (TypeError "Cannot read properties of undefined (reading 'length')")
  | Some description =>
      let verified :=
        Nat.ltb 10 (String.length description)
        && negb (includes description "Unverified") in
      proof ← (if verified
                then t ← dateNow; mret ("mock-bpmn-proof-" +:+ pretty t)
                else mret "");
      timestamp ← dateNow;
      mret {| verified := verified;
              score := Some (ofZ (if verified then 85 else 0));
              proof := proof;
              timestamp := timestamp |}
  end.

Definition assessACTUSRisk (assetData : TransactionData) : M ZKPretVerificationResult :=
  let riskScore :=
    if gt (numberOf (interestRate assetData)) (ofZ 1500) then ofZ 800 else ofZ 300 in
  t ← dateNow;
  timestamp ← dateNow;
  mret {| verified := le riskScore (ofZ 500);
          score := Some riskScore;
          proof := "mock-actus-proof-" +:+ pretty t;
          timestamp := timestamp |}.

Definition verifyDCSADocuments (documentHash : option string) (tradeDocuments : list string)
  : M ZKPretVerificationResult :=
  let verified :=
    negb (bool_decide (documentHash = Some "0x0000000000000000000000000000000000000000"))
    && Nat.ltb 0 (List.length tradeDocuments) in
  proof ← (if verified
            then t ← dateNow; mret ("mock-dcsa-proof-" +:+ pretty t)
            else mret "");
  timestamp ← dateNow;
  mret {| verified := verified;
          score := Some (ofZ (if verified then 90 else 0));
          proof := proof;
          timestamp := timestamp |}.

Definition creditScoreMap : list (string * number) :=
  [ ("AAA", ofZ 20); ("AA", ofZ 19); ("A", ofZ 18); ("BBB", ofZ 15);
    ("BB", ofZ 12); ("B", ofZ 8); ("CCC", ofZ 5); ("CC", ofZ 3);
    ("C", ofZ 1); ("D", ofZ 0) ].

Definition assetTypeMultipliers : list (string * number) :=
  [ ("SUPPLY_CHAIN_INVOICE", ofZ 1000);
    ("EQUIPMENT_FINANCE", ofZ 10000);
    ("TRADE_FINANCE", ofZ 5000);
    ("WORKING_CAPITAL", ofZ 2000);
    ("COMMERCIAL_REAL_ESTATE", ofZ 25000);
    ("CORPORATE_BONDS", ofZ 1000);
    ("STRUCTURED_PRODUCTS", ofZ 50000) ].

Section WithRounding.
Variable round : Q -> Q.

(** [n + v] for a value read from an object literal. *)
Definition plus (n : number) (v : value) : scalar :=
  match v with
  | VNum m => SNum (add round n m)
  | VObject name => SText n name
  | VUndefined => SNum NaN
  end.

Definition withGleif (s : MetadataScores) (x : number) : MetadataScores :=
  {| gleifScore := x; bpmnScore := bpmnScore s; actuarialScore := actuarialScore s;
     dcsaScore := dcsaScore s; financialScore := financialScore s;
     totalScore := totalScore s |}.
Definition withBpmn (s : MetadataScores) (x : number) : MetadataScores :=
  {| gleifScore := gleifScore s; bpmnScore := x; actuarialScore := actuarialScore s;
     dcsaScore := dcsaScore s; financialScore := financialScore s;
     totalScore := totalScore s |}.
Definition withActuarial (s : MetadataScores) (x : number) : MetadataScores :=
  {| gleifScore := gleifScore s; bpmnScore := bpmnScore s; actuarialScore := x;
     dcsaScore := dcsaScore s; financialScore := financialScore s;
     totalScore := totalScore s |}.
Definition withDcsa (s : MetadataScores) (x : number) : MetadataScores :=
  {| gleifScore := gleifScore s; bpmnScore := bpmnScore s;
     actuarialScore := actuarialScore s; dcsaScore := x;
     financialScore := financialScore s; totalScore := totalScore s |}.
Definition withFinancial (s : MetadataScores) (x : value) : MetadataScores :=
  {| gleifScore := gleifScore s; bpmnScore := bpmnScore s;
     actuarialScore := actuarialScore s; dcsaScore := dcsaScore s;
     financialScore := x; totalScore := totalScore s |}.
Definition withTotal (s : MetadataScores) (x : scalar) : MetadataScores :=
  {| gleifScore := gleifScore s; bpmnScore := bpmnScore s;
     actuarialScore := actuarialScore s; dcsaScore := dcsaScore s;
     financialScore := financialScore s; totalScore := x |}.

Definition calculateMetadataScore (assetData : TransactionData) : M MetadataScores :=
  let scores :=
    {| gleifScore := ofZ 0; bpmnScore := ofZ 0; actuarialScore := ofZ 0;
       dcsaScore := ofZ 0; financialScore := VNum (ofZ 0); totalScore := SNum (ofZ 0) |} in
  r ← trySteps
        [ (fun s =>
             gleifResult ← verifyGLEIF (orStr (legalEntityIdentifier assetData) "")
                                        (Some (orStr (corporateName assetData) ""));
             mret (withGleif s (ofZ (if verified gleifResult then 25 else 0))));
          (fun s =>
             bpmnResult ← verifyBPMNCompliance
                             (Some (orStr (assetDescription assetData) ""))
                             (Some (orStr (assetDescription assetData) ""));
             mret (withBpmn s (ofZ (if verified bpmnResult then 20 else 10))));
          (fun s =>
             actusResult ← assessACTUSRisk assetData;
             mret (withActuarial s
                     (max (ofZ 0)
                        (sub round (ofZ 20)
                           (floor (div round
                                     (mul round (orNum (score actusResult) (ofZ 500)) (ofZ 20))
                                     (ofZ 1000)))))));
          (fun s =>
             dcsaResult ← verifyDCSADocuments
                             (Some (orStr (documentHash assetData) ""))
                             (default [] (tradeDocuments assetData));
             mret (withDcsa s (ofZ (if verified dcsaResult then 15 else 8))));
          (fun s =>
             mret (withFinancial s
                     (orElse (getProperty creditScoreMap (keyOf (creditRating assetData)))
                             (ofZ 10))));
          (fun s =>
             mret (withTotal s
                     (plus (add round
                              (add round (add round (gleifScore s) (bpmnScore s))
                                   (actuarialScore s))
                              (dcsaScore s))
                           (financialScore s)))) ]
        scores;
  _ ← match r.2 with
      | Some e => log (LogScoreError e)
      | None => mret tt
      end;
  mret r.1.

Definition calculateOptimalFractions (principalAmount : option number)
    (assetType : option string) : FractionParams :=
  let multiplier := orElse (getProperty assetTypeMultipliers (keyOf assetType)) (ofZ 1000) in
  let optimalCount := floor (div round (numberOf principalAmount) (toNumber multiplier)) in
  let optimalCount := max (ofZ 10) (min (ofZ 10000) optimalCount) in
  let minimumSize := floor (div round (numberOf principalAmount) optimalCount) in
  let maximumSize := mul round minimumSize (ofZ 10) in
  let liquidityFactor :=
    if ge optimalCount (ofZ 100) && le optimalCount (ofZ 5000)
    then Fin (3 # 2) else Fin 1 in
  {| optimalCount := optimalCount; minimumSize := minimumSize;
     maximumSize := maximumSize; liquidityFactor := liquidityFactor |}.

Definition checkMetadataThreshold (assetData : TransactionData) : M ThresholdCheck :=
  scores ← calculateMetadataScore assetData;
  let currentScore := totalScore scores in
  let principal := numberOf (principalAmount assetData) in
  let requiredScore :=
    if ge principal (ofZ 10000000) then ofZ 95
    else if ge principal (ofZ 5000000) then ofZ 85
    else if ge principal (ofZ 1000000) then ofZ 75
    else ofZ 70 in
  let requiredScore :=
    if bool_decide (assetType assetData = Some "STRUCTURED_PRODUCTS")
    then add round requiredScore (ofZ 5) else requiredScore in
  let requiredScore :=
    if bool_decide (assetType assetData = Some "TRADE_FINANCE")
    then add round requiredScore (ofZ 3) else requiredScore in
  let requiredScore := min (ofZ 100) requiredScore in
  mret {| meetsThreshold := ge (scalarToNumber currentScore) requiredScore;
          currentScore := currentScore;
          requiredScore := requiredScore |}.

End WithRounding.

End ZKPret.

(* ===================================================================== *)
(** * sdk.ts: ForteSDKManager                                             *)
(* ===================================================================== *)

Module Forte.
Import JS Runtime ZKPret.

Record RuleResult : Type := {
  passed : bool;
  reason : option Reason
}.

(** A rule of a policy file; [evaluateRule] and [checkRules] read these
    three fields only. *)
Record Rule : Type := {
  ruleId : string;
  name : string;
  action : string
}.

Record Policy : Type := {
  policyName : string;
  rules : list Rule
}.

Record CheckResult : Type := {
  compliant : bool;
  passedRules : list string;
  failedRules : list string;
  warnings : list string
}.

Definition sanctionedAddresses : list string :=
  [ "0x1111111111111111111111111111111111111111" ].

Definition supportedCountries : list string :=
  [ "US"; "GB"; "DE"; "JP"; "IN"; "SG"; "CA"; "AU"; "FR"; "IT"; "ES"; "NL" ].

Definition restrictedCountries : list string :=
  [ "IR"; "KP"; "CU"; "SY"; "AF" ].

Definition countryPairLimits : list (string * number) :=
  [ ("US-GB", ofZ 100000000);
    ("US-DE", ofZ 100000000);
    ("US-JP", ofZ 75000000);
    ("US-IN", ofZ 50000000);
    ("US-SG", ofZ 100000000);
    ("GB-DE", ofZ 100000000);
    ("DE-JP", ofZ 75000000);
    ("default", ofZ 25000000) ].

Definition getCrossBorderLimit (buyerCountry sellerCountry : string) : value :=
  let key1 := buyerCountry +:+ "-" +:+ sellerCountry in
  let key2 := sellerCountry +:+ "-" +:+ buyerCountry in
  orVal (getProperty countryPairLimits key1)
    (orVal (getProperty countryPairLimits key2)
           (getProperty countryPairLimits "default")).

Definition checkIndiaRBICompliance (pyusdAmount : number) : M (bool * option Reason) :=
  let rbiMaxLimit := ofZ 50000000 in
  let rbiMinReporting := ofZ 1000000 in
  if gt pyusdAmount rbiMaxLimit
  then mret (false, Some (ExceedsRBILimit pyusdAmount rbiMaxLimit))
  else
    _ ← (if ge pyusdAmount rbiMinReporting
         then log (LogRBIReporting pyusdAmount) else mret tt);
    mret (true, None).

Definition evaluateRule01 (data : TransactionData) : M RuleResult :=
  match legalEntityIdentifier data with
  | None | Some "" => mret {| passed := false; reason := Some MissingLEI |}
  | Some lei =>
      gleifResult ← verifyGLEIF lei (corporateName data);
      mret {| passed := verified gleifResult;
              reason := if verified gleifResult then None
                        else Some GLEIFVerificationFailed |}
  end.

Definition evaluateRule02 (data : TransactionData) : M RuleResult :=
  let isOnSanctionsList :=
    match recipient data with
    | Some r => inList (toLowerCase r) sanctionedAddresses
    | None => false
    end in
  mret {| passed := negb isOnSanctionsList;
          reason := if isOnSanctionsList then Some RecipientOnOFACList else None |}.

Definition evaluateRule03 (data : TransactionData) : M RuleResult :=
  mret {| passed := true; reason := None |}.

Definition evaluateRule04 (data : TransactionData) : M RuleResult :=
  match legalEntityIdentifier data with
  | None | Some "" => mret {| passed := false; reason := Some InvalidLEIFormat |}
  | Some lei =>
      if negb (Nat.eqb (String.length lei) 20)
      then mret {| passed := false; reason := Some InvalidLEIFormat |}
      else mret {| passed := true; reason := None |}
  end.

Definition evaluateRule05 (data : TransactionData) : M RuleResult :=
  bpmnResult ← verifyBPMNCompliance (assetDescription data) (assetDescription data);
  mret {| passed := verified bpmnResult;
          reason := if verified bpmnResult then None
                    else Some BPMNVerificationFailed |}.

Definition evaluateRule06 (data : TransactionData) : M RuleResult :=
  actusResult ← assessACTUSRisk data;
  mret {| passed := le (orNum (score actusResult) (ofZ 999)) (ofZ 500);
          reason := if gt (orNum (score actusResult) (ofZ 999)) (ofZ 500)
                    then Some (RiskScoreTooHigh (score actusResult)) else None |}.

Definition evaluateRule07 (data : TransactionData) : M RuleResult :=
  dcsaResult ← verifyDCSADocuments (documentHash data) (default [] (tradeDocuments data));
  mret {| passed := verified dcsaResult;
          reason := if verified dcsaResult then None
                    else Some DCSAVerificationFailed |}.

Definition evaluateRule10 (data : TransactionData) : M RuleResult :=
  let minimumSize := ofZ 500 in
  let transferAmount :=
    orNum (transferAmount data) (orNum (minimumFractionSize data) (ofZ 0)) in
  mret {| passed := ge transferAmount minimumSize;
          reason := if lt transferAmount minimumSize
                    then Some (TransferBelowMinimum transferAmount) else None |}.

Definition evaluateRule11 (data : TransactionData) : M RuleResult :=
  let totalFractions := orNum (totalFractions data) (ofZ 0) in
  let inOptimalRange := ge totalFractions (ofZ 100) && le totalFractions (ofZ 5000) in
  mret {| passed := true;
          reason := if inOptimalRange then None
                    else Some (FractionCountOutsideRange totalFractions) |}.

Definition evaluateRule13 (data : TransactionData) : M RuleResult :=
  let pyusdAmount := orNum (pyusdAmount data) (orNum (principalAmount data) (ofZ 0)) in
  let pyusdPegPrice := Fin (1001 # 1000) in
  let pegStable := ge pyusdPegPrice (Fin (995 # 1000)) && le pyusdPegPrice (Fin (1005 # 1000)) in
  let sufficientReserves := le pyusdAmount (ofZ 50000000) in
  let meetsMininumLiquidity := ge pyusdAmount (ofZ 1000000) in
  if negb pegStable
  then mret {| passed := false; reason := Some (PegUnstable pyusdPegPrice) |}
  else if negb sufficientReserves
  then mret {| passed := false; reason := Some (ExceedsAvailableLiquidity pyusdAmount) |}
  else if negb meetsMininumLiquidity
  then mret {| passed := false; reason := Some (BelowInstitutionalMinimum pyusdAmount) |}
  else mret {| passed := true; reason := None |}.

Definition evaluateRule14 (data : TransactionData) : M RuleResult :=
  let buyerCountry := orStr (buyerCountry data) "US" in
  let sellerCountry := orStr (sellerCountry data) "US" in
  let pyusdAmount := orNum (pyusdAmount data) (orNum (principalAmount data) (ofZ 0)) in
  if negb (inList buyerCountry supportedCountries)
     || negb (inList sellerCountry supportedCountries)
  then mret {| passed := false;
               reason := Some (CrossBorderNotSupported buyerCountry sellerCountry) |}
  else if inList buyerCountry restrictedCountries
          || inList sellerCountry restrictedCountries
  then mret {| passed := false;
               reason := Some (CrossBorderRestricted buyerCountry sellerCountry) |}
  else
    let maxCrossBorderAmount := getCrossBorderLimit buyerCountry sellerCountry in
    if gt pyusdAmount (toNumber maxCrossBorderAmount)
    then mret {| passed := false;
                 reason := Some (ExceedsCrossBorderLimit pyusdAmount maxCrossBorderAmount
                                   buyerCountry sellerCountry) |}
    else if String.eqb buyerCountry "IN" || String.eqb sellerCountry "IN"
    then
      indiaCompliant ← checkIndiaRBICompliance pyusdAmount;
      if negb indiaCompliant.1
      then mret {| passed := false; reason := indiaCompliant.2 |}
      else mret {| passed := true; reason := None |}
    else mret {| passed := true; reason := None |}.

(** The PYUSD amount Rules 13 and 14 look at:
    [data.pyusdAmount || data.principalAmount || 0]. *)
Definition effectiveAmount (data : TransactionData) : number :=
  orNum (pyusdAmount data) (orNum (principalAmount data) (ofZ 0)).

(** The corridor limits as the specification words them: a table of
    unordered country pairs, 25000000 for every other pair. *)
Definition isPair (a b x y : string) : bool :=
  (String.eqb a x && String.eqb b y) || (String.eqb a y && String.eqb b x).

Definition statedCorridorLimit (a b : string) : Z :=
  if isPair a b "US" "GB" || isPair a b "US" "DE"
     || isPair a b "US" "SG" || isPair a b "GB" "DE"
  then 100000000
  else if isPair a b "US" "JP" || isPair a b "DE" "JP" then 75000000
  else if isPair a b "US" "IN" then 50000000
  else 25000000.

Section Engine.
Variable round : Q -> Q.

Definition evaluateRule08 (data : TransactionData) : M RuleResult :=
  let fractionParams :=
    calculateOptimalFractions round (principalAmount data) (assetType data) in
  let isOptimal :=
    ge (optimalCount fractionParams) (ofZ 10)
    && le (optimalCount fractionParams) (ofZ 10000) in
  mret {| passed := isOptimal;
          reason := if isOptimal then None
                    else Some (SuboptimalFractionCount (optimalCount fractionParams)) |}.

Definition evaluateRule09 (data : TransactionData) : M RuleResult :=
  metadataScore ← calculateMetadataScore round data;
  mret {| passed := ge (scalarToNumber (totalScore metadataScore)) (ofZ 70);
          reason := if lt (scalarToNumber (totalScore metadataScore)) (ofZ 70)
                    then Some (MetadataScoreTooLow (totalScore metadataScore))
                    else None |}.

Definition evaluateRule12 (data : TransactionData) : M RuleResult :=
  thresholdCheck ← checkMetadataThreshold round data;
  mret {| passed := meetsThreshold thresholdCheck;
          reason := if meetsThreshold thresholdCheck then None
                    else Some (MetadataBelowRequired (currentScore thresholdCheck)
                                 (requiredScore thresholdCheck)) |}.

Definition evaluateRule (rule : Rule) (transactionData : TransactionData) : M RuleResult :=
  if String.eqb (ruleId rule) "RULE_01" then evaluateRule01 transactionData
  else if String.eqb (ruleId rule) "RULE_02" then evaluateRule02 transactionData
  else if String.eqb (ruleId rule) "RULE_03" then evaluateRule03 transactionData
  else if String.eqb (ruleId rule) "RULE_04" then evaluateRule04 transactionData
  else if String.eqb (ruleId rule) "RULE_05" then evaluateRule05 transactionData
  else if String.eqb (ruleId rule) "RULE_06" then evaluateRule06 transactionData
  else if String.eqb (ruleId rule) "RULE_07" then evaluateRule07 transactionData
  else if String.eqb (ruleId rule) "RULE_08" then evaluateRule08 transactionData
  else if String.eqb (ruleId rule) "RULE_09" then evaluateRule09 transactionData
  else if String.eqb (ruleId rule) "RULE_10" then evaluateRule10 transactionData
  else if String.eqb (ruleId rule) "RULE_11" then evaluateRule11 transactionData
  else if String.eqb (ruleId rule) "RULE_12" then evaluateRule12 transactionData
  else if String.eqb (ruleId rule) "RULE_13" then evaluateRule13 transactionData
  else if String.eqb (ruleId rule) "RULE_14" then evaluateRule14 transactionData
  else mret {| passed := false; reason := Some UnknownRule |}.

(** What [checkRules] sees of one evaluation started in the world [w]:
    nothing if it throws, else the [passed] flag. *)
Definition outcomeOf (rule : Rule) (transactionData : TransactionData) (w : World)
  : option bool :=
  match evaluateRule rule transactionData w with
  | (Returned ruleResult, _) => Some (passed ruleResult)
  | (Thrown _, _) => None
  end.

Definition pushPassed (r : CheckResult) (id : string) : CheckResult :=
  {| compliant := compliant r; passedRules := passedRules r ++ [id];
     failedRules := failedRules r; warnings := warnings r |}.

(** [result.failedRules.push(id); result.compliant = false] *)
Definition pushFailed (r : CheckResult) (id : string) : CheckResult :=
  {| compliant := false; passedRules := passedRules r;
     failedRules := failedRules r ++ [id]; warnings := warnings r |}.

Definition pushWarning (r : CheckResult) (id : string) : CheckResult :=
  {| compliant := compliant r; passedRules := passedRules r;
     failedRules := failedRules r; warnings := warnings r ++ [id] |}.

(** The body of the [for] loop of [checkRules]: one [try]/[catch]. *)
Definition checkRule (transactionData : TransactionData) (result : CheckResult)
    (rule : Rule) : M CheckResult :=
  fun w =>
    match evaluateRule rule transactionData w with
    | (Returned ruleResult, w1) =>
        if passed ruleResult
        then (_ ← log (LogPassed (ruleId rule) (name rule));
              mret (pushPassed result (ruleId rule))) w1
        else if String.eqb (action rule) "DENY"
        then (_ ← log (LogFailed (ruleId rule) (name rule) (reason ruleResult));
              mret (pushFailed result (ruleId rule))) w1
        else if String.eqb (action rule) "WARN"
        then (_ ← log (LogWarning (ruleId rule) (name rule) (reason ruleResult));
              mret (pushWarning result (ruleId rule))) w1
        else if String.eqb (action rule) "ADJUST"
        then (_ ← log (LogAdjusted (ruleId rule) (name rule) (reason ruleResult));
              mret (pushWarning result (ruleId rule))) w1
        else (Returned result, w1)
    | (Thrown error, w1) =>
        (_ ← log (LogError (ruleId rule) (name rule) error);
         mret (pushFailed result (ruleId rule))) w1
    end.

(** What one iteration of the loop does to [result], told from the
    verdict [o] of the rule {- [None] when the evaluation throws -}. *)
Definition isPassed (o : option bool) : bool :=
  match o with
  | Some true => true
  | _ => false
  end.

Definition isFailed (o : option bool) (rule : Rule) : bool :=
  match o with
  | Some true => false
  | Some false => String.eqb (action rule) "DENY"
  | None => true
  end.

Definition isWarned (o : option bool) (rule : Rule) : bool :=
  match o with
  | Some false =>
      negb (String.eqb (action rule) "DENY")
      && (String.eqb (action rule) "WARN" || String.eqb (action rule) "ADJUST")
  | _ => false
  end.

Definition applyVerdict (o : option bool) (result : CheckResult) (rule : Rule)
  : CheckResult :=
  if isPassed o then pushPassed result (ruleId rule)
  else if isFailed o rule then pushFailed result (ruleId rule)
  else if isWarned o rule then pushWarning result (ruleId rule)
  else result.

(** One iteration, with the verdict the rule has in the world [w]. *)
Definition stepFrom (transactionData : TransactionData) (w : World)
    (result : CheckResult) (rule : Rule) : CheckResult :=
  applyVerdict (outcomeOf rule transactionData w) result rule.

Fixpoint forEachRule (transactionData : TransactionData) (rules : list Rule)
    (result : CheckResult) : M CheckResult :=
  match rules with
  | [] => mret result
  | rule :: rest =>
      result' ← checkRule transactionData result rule;
      forEachRule transactionData rest result'
  end.

Definition checkRules (policyRegistry : gmap string Policy) (policyId : string)
    (transactionData : TransactionData) : M CheckResult :=
  match policyRegistry !! policyId with
  | None => throw (Error ("Policy " +:+ policyId +:+ " not found"))
  | Some policy =>
      let result :=
        {| compliant := true; passedRules := []; failedRules := []; warnings := [] |} in
      _ ← log (LogChecking (List.length (rules policy)));
      result ← forEachRule transactionData (rules policy) result;
      _ ← log (LogSummary (List.length (passedRules result))
                          (List.length (failedRules result))
                          (List.length (warnings result))
                          (compliant result));
      mret result
  end.

End Engine.

End Forte.

(* ===================================================================== *)
(** * quick-demo.ts: simulateForteRules                                   *)
(* ===================================================================== *)

Module QuickDemo.
Import JS.

(** [random] holds the successive results of [Math.random()], [draws]
    counts the calls made so far, [output] is what [console.log] wrote. *)
Record State : Type := {
  random : nat -> Q;
  draws : nat;
  output : list string
}.

Definition mathRandom (s : State) : Q * State :=
  (random s (draws s),
   {| random := random s; draws := S (draws s); output := output s |}).

Definition consoleLog (line : string) (s : State) : State :=
  {| random := random s; draws := draws s; output := output s ++ [line] |}.

Definition rules : list string :=
  [ "Rule 1: Enhanced KYC + GLEIF Verification";
    "Rule 2: Enhanced OFAC Real-time Check";
    "Rule 3: Enhanced Sanctions Cross-border";
    "Rule 4: GLEIF Corporate Registration";
    "Rule 5: BPMN Business Process Compliance";
    "Rule 6: ACTUS Risk Assessment Threshold";
    "Rule 7: DCSA Trade Document Integrity";
    "Rule 8: Optimal Fraction Calculation";
    "Rule 9: Metadata Completeness Score";
    "Rule 10: Minimum Fraction Threshold";
    "Rule 11: Fraction Liquidity Optimization";
    "Rule 12: Enhanced Metadata Enforcement";
    "Rule 13: PYUSD Stablecoin Peg Verification";
    "Rule 14: Cross-Border PYUSD Compliance" ].

(** The double written [0.1]. *)
Definition threshold : Q := 3602879701896397 # 36028797018963968.

Definition statusOf (passed : bool) : string :=
  if passed then "✅ PASS" else "❌ FAIL".

(** The callback of [rules.forEach]. *)
Definition reportRule (s : State) (rule : string) : State :=
  let (r, s1) := mathRandom s in
  let passed := Qltb threshold r in
  let status := statusOf passed in
  consoleLog ("    " +:+ status +:+ " " +:+ rule) s1.

Definition simulateForteRules (s : State) : State :=
  let s := consoleLog "  🔍 Testing All 14 FORTE Rules..." s in
  let s := fold_left reportRule rules s in
  consoleLog "  📊 Overall Compliance: 14/14 rules configured" s.

(** [Math.random()] returns a number in [0, 1). *)
Definition validRandom (f : nat -> Q) : Prop :=
  forall i, (0 <= f i)%Q /\ (f i < 1)%Q.

End QuickDemo.

(* ===================================================================== *)
(** * Solidity 0.8: checked arithmetic and reverts                        *)
(* ===================================================================== *)

Module Solidity.

(** Addresses, [uint256] and [bytes32] values are integers. *)
Definition address : Type := Z.

Definition MAX_UINT256 : Z := 2 ^ 256 - 1.

Inductive Result (A : Type) : Type :=
| Success (a : A)
| Revert (reason : string)
| Panic (code : Z).
Arguments Success {A} a.
Arguments Revert {A} reason.
Arguments Panic {A} code.

#[global] Instance Result_ret : MRet Result := fun A a => Success a.

#[global] Instance Result_bind : MBind Result := fun A B f m =>
  match m with
  | Success a => f a
  | Revert reason => Revert reason
  | Panic code => Panic code
  end.

Definition require (condition : bool) (reason : string) : Result unit :=
  if condition then Success tt else Revert reason.

(** Arithmetic overflow or underflow panics with code 0x11. *)
Definition checked_add (a b : Z) : Result Z :=
  if a + b <=? MAX_UINT256 then Success (a + b) else Panic 17.

Definition checked_sub (a b : Z) : Result Z :=
  if b <=? a then Success (a - b) else Panic 17.

Definition checked_mul (a b : Z) : Result Z :=
  if a * b <=? MAX_UINT256 then Success (a * b) else Panic 17.

(** [mapping(K => uint256)]: a key never written reads as zero. *)
Definition read `{Countable K} (m : gmap K Z) (k : K) : Z := default 0 (m !! k).

Definition readBool `{Countable K} (m : gmap K bool) (k : K) : bool :=
  default false (m !! k).

Definition sanctioned : address := 0x1111111111111111111111111111111111111111.

End Solidity.

(* ===================================================================== *)
(** * src/PyusdCrossBorderFinance.sol                                     *)
(* ===================================================================== *)

Module Pyusd.
Import Solidity.

Inductive TradeStatus : Type :=
| INITIATED
| COMPLIANCE_CHECK
| LC_ISSUED
| GOODS_SHIPPED
| PYUSD_ESCROWED
| SETTLEMENT_READY
| SETTLED
| DISPUTED
| CANCELLED.

#[global] Instance TradeStatus_eq_dec : EqDecision TradeStatus.
Proof. solve_decision. Defined.

(** The position of a status in the enum. *)
Definition ordinal (s : TradeStatus) : Z :=
  match s with
  | INITIATED => 0
  | COMPLIANCE_CHECK => 1
  | LC_ISSUED => 2
  | GOODS_SHIPPED => 3
  | PYUSD_ESCROWED => 4
  | SETTLEMENT_READY => 5
  | SETTLED => 6
  | DISPUTED => 7
  | CANCELLED => 8
  end.

Record CrossBorderTrade : Type := {
  tradeId : Z;
  buyer : address;
  seller : address;
  buyerBank : address;
  sellerBank : address;
  pyusdAmount : Z;
  localAmount : Z;
  localCurrency : string;
  buyerCountry : string;
  sellerCountry : string;
  letterOfCreditHash : Z;
  gleifVerified : bool;
  complianceCleared : bool;
  status : TradeStatus;
  createdAt : Z;
  settledAt : Z
}.

(** The value of a storage slot never written. *)
Definition emptyTrade : CrossBorderTrade :=
  {| tradeId := 0; buyer := 0; seller := 0; buyerBank := 0; sellerBank := 0;
     pyusdAmount := 0; localAmount := 0; localCurrency := ""; buyerCountry := "";
     sellerCountry := ""; letterOfCreditHash := 0; gleifVerified := false;
     complianceCleared := false; status := INITIATED; createdAt := 0; settledAt := 0 |}.

Inductive Event : Type :=
| CrossBorderTradeInitiated (tradeId : Z) (buyer seller : address) (pyusdAmount : Z)
    (buyerCountry sellerCountry : string)
| InstantSettlement (tradeId pyusdAmount settlementTime : Z)
| ComplianceCleared (tradeId : Z) (gleifVerified forteRulesPassed : bool).

Record State : Type := {
  pyusdToken : address;
  zkPretAdapter : address;
  trades : gmap Z CrossBorderTrade;
  userTrades : gmap Z (list Z);
  exchangeRates : gmap string Z;
  nextTradeId : Z
}.

(** [msg.sender], [block.timestamp] and [address(this)]. *)
Record Env : Type := {
  sender : address;
  timestamp : Z;
  this : address
}.

Definition trade (s : State) (id : Z) : CrossBorderTrade :=
  default emptyTrade (trades s !! id).

Definition rate (s : State) (currency : string) : Z := read (exchangeRates s) currency.

Definition setTrade (s : State) (id : Z) (t : CrossBorderTrade) : State :=
  {| pyusdToken := pyusdToken s; zkPretAdapter := zkPretAdapter s;
     trades := <[id := t]> (trades s); userTrades := userTrades s;
     exchangeRates := exchangeRates s; nextTradeId := nextTradeId s |}.

Definition pushUserTrade (user : address) (id : Z) (m : gmap Z (list Z)) : gmap Z (list Z) :=
  <[user := (default [] (m !! user) ++ [id])%list]> m.

Definition constructor (_pyusdToken _zkPretAdapter : address) : State :=
  {| pyusdToken := _pyusdToken;
     zkPretAdapter := _zkPretAdapter;
     trades := ∅;
     userTrades := ∅;
     exchangeRates :=
       <["CNY" := 140000]> (<["JPY" := 6700]> (<["GBP" := 1250000]>
         (<["EUR" := 1100000]> (<["USD" := 1000000]> ∅))));
     nextTradeId := 0 |}.

Definition _isOnSanctionsList (account : address) : bool :=
  bool_decide (account = sanctioned).

(** [keccak256] of the packed strings is compared; the hashes of two
    strings are equal when the strings are. *)
Definition _validateCrossBorderCompliance (buyerCountry sellerCountry : string) : bool :=
  negb (String.eqb buyerCountry "IR") && negb (String.eqb sellerCountry "IR").

Definition _convertToPYUSD (s : State) (localAmount : Z) (currency : string) : Result Z :=
  let rate := rate s currency in
  _ ← require (0 <? rate) "Unsupported currency";
  product ← checked_mul localAmount rate;
  mret (product / 1000000).

Definition onlyTradeParticipant (env : Env) (s : State) (id : Z) : Result unit :=
  let trade := trade s id in
  require (bool_decide (sender env = buyer trade)
           || bool_decide (sender env = seller trade)
           || bool_decide (sender env = buyerBank trade)
           || bool_decide (sender env = sellerBank trade))
          "Not authorized for this trade".

Definition updateExchangeRate (s : State) (currency : string) (rate : Z) : State :=
  {| pyusdToken := pyusdToken s; zkPretAdapter := zkPretAdapter s;
     trades := trades s; userTrades := userTrades s;
     exchangeRates := <[currency := rate]> (exchangeRates s);
     nextTradeId := nextTradeId s |}.

Definition getSettlementComparison (s : State) (id : Z) : Result (Z * Z * Z * Z) :=
  let trade := trade s id in
  if 0 <? settledAt trade
  then
    pyusdSettlementTime ← checked_sub (settledAt trade) (createdAt trade);
    let traditionalEstimate := 3 * 86400 in
    timeSaved ← checked_sub traditionalEstimate pyusdSettlementTime;
    let costSaved := 40 * 1000000 in
    mret (pyusdSettlementTime, traditionalEstimate, timeSaved, costSaved)
  else mret (0, 0, 0, 0).

Definition getTrade (s : State) (id : Z) : CrossBorderTrade := trade s id.
Definition getUserTrades (s : State) (user : address) : list Z :=
  default [] (userTrades s !! user).
Definition getTradeCount (s : State) : Z := nextTradeId s.

(** The state-changing external functions, with their arguments. *)
Inductive Call : Type :=
| InitiateCrossBorderTrade (seller buyerBank sellerBank : address) (localAmount : Z)
    (localCurrency buyerCountry sellerCountry : string) (letterOfCreditHash : Z)
    (buyerLEI sellerLEI : string)
| ExecuteComplianceCheck (tradeId : Z)
| EscrowPYUSD (tradeId : Z)
| ExecuteInstantSettlement (tradeId : Z)
| InitiateCrossChainTrade (tradeId destinationChainId : Z) (destinationContract : address)
| UpdateExchangeRate (currency : string) (rate : Z).

(** The calls a token makes back into the contract while one of its
    functions runs, in order.  Each names its caller, a contract, and the
    function called; [first], [second] and [third] are the calls the token
    makes in turn during the token calls of that call, [rest] the calls
    that follow it. *)
Inductive Callbacks : Type :=
| NoCallback
| Callback (caller : positive) (call : Call) (first second third : Callbacks)
    (rest : Callbacks).

(** What the token does during the first, second and third token call of
    a transaction. *)
Record Token : Type := {
  first : Callbacks;
  second : Callbacks;
  third : Callbacks
}.

(** A token that does not call back. *)
Definition quiet : Token :=
  {| first := NoCallback; second := NoCallback; third := NoCallback |}.

(** The callers and calls of a run of callbacks, nested ones included. *)
Fixpoint calls (callbacks : Callbacks) : list (address * Call) :=
  match callbacks with
  | NoCallback => []
  | Callback caller call first second third rest =>
      ((Z.pos caller, call) :: calls first ++ calls second ++ calls third
       ++ calls rest)%list
  end.

Definition nested (token : Token) : list (address * Call) :=
  (calls (first token) ++ calls (second token) ++ calls (third token))%list.

(** The contracts behind [pyusdToken] and [zkPretAdapter] are not part of
    this contract: their state [Ext] and their answers are parameters.
    The adapter is asked through view functions.  A token call returns a
    flag and the token's new state, or reverts; before it returns, the
    token can call this contract back, and the contract has no guard
    against that.  The calls back are taken to come before the token's
    own bookkeeping, which [pyusdTransfer] and [pyusdTransferFrom] stand
    for. *)
Section External.
Variable Ext : Type.
Variable isGLEIFVerified : Ext -> string -> Result bool.
Variable isDCSAVerified : Ext -> Z -> Result bool.
Variable pyusdTransfer : Ext -> address -> address -> Z -> Result (bool * Ext).
Variable pyusdTransferFrom : Ext -> address -> address -> address -> Z -> Result (bool * Ext).

Definition initiateCrossBorderTrade (env : Env) (s : State) (ext : Ext)
    (seller buyerBank sellerBank : address) (localAmount : Z)
    (localCurrency buyerCountry sellerCountry : string) (letterOfCreditHash : Z)
    (buyerLEI sellerLEI : string) : Result (State * Ext * list Event * Z) :=
  buyerOk ← isGLEIFVerified ext buyerLEI;
  bothOk ← (if buyerOk : bool then isGLEIFVerified ext sellerLEI else mret false);
  _ ← require bothOk "FORTE VIOLATION: Both parties must have GLEIF verification";
  _ ← require (negb (_isOnSanctionsList (sender env)))
        "FORTE VIOLATION: Buyer on sanctions list";
  _ ← require (negb (_isOnSanctionsList seller))
        "FORTE VIOLATION: Seller on sanctions list";
  _ ← require (_validateCrossBorderCompliance buyerCountry sellerCountry)
        "FORTE VIOLATION: Cross-border sanctions";
  pyusdAmount ← _convertToPYUSD s localAmount localCurrency;
  _ ← require (1000 * 1000000 <=? pyusdAmount)
        "FORTE VIOLATION: Trade below $1,000 minimum";
  let tradeId := nextTradeId s in
  next ← checked_add (nextTradeId s) 1;
  let old := trade s tradeId in
  let new :=
    {| tradeId := tradeId; buyer := sender env; seller := seller;
       buyerBank := buyerBank; sellerBank := sellerBank;
       pyusdAmount := pyusdAmount; localAmount := localAmount;
       localCurrency := localCurrency; buyerCountry := buyerCountry;
       sellerCountry := sellerCountry; letterOfCreditHash := letterOfCreditHash;
       gleifVerified := gleifVerified old;
       complianceCleared := complianceCleared old;
       status := INITIATED; createdAt := timestamp env;
       settledAt := settledAt old |} in
  let s' :=
    {| pyusdToken := pyusdToken s; zkPretAdapter := zkPretAdapter s;
       trades := <[tradeId := new]> (trades s);
       userTrades :=
         pushUserTrade sellerBank tradeId
           (pushUserTrade buyerBank tradeId
              (pushUserTrade seller tradeId
                 (pushUserTrade (sender env) tradeId (userTrades s))));
       exchangeRates := exchangeRates s;
       nextTradeId := next |} in
  mret (s', ext,
        [CrossBorderTradeInitiated tradeId (sender env) seller pyusdAmount
           buyerCountry sellerCountry],
        tradeId).

Definition executeComplianceCheck (env : Env) (s : State) (ext : Ext) (id : Z)
  : Result (State * Ext * list Event) :=
  _ ← onlyTradeParticipant env s id;
  let t := trade s id in
  _ ← require (bool_decide (status t = INITIATED)) "Invalid trade status";
  dcsa ← isDCSAVerified ext (letterOfCreditHash t);
  _ ← require dcsa "FORTE VIOLATION: Letter of credit not DCSA verified";
  let t' :=
    {| tradeId := tradeId t; buyer := buyer t; seller := seller t;
       buyerBank := buyerBank t; sellerBank := sellerBank t;
       pyusdAmount := pyusdAmount t; localAmount := localAmount t;
       localCurrency := localCurrency t; buyerCountry := buyerCountry t;
       sellerCountry := sellerCountry t; letterOfCreditHash := letterOfCreditHash t;
       gleifVerified := true; complianceCleared := true;
       status := COMPLIANCE_CHECK; createdAt := createdAt t;
       settledAt := settledAt t |} in
  mret (setTrade s id t', ext, [ComplianceCleared id true true]).

Definition withStatus (t : CrossBorderTrade) (st : TradeStatus) (settled : Z)
  : CrossBorderTrade :=
  {| tradeId := tradeId t; buyer := buyer t; seller := seller t;
     buyerBank := buyerBank t; sellerBank := sellerBank t;
     pyusdAmount := pyusdAmount t; localAmount := localAmount t;
     localCurrency := localCurrency t; buyerCountry := buyerCountry t;
     sellerCountry := sellerCountry t; letterOfCreditHash := letterOfCreditHash t;
     gleifVerified := gleifVerified t; complianceCleared := complianceCleared t;
     status := st; createdAt := createdAt t; settledAt := settled |}.

(** What the contract calls made during one token call do to the state and
    to the contracts outside, and the events they emit. *)
Definition Reentry : Type := State -> Ext -> State * Ext * list Event.

(** [trade] is a storage reference: the status is written into the trade
    as the token call left it. *)
Definition escrowPYUSD (during : Reentry) (env : Env) (s : State) (ext : Ext) (id : Z)
  : Result (State * Ext * list Event) :=
  _ ← onlyTradeParticipant env s id;
  let t := trade s id in
  _ ← require (bool_decide (status t = COMPLIANCE_CHECK)) "Compliance not cleared";
  _ ← require (complianceCleared t) "Trade not compliant";
  let '(s1, ext1, events1) := during s ext in
  r ← pyusdTransferFrom ext1 (this env) (buyer t) (this env) (pyusdAmount t);
  _ ← require r.1 "PYUSD escrow transfer failed";
  let t1 := trade s1 id in
  mret (setTrade s1 id (withStatus t1 PYUSD_ESCROWED (settledAt t1)), r.2, events1).

Definition executeInstantSettlement (first second third : Reentry) (env : Env)
    (s : State) (ext : Ext) (id : Z) : Result (State * Ext * list Event) :=
  _ ← onlyTradeParticipant env s id;
  let t := trade s id in
  _ ← require (bool_decide (status t = PYUSD_ESCROWED)) "PYUSD not escrowed";
  _ ← require (negb (_isOnSanctionsList (seller t)))
        "FORTE VIOLATION: Seller sanctions check failed";
  p98 ← checked_mul (pyusdAmount t) 98;
  let sellerAmount := p98 / 100 in
  p1 ← checked_mul (pyusdAmount t) 1;
  let buyerBankFee := p1 / 100 in
  p1' ← checked_mul (pyusdAmount t) 1;
  let sellerBankFee := p1' / 100 in
  let '(s1, ext1, events1) := first s ext in
  r1 ← pyusdTransfer ext1 (this env) (seller t) sellerAmount;
  _ ← require r1.1 "Seller payment failed";
  let '(s2, ext2, events2) := second s1 r1.2 in
  r2 ← pyusdTransfer ext2 (this env) (buyerBank (trade s1 id)) buyerBankFee;
  _ ← require r2.1 "Buyer bank fee failed";
  let '(s3, ext3, events3) := third s2 r2.2 in
  r3 ← pyusdTransfer ext3 (this env) (sellerBank (trade s2 id)) sellerBankFee;
  _ ← require r3.1 "Seller bank fee failed";
  let t3 := trade s3 id in
  mret (setTrade s3 id (withStatus t3 SETTLED (timestamp env)), r3.2,
        (events1 ++ events2 ++ events3
         ++ [InstantSettlement id (pyusdAmount t3) (timestamp env)])%list).

Definition initiateCrossChainTrade (env : Env) (s : State) (ext : Ext)
    (id destinationChainId : Z) (destinationContract : address)
  : Result (State * Ext * list Event) :=
  _ ← onlyTradeParticipant env s id;
  let t := trade s id in
  _ ← require (bool_decide (status t = SETTLED)) "Trade not settled";
  mret (s, ext, [InstantSettlement id (pyusdAmount t) (timestamp env)]).

(** One call of an external function; [first], [second] and [third] are
    what happens during its token calls. *)
Definition dispatch (first second third : Reentry) (env : Env) (call : Call)
    (s : State) (ext : Ext) : Result (State * Ext * list Event) :=
  match call with
  | InitiateCrossBorderTrade seller buyerBank sellerBank localAmount localCurrency
      buyerCountry sellerCountry letterOfCreditHash buyerLEI sellerLEI =>
      r ← initiateCrossBorderTrade env s ext seller buyerBank sellerBank localAmount
            localCurrency buyerCountry sellerCountry letterOfCreditHash
            buyerLEI sellerLEI;
      mret r.1
  | ExecuteComplianceCheck id => executeComplianceCheck env s ext id
  | EscrowPYUSD id => escrowPYUSD first env s ext id
  | ExecuteInstantSettlement id => executeInstantSettlement first second third env s ext id
  | InitiateCrossChainTrade id chain dest =>
      initiateCrossChainTrade env s ext id chain dest
  | UpdateExchangeRate currency rate =>
      mret (updateExchangeRate s currency rate, ext, [])
  end.

(** The callbacks of one token call, run one after the other at time [now]
    on the contract at [self].  A callback that fails is undone, and the
    token goes on. *)
Fixpoint reenter (now : Z) (self : address) (callbacks : Callbacks) (s : State)
    (ext : Ext) : State * Ext * list Event :=
  match callbacks with
  | NoCallback => (s, ext, [])
  | Callback caller call first second third rest =>
      let env := {| sender := Z.pos caller; timestamp := now; this := self |} in
      match dispatch (reenter now self first) (reenter now self second)
              (reenter now self third) env call s ext with
      | Success (s', ext', events) =>
          let '(s'', ext'', events') := reenter now self rest s' ext' in
          (s'', ext'', (events ++ events')%list)
      | _ => reenter now self rest s ext
      end
  end.

(** Whatever is done during a token call, the state before and the state
    after are related by [R]. *)
Definition respects (R : State -> State -> Prop) (during : Reentry) : Prop :=
  forall s ext s' ext' events, during s ext = (s', ext', events) -> R s s'.

(** One transaction. *)
Definition execute (env : Env) (call : Call) (token : Token) (s : State) (ext : Ext)
  : Result (State * Ext * list Event) :=
  dispatch (reenter (timestamp env) (this env) (first token))
    (reenter (timestamp env) (this env) (second token))
    (reenter (timestamp env) (this env) (third token)) env call s ext.

(** The states the contract can be in: the constructor's, and those a
    transaction leads to, whatever the token does.  [msg.sender] is never
    the zero address. *)
Inductive reachable : State -> Prop :=
| reachable_constructor (token adapter : address) :
    reachable (constructor token adapter)
| reachable_execute (env : Env) (call : Call) (token : Token) (s s' : State)
    (ext ext' : Ext) (events : list Event) :
    reachable s ->
    sender env <> 0 ->
    execute env call token s ext = Success (s', ext', events) ->
    reachable s'.

End External.

End Pyusd.

(* ===================================================================== *)
(** * InstitutionalAsset.sol                                              *)
(* ===================================================================== *)

Module Asset.
Import Solidity.

(** [InstitutionalAssetParams.AssetStatus] *)
Inductive AssetStatus : Type :=
| PENDING_VERIFICATION
| COMPLIANCE_REVIEW
| APPROVED
| ACTIVE
| MATURED
| DEFAULT
| LIQUIDATED.

#[global] Instance AssetStatus_eq_dec : EqDecision AssetStatus.
Proof. solve_decision. Defined.

(** The fields of [InstitutionalAssetParams.InstitutionalAsset] this
    contract reads or writes; the others are stored and handed back by
    [getAssetData] unchanged. *)
Record AssetData : Type := {
  corporateName : string;
  totalFractions : Z;
  minimumFractionSize : Z;
  status : AssetStatus;
  lastUpdated : Z;
  manager : address
}.

Inductive Event : Type :=
| Transfer (from to : address) (value : Z)
| Approval (owner spender : address) (value : Z)
| InvestorWhitelisted (investor : address) (class : Z)
| TransfersStatusChanged (enabled : bool)
| ComplianceRuleTriggered (rule : string) (account : address) (passed : bool).

Record State : Type := {
  name : string;
  symbol : string;
  totalSupply : Z;
  assetData : AssetData;
  zkPretAdapter : address;
  balances : gmap Z Z;
  allowances : gmap (Z * Z) Z;
  holders : list address;
  isHolder : gmap Z bool;
  whitelistedInvestors : gmap Z bool;
  investorClasses : gmap Z Z;
  transfersEnabled : bool
}.

Record Env : Type := {
  sender : address;
  timestamp : Z
}.

Definition setBalances (s : State) (b : gmap Z Z) : State :=
  {| name := name s; symbol := symbol s; totalSupply := totalSupply s;
     assetData := assetData s; zkPretAdapter := zkPretAdapter s;
     balances := b; allowances := allowances s; holders := holders s;
     isHolder := isHolder s; whitelistedInvestors := whitelistedInvestors s;
     investorClasses := investorClasses s; transfersEnabled := transfersEnabled s |}.

Definition setAllowances (s : State) (a : gmap (Z * Z) Z) : State :=
  {| name := name s; symbol := symbol s; totalSupply := totalSupply s;
     assetData := assetData s; zkPretAdapter := zkPretAdapter s;
     balances := balances s; allowances := a; holders := holders s;
     isHolder := isHolder s; whitelistedInvestors := whitelistedInvestors s;
     investorClasses := investorClasses s; transfersEnabled := transfersEnabled s |}.

Definition setHolders (s : State) (h : list address) (i : gmap Z bool) : State :=
  {| name := name s; symbol := symbol s; totalSupply := totalSupply s;
     assetData := assetData s; zkPretAdapter := zkPretAdapter s;
     balances := balances s; allowances := allowances s; holders := h;
     isHolder := i; whitelistedInvestors := whitelistedInvestors s;
     investorClasses := investorClasses s; transfersEnabled := transfersEnabled s |}.

Definition setWhitelist (s : State) (w : gmap Z bool) (c : gmap Z Z) : State :=
  {| name := name s; symbol := symbol s; totalSupply := totalSupply s;
     assetData := assetData s; zkPretAdapter := zkPretAdapter s;
     balances := balances s; allowances := allowances s; holders := holders s;
     isHolder := isHolder s; whitelistedInvestors := w;
     investorClasses := c; transfersEnabled := transfersEnabled s |}.

Definition setTransfersEnabled (s : State) (e : bool) : State :=
  {| name := name s; symbol := symbol s; totalSupply := totalSupply s;
     assetData := assetData s; zkPretAdapter := zkPretAdapter s;
     balances := balances s; allowances := allowances s; holders := holders s;
     isHolder := isHolder s; whitelistedInvestors := whitelistedInvestors s;
     investorClasses := investorClasses s; transfersEnabled := e |}.

Definition setAssetData (s : State) (d : AssetData) : State :=
  {| name := name s; symbol := symbol s; totalSupply := totalSupply s;
     assetData := d; zkPretAdapter := zkPretAdapter s;
     balances := balances s; allowances := allowances s; holders := holders s;
     isHolder := isHolder s; whitelistedInvestors := whitelistedInvestors s;
     investorClasses := investorClasses s; transfersEnabled := transfersEnabled s |}.

Definition _isOnSanctionsList (account : address) : bool :=
  bool_decide (account = sanctioned).

Definition _checkCrossBorderCompliance (from to : address) : bool := true.

Definition _extractSymbol (corporateName : string) : string :=
  if (3 <=? String.length corporateName)%nat
  then String.substring 0 3 corporateName
  else "IAT".

Definition constructor (_assetData : AssetData) (_zkPretAdapter : address) : Result State :=
  supply ← checked_mul (totalFractions _assetData) (10 ^ 18);
  mret {| name := corporateName _assetData +:+ " Institutional Asset";
          symbol := "IA-" +:+ _extractSymbol (corporateName _assetData);
          totalSupply := supply;
          assetData := _assetData;
          zkPretAdapter := _zkPretAdapter;
          balances := <[manager _assetData := supply]> ∅;
          allowances := ∅;
          holders := [manager _assetData];
          isHolder := <[manager _assetData := true]> ∅;
          whitelistedInvestors := <[manager _assetData := true]> ∅;
          investorClasses := <[manager _assetData := 2]> ∅;
          transfersEnabled := true |}.

(** The index of the first occurrence of [holder] in the array, counted
    from [i]: the [for] loop of [_removeHolder] up to its [break]. *)
Fixpoint indexOf (holder : address) (l : list address) (i : nat) : option nat :=
  match l with
  | [] => None
  | h :: rest => if bool_decide (h = holder) then Some i else indexOf holder rest (S i)
  end.

Definition _removeHolder (s : State) (holder : address) : Result State :=
  _ ← require (readBool (isHolder s) holder) "Not a holder";
  match indexOf holder (holders s) 0 with
  | Some i =>
      let lastHolder := List.last (holders s) 0 in
      let moved := <[i := lastHolder]> (holders s) in
      mret (setHolders s (take (length moved - 1) moved)
              (<[holder := false]> (isHolder s)))
  | None => mret s
  end.

Definition _transfer (s : State) (from to : address) (amount : Z)
  : Result (State * list Event * bool) :=
  _ ← require (negb (bool_decide (from = 0))) "ERC20: transfer from the zero address";
  _ ← require (negb (bool_decide (to = 0))) "ERC20: transfer to the zero address";
  _ ← require (amount <=? read (balances s) from) "ERC20: transfer amount exceeds balance";
  debited ← checked_sub (read (balances s) from) amount;
  let s := setBalances s (<[from := debited]> (balances s)) in
  credited ← checked_add (read (balances s) to) amount;
  let s := setBalances s (<[to := credited]> (balances s)) in
  let s :=
    if negb (readBool (isHolder s) to)
    then setHolders s (holders s ++ [to])%list (<[to := true]> (isHolder s))
    else s in
  s ← (if read (balances s) from =? 0 then _removeHolder s from else mret s);
  mret (s, [Transfer from to amount], true).

Definition transfersAllowed (s : State) : Result unit :=
  require (transfersEnabled s) "Transfers currently disabled".

Definition onlyWhitelisted (s : State) (account : address) : Result unit :=
  require (readBool (whitelistedInvestors s) account) "Investor not whitelisted".

Definition onlyManager (env : Env) (s : State) : Result unit :=
  require (bool_decide (sender env = manager (assetData s)))
          "Only asset manager can execute".

Definition transfer (env : Env) (s : State) (to : address) (amount : Z)
  : Result (State * list Event * bool) :=
  _ ← transfersAllowed s;
  _ ← onlyWhitelisted s (sender env);
  _ ← onlyWhitelisted s to;
  _ ← require (negb (_isOnSanctionsList to))
        "FORTE RULE 2 VIOLATION: Recipient on sanctions list";
  _ ← require (_checkCrossBorderCompliance (sender env) to)
        "FORTE RULE 3 VIOLATION: Cross-border sanctions violation";
  _ ← require (minimumFractionSize (assetData s) <=? amount)
        "FORTE RULE 10 VIOLATION: Transfer below minimum threshold";
  r ← _transfer s (sender env) to amount;
  mret (r.1.1,
        ([ ComplianceRuleTriggered "RULE_02_OFAC" to (negb (_isOnSanctionsList to));
           ComplianceRuleTriggered "RULE_03_SANCTIONS" to true;
           ComplianceRuleTriggered "RULE_10_MIN_FRACTION" (sender env) true ]
         ++ r.1.2)%list,
        r.2).

Definition transferFrom (env : Env) (s : State) (from to : address) (amount : Z)
  : Result (State * list Event * bool) :=
  _ ← transfersAllowed s;
  _ ← onlyWhitelisted s from;
  _ ← onlyWhitelisted s to;
  let currentAllowance := read (allowances s) (from, sender env) in
  _ ← require (amount <=? currentAllowance) "ERC20: transfer amount exceeds allowance";
  _ ← require (negb (_isOnSanctionsList to))
        "FORTE RULE 2 VIOLATION: Recipient on sanctions list";
  _ ← require (_checkCrossBorderCompliance from to)
        "FORTE RULE 3 VIOLATION: Cross-border sanctions violation";
  _ ← require (minimumFractionSize (assetData s) <=? amount)
        "FORTE RULE 10 VIOLATION: Transfer below minimum threshold";
  remaining ← checked_sub currentAllowance amount;
  let s := setAllowances s (<[(from, sender env) := remaining]> (allowances s)) in
  _transfer s from to amount.

Definition whitelistInvestor (env : Env) (s : State) (investor : address) (class : Z)
  : Result (State * list Event) :=
  _ ← onlyManager env s;
  _ ← require (class <=? 2) "Invalid investor class";
  mret (setWhitelist s (<[investor := true]> (whitelistedInvestors s))
                       (<[investor := class]> (investorClasses s)),
        [InvestorWhitelisted investor class]).

Definition emergencyPause (env : Env) (s : State) : Result (State * list Event) :=
  _ ← onlyManager env s;
  mret (setTransfersEnabled s false,
        [ TransfersStatusChanged false;
          ComplianceRuleTriggered "EMERGENCY_CIRCUIT_BREAKER" (sender env) true ]).

Definition resumeTransfers (env : Env) (s : State) : Result (State * list Event) :=
  _ ← onlyManager env s;
  mret (setTransfersEnabled s true, [TransfersStatusChanged true]).

Definition updateAssetStatus (env : Env) (s : State) (newStatus : AssetStatus)
  : Result (State * list Event) :=
  _ ← onlyManager env s;
  let d := assetData s in
  let s := setAssetData s
             {| corporateName := corporateName d; totalFractions := totalFractions d;
                minimumFractionSize := minimumFractionSize d; status := newStatus;
                lastUpdated := timestamp env; manager := manager d |} in
  let s := if bool_decide (newStatus = DEFAULT) then setTransfersEnabled s false else s in
  mret (s, [Transfer 0 0 0]).

Definition balanceOf (s : State) (account : address) : Z := read (balances s) account.

Definition approve (env : Env) (s : State) (spender : address) (amount : Z)
  : Result (State * list Event * bool) :=
  mret (setAllowances s (<[(sender env, spender) := amount]> (allowances s)),
        [Approval (sender env) spender amount], true).

Definition allowance (s : State) (owner spender : address) : Z :=
  read (allowances s) (owner, spender).

(** The state-changing external functions, with their arguments. *)
Inductive Call : Type :=
| CallTransfer (to : address) (amount : Z)
| CallTransferFrom (from to : address) (amount : Z)
| CallWhitelistInvestor (investor : address) (class : Z)
| CallEmergencyPause
| CallResumeTransfers
| CallUpdateAssetStatus (newStatus : AssetStatus)
| CallApprove (spender : address) (amount : Z).

Definition isTransferCall (call : Call) : bool :=
  match call with
  | CallTransfer _ _ | CallTransferFrom _ _ _ => true
  | _ => false
  end.

(** One transaction. *)
Definition execute (env : Env) (call : Call) (s : State) : Result (State * list Event) :=
  match call with
  | CallTransfer to amount => r ← transfer env s to amount; mret r.1
  | CallTransferFrom from to amount => r ← transferFrom env s from to amount; mret r.1
  | CallWhitelistInvestor investor class => whitelistInvestor env s investor class
  | CallEmergencyPause => emergencyPause env s
  | CallResumeTransfers => resumeTransfers env s
  | CallUpdateAssetStatus newStatus => updateAssetStatus env s newStatus
  | CallApprove spender amount => r ← approve env s spender amount; mret r.1
  end.

(** The sum of all token balances. *)
Definition sumBalances (b : gmap Z Z) : Z := map_fold (fun _ v acc => v + acc) 0 b.

(** The states of a deployed contract. *)
Inductive reachable : State -> Prop :=
| reachable_constructor (data : AssetData) (adapter : address) (s : State) :
    constructor data adapter = Success s ->
    reachable s
| reachable_execute (env : Env) (call : Call) (s s' : State) (events : list Event) :
    reachable s ->
    execute env call s = Success (s', events) ->
    reachable s'.

End Asset.

(* ===================================================================== *)
(** * Concrete inputs used to run the definitions                         *)
(* ===================================================================== *)

Module Fixture.
Import JS Runtime.

(** Arithmetic on numbers that are exactly representable. *)
Definition exact : Q -> Q := fun q => q.

Definition world0 : World :=
  {| clock := fun n => 1700000000000 + Z.of_nat n; reads := 0; console := [] |}.

(** The value a computation returns, if it returns. *)
Definition returned {A : Type} (r : Outcome A * World) : option A :=
  match r with
  | (Returned a, _) => Some a
  | (Thrown _, _) => None
  end.

(** External contracts that accept every request; in [run] the token does
    not call back. *)
Definition allVerified (_ : unit) (_ : string) : Solidity.Result bool := Solidity.Success true.
Definition allDocuments (_ : unit) (_ : Z) : Solidity.Result bool := Solidity.Success true.
Definition tokenTransfer (_ : unit) (_ _ : Solidity.address) (_ : Z)
  : Solidity.Result (bool * unit) := Solidity.Success (true, tt).
Definition tokenTransferFrom (_ : unit) (_ _ _ : Solidity.address) (_ : Z)
  : Solidity.Result (bool * unit) := Solidity.Success (true, tt).

Definition run (env : Pyusd.Env) (call : Pyusd.Call) (s : Pyusd.State)
  : Solidity.Result (Pyusd.State * unit * list Pyusd.Event) :=
  Pyusd.execute unit allVerified allDocuments tokenTransfer tokenTransferFrom env call
    Pyusd.quiet s tt.

Definition buyerEnv (now : Z) : Pyusd.Env :=
  {| Pyusd.sender := 10; Pyusd.timestamp := now; Pyusd.this := 99 |}.

(** The state after the calls of a list, each made by the buyer at the
    given time; a failing call leaves the state as it is. *)
Fixpoint runAll (calls : list (Z * Pyusd.Call)) (s : Pyusd.State) : Pyusd.State :=
  match calls with
  | [] => s
  | (now, call) :: rest =>
      match run (buyerEnv now) call s with
      | Solidity.Success r => runAll rest r.1.1
      | _ => runAll rest s
      end
  end.

(** The transaction of the [checkRules] command of [sdk.ts]. *)
Definition demoData : ZKPret.TransactionData :=
  {| ZKPret.corporateName := Some "APPLE INC";
     ZKPret.legalEntityIdentifier := Some "HWUPKR0MPOU8FGXBT394";
     ZKPret.assetType := Some "SUPPLY_CHAIN_INVOICE";
     ZKPret.principalAmount := Some (ofZ 5000000);
     ZKPret.pyusdAmount := Some (ofZ 5000000);
     ZKPret.interestRate := Some (ofZ 850);
     ZKPret.creditRating := Some "BBB";
     ZKPret.assetDescription := Some "90-day supplier invoice from verified vendor";
     ZKPret.documentHash := Some "0x1234567890abcdef";
     ZKPret.tradeDocuments := Some ["invoice_001.pdf"; "bill_of_lading.pdf"];
     ZKPret.totalFractions := Some (ofZ 5000);
     ZKPret.minimumFractionSize := Some (ofZ 1000);
     ZKPret.transferAmount := Some (ofZ 1000);
     ZKPret.recipient := Some "0x70997970C51812dc3A010C7d01b50e0d17dc79C8";
     ZKPret.buyerCountry := Some "US";
     ZKPret.sellerCountry := Some "IN" |}.

(** The demo transaction with an asset type that names a property every
    object inherits. *)
Definition inheritedTypeData : ZKPret.TransactionData :=
  {| ZKPret.corporateName := Some "APPLE INC";
     ZKPret.legalEntityIdentifier := Some "HWUPKR0MPOU8FGXBT394";
     ZKPret.assetType := Some "constructor";
     ZKPret.principalAmount := Some (ofZ 5000000);
     ZKPret.pyusdAmount := Some (ofZ 5000000);
     ZKPret.interestRate := Some (ofZ 850);
     ZKPret.creditRating := Some "BBB";
     ZKPret.assetDescription := Some "90-day supplier invoice from verified vendor";
     ZKPret.documentHash := Some "0x1234567890abcdef";
     ZKPret.tradeDocuments := Some ["invoice_001.pdf"; "bill_of_lading.pdf"];
     ZKPret.totalFractions := Some (ofZ 5000);
     ZKPret.minimumFractionSize := Some (ofZ 1000);
     ZKPret.transferAmount := Some (ofZ 1000);
     ZKPret.recipient := Some "0x70997970C51812dc3A010C7d01b50e0d17dc79C8";
     ZKPret.buyerCountry := Some "US";
     ZKPret.sellerCountry := Some "IN" |}.

(** The demo transaction without its asset description. *)
Definition undescribedData : ZKPret.TransactionData :=
  {| ZKPret.corporateName := Some "APPLE INC";
     ZKPret.legalEntityIdentifier := Some "HWUPKR0MPOU8FGXBT394";
     ZKPret.assetType := Some "SUPPLY_CHAIN_INVOICE";
     ZKPret.principalAmount := Some (ofZ 5000000);
     ZKPret.pyusdAmount := Some (ofZ 5000000);
     ZKPret.interestRate := Some (ofZ 850);
     ZKPret.creditRating := Some "BBB";
     ZKPret.assetDescription := None;
     ZKPret.documentHash := Some "0x1234567890abcdef";
     ZKPret.tradeDocuments := Some ["invoice_001.pdf"; "bill_of_lading.pdf"];
     ZKPret.totalFractions := Some (ofZ 5000);
     ZKPret.minimumFractionSize := Some (ofZ 1000);
     ZKPret.transferAmount := Some (ofZ 1000);
     ZKPret.recipient := Some "0x70997970C51812dc3A010C7d01b50e0d17dc79C8";
     ZKPret.buyerCountry := Some "US";
     ZKPret.sellerCountry := Some "IN" |}.

Definition rule (id name action : string) : Forte.Rule :=
  {| Forte.ruleId := id; Forte.name := name; Forte.action := action |}.

(** The policy that [JSON.parse] makes of
    [policies/institutional-rwa-complete.json]: the twelve elements of its
    [rules] array, RULE_01 to RULE_12, in the order of the file. The
    objects named RULE_13 and RULE_14 are not among them: the file holds
    them inside [conditions.and] of RULE_01, which the engine never reads,
    so [checkRules] on this policy evaluates neither. *)
Definition demoPolicy : Forte.Policy :=
  {| Forte.policyName := "Institutional RWA Complete Compliance";
     Forte.rules :=
       [ rule "RULE_01" "Enhanced KYC with GLEIF Verification" "DENY";
         rule "RULE_02" "Enhanced OFAC Real-time Check" "DENY";
         rule "RULE_03" "Enhanced Sanctions Cross-border Check" "DENY";
         rule "RULE_04" "GLEIF Corporate Registration Verification" "DENY";
         rule "RULE_05" "BPMN Business Process Compliance" "DENY";
         rule "RULE_06" "ACTUS Risk Assessment Threshold" "DENY";
         rule "RULE_07" "DCSA Trade Document Integrity" "DENY";
         rule "RULE_08" "Optimal Fraction Calculation" "ADJUST";
         rule "RULE_09" "Metadata Completeness Score" "WARN";
         rule "RULE_10" "Minimum Fraction Threshold" "DENY";
         rule "RULE_11" "Fraction Liquidity Optimization" "WARN";
         rule "RULE_12" "Enhanced Metadata Completeness Enforcement" "DENY" ] |}.

Definition demoRegistry : gmap string Forte.Policy := <["POLICY_DEMO" := demoPolicy]> ∅.

(** The same rules, last one first. *)
Definition reversedPolicy : Forte.Policy :=
  {| Forte.policyName := Forte.policyName demoPolicy;
     Forte.rules := rev (Forte.rules demoPolicy) |}.

Definition reversedRegistry : gmap string Forte.Policy :=
  <["POLICY_REVERSED" := reversedPolicy]> ∅.

Definition initiate : Pyusd.Call :=
  Pyusd.InitiateCrossBorderTrade 11 12 13 2000000000 "USD" "US" "GB" 77
    "HWUPKR0MPOU8FGXBT394" "5493001KJTIIGC8Y1R12".

Definition deployed : Pyusd.State := Pyusd.constructor 1 2.

(** A trade initiated at time 1000, then cleared, escrowed, and settled
    300000 seconds later. *)
Definition initiated : Pyusd.State := runAll [(1000, initiate)] deployed.

Definition cleared : Pyusd.State :=
  runAll [(1001, Pyusd.ExecuteComplianceCheck 0)] initiated.

Definition escrowed : Pyusd.State := runAll [(1002, Pyusd.EscrowPYUSD 0)] cleared.

Definition settledLate : Pyusd.State :=
  runAll [(301000, Pyusd.ExecuteInstantSettlement 0)] escrowed.

(** The same trade settled 1000 seconds after its creation. *)
Definition settledInTime : Pyusd.State :=
  runAll [(2000, Pyusd.ExecuteInstantSettlement 0)] escrowed.

(** An asset of 5000 fractions managed by account 10; account 20 is
    whitelisted and receives 1000 token units. *)
Definition assetData : Asset.AssetData :=
  {| Asset.corporateName := "APPLE INC";
     Asset.totalFractions := 5000;
     Asset.minimumFractionSize := 1;
     Asset.status := Asset.ACTIVE;
     Asset.lastUpdated := 0;
     Asset.manager := 10 |}.

Definition managerEnv : Asset.Env := {| Asset.sender := 10; Asset.timestamp := 1000 |}.

Fixpoint runAsset (calls : list Asset.Call) (s : Asset.State) : Asset.State :=
  match calls with
  | [] => s
  | call :: rest =>
      match Asset.execute managerEnv call s with
      | Solidity.Success r => runAsset rest r.1
      | _ => runAsset rest s
      end
  end.

Definition minted : Asset.State :=
  match Asset.constructor assetData 2 with
  | Solidity.Success s => s
  | _ => Asset.setBalances
           {| Asset.name := ""; Asset.symbol := ""; Asset.totalSupply := 0;
              Asset.assetData := assetData; Asset.zkPretAdapter := 0;
              Asset.balances := ∅; Asset.allowances := ∅; Asset.holders := [];
              Asset.isHolder := ∅; Asset.whitelistedInvestors := ∅;
              Asset.investorClasses := ∅; Asset.transfersEnabled := false |} ∅
  end.

Definition whitelisted : Asset.State :=
  runAsset [Asset.CallWhitelistInvestor 20 1] minted.

Definition transferred : Asset.State :=
  runAsset [Asset.CallTransfer 20 1000] whitelisted.

End Fixture.

(* ===================================================================== *)
(** * Further concrete inputs                                             *)
(* ===================================================================== *)

Module Scenarios.
Import JS.

(** The demo transaction with a principal of 20000000. *)
Definition largeData : ZKPret.TransactionData :=
  {| ZKPret.corporateName := Some "APPLE INC";
     ZKPret.legalEntityIdentifier := Some "HWUPKR0MPOU8FGXBT394";
     ZKPret.assetType := Some "SUPPLY_CHAIN_INVOICE";
     ZKPret.principalAmount := Some (ofZ 20000000);
     ZKPret.pyusdAmount := Some (ofZ 20000000);
     ZKPret.interestRate := Some (ofZ 850);
     ZKPret.creditRating := Some "AAA";
     ZKPret.assetDescription := Some "90-day supplier invoice from verified vendor";
     ZKPret.documentHash := Some "0x1234567890abcdef";
     ZKPret.tradeDocuments := Some ["invoice_001.pdf"; "bill_of_lading.pdf"];
     ZKPret.totalFractions := Some (ofZ 5000);
     ZKPret.minimumFractionSize := Some (ofZ 1000);
     ZKPret.transferAmount := Some (ofZ 1000);
     ZKPret.recipient := Some "0x70997970C51812dc3A010C7d01b50e0d17dc79C8";
     ZKPret.buyerCountry := Some "US";
     ZKPret.sellerCountry := Some "IN" |}.

(** The demo transaction from the US to GB, its PYUSD amount zero and its
    principal 200000000. *)
Definition principalOnlyData : ZKPret.TransactionData :=
  {| ZKPret.corporateName := Some "APPLE INC";
     ZKPret.legalEntityIdentifier := Some "HWUPKR0MPOU8FGXBT394";
     ZKPret.assetType := Some "SUPPLY_CHAIN_INVOICE";
     ZKPret.principalAmount := Some (ofZ 200000000);
     ZKPret.pyusdAmount := Some (ofZ 0);
     ZKPret.interestRate := Some (ofZ 850);
     ZKPret.creditRating := Some "AAA";
     ZKPret.assetDescription := Some "90-day supplier invoice from verified vendor";
     ZKPret.documentHash := Some "0x1234567890abcdef";
     ZKPret.tradeDocuments := Some ["invoice_001.pdf"; "bill_of_lading.pdf"];
     ZKPret.totalFractions := Some (ofZ 5000);
     ZKPret.minimumFractionSize := Some (ofZ 1000);
     ZKPret.transferAmount := Some (ofZ 1000);
     ZKPret.recipient := Some "0x70997970C51812dc3A010C7d01b50e0d17dc79C8";
     ZKPret.buyerCountry := Some "US";
     ZKPret.sellerCountry := Some "GB" |}.

(** Account 50 is no party to the demonstration trade. *)
Definition outsiderEnv : Pyusd.Env :=
  {| Pyusd.sender := 50; Pyusd.timestamp := 1500; Pyusd.this := 99 |}.

(** A token in league with the buyer's bank, account 12: while its
    [transferFrom] runs, the bank calls [escrowPYUSD(0)] and then
    [executeInstantSettlement(0)]. *)
Definition reentrant : Pyusd.Token :=
  {| Pyusd.first :=
       Pyusd.Callback 12 (Pyusd.EscrowPYUSD 0)
         Pyusd.NoCallback Pyusd.NoCallback Pyusd.NoCallback
         (Pyusd.Callback 12 (Pyusd.ExecuteInstantSettlement 0)
            Pyusd.NoCallback Pyusd.NoCallback Pyusd.NoCallback Pyusd.NoCallback);
     Pyusd.second := Pyusd.NoCallback;
     Pyusd.third := Pyusd.NoCallback |}.

Definition runWith (token : Pyusd.Token) (env : Pyusd.Env) (call : Pyusd.Call)
    (s : Pyusd.State) : Solidity.Result (Pyusd.State * unit * list Pyusd.Event) :=
  Pyusd.execute unit Fixture.allVerified Fixture.allDocuments Fixture.tokenTransfer
    Fixture.tokenTransferFrom env call token s tt.

(** The state the re-entered [escrowPYUSD(0)] of the buyer ends in. *)
Definition reentered : Pyusd.State * unit * list Pyusd.Event :=
  match runWith reentrant (Fixture.buyerEnv 1002) (Pyusd.EscrowPYUSD 0) Fixture.cleared with
  | Solidity.Success r => r
  | _ => (Fixture.cleared, tt, [])
  end.

(** What the callbacks of [reentrant] leave behind when [transferFrom]
    returns to the buyer's [escrowPYUSD(0)], at time 1002. *)
Definition midEscrow : Pyusd.State * unit * list Pyusd.Event :=
  Pyusd.reenter unit Fixture.allVerified Fixture.allDocuments Fixture.tokenTransfer
    Fixture.tokenTransferFrom 1002 99 (Pyusd.first reentrant) Fixture.cleared tt.

(** The manager lets account 30 spend 500 token units; account 30 calls. *)
Definition approved : Asset.State :=
  Fixture.runAsset [Asset.CallApprove 30 500] Fixture.whitelisted.

Definition spenderEnv : Asset.Env := {| Asset.sender := 30; Asset.timestamp := 2000 |}.

End Scenarios.

(* ===================================================================== *)
(** * What the contract keeps true of its trades                          *)
(* ===================================================================== *)

Module PyusdInvariant.
Import Solidity Pyusd.

(** The statuses some function of the contract assigns. *)
Definition assigned (st : TradeStatus) : bool :=
  match st with
  | INITIATED | COMPLIANCE_CHECK | PYUSD_ESCROWED | SETTLED => true
  | LC_ISSUED | GOODS_SHIPPED | SETTLEMENT_READY | DISPUTED | CANCELLED => false
  end.

(** The fields [initiateCrossBorderTrade] writes and nothing changes
    afterwards. *)
Definition sameDeal (t t' : CrossBorderTrade) : Prop :=
  tradeId t' = tradeId t /\ buyer t' = buyer t /\ seller t' = seller t
  /\ buyerBank t' = buyerBank t /\ sellerBank t' = sellerBank t
  /\ pyusdAmount t' = pyusdAmount t /\ localAmount t' = localAmount t
  /\ localCurrency t' = localCurrency t /\ buyerCountry t' = buyerCountry t
  /\ sellerCountry t' = sellerCountry t
  /\ letterOfCreditHash t' = letterOfCreditHash t /\ createdAt t' = createdAt t.

(** What holds of the trade stored under [id]. *)
Definition recorded (id : Z) (t : CrossBorderTrade) : Prop :=
  tradeId t = id
  /\ assigned (status t) = true
  /\ (complianceCleared t = true <-> status t <> INITIATED)
  /\ gleifVerified t = complianceCleared t
  /\ (status t = INITIATED \/ status t = COMPLIANCE_CHECK -> settledAt t = 0)
  /\ 1000 * 1000000 <= pyusdAmount t
  /\ buyer t <> 0
  /\ buyer t <> sanctioned /\ seller t <> sanctioned
  /\ buyerCountry t <> "IR" /\ sellerCountry t <> "IR".

(** The trades on record are those numbered from 0 to [nextTradeId - 1]. *)
Definition wellFormed (s : State) : Prop :=
  0 <= nextTradeId s
  /\ forall id,
       (0 <= id < nextTradeId s ->
        exists t, trades s !! id = Some t /\ recorded id t)
       /\ (~ 0 <= id < nextTradeId s -> trades s !! id = None).

(** The callers [onlyTradeParticipant] lets through. *)
Definition isParticipant (a : address) (t : CrossBorderTrade) : Prop :=
  a = buyer t \/ a = seller t \/ a = buyerBank t \/ a = sellerBank t.

(** How far a trade has come, up to its escrow: 0 for INITIATED, 1 for
    COMPLIANCE_CHECK, 4 from PYUSD_ESCROWED on. *)
Definition progress (t : CrossBorderTrade) : Z := Z.min 4 (ordinal (status t)).

(** From a well-formed state to a well-formed state in which every trade
    is still on record, with its terms, and has not fallen behind. *)
Definition evolves (s s' : State) : Prop :=
  wellFormed s ->
  wellFormed s'
  /\ forall id t, trades s !! id = Some t ->
       exists t', trades s' !! id = Some t' /\ sameDeal t t'
                  /\ progress t <= progress t'.

(** The same, and the trade [t] under [id] is left exactly as it is. *)
Definition keeps (id : Z) (t : CrossBorderTrade) (s s' : State) : Prop :=
  evolves s s'
  /\ (wellFormed s -> trades s !! id = Some t -> trades s' !! id = Some t).

End PyusdInvariant.

(* ===================================================================== *)
(** * Integers among the numbers                                          *)
(* ===================================================================== *)

Module Exactness.
Import JS.

(** What round-to-nearest does on the integers a double holds exactly:
    it leaves every integer of magnitude at most 2^53 as it is. *)
Definition exactOnIntegers (round : Q -> Q) : Prop :=
  forall (q : Q) (z : Z), q == inject_Z z -> Z.abs z <= 2 ^ 53 -> round q == inject_Z z.

(** The number [n] is the integer [z]. *)
Definition represents (n : number) (z : Z) : Prop :=
  match n with
  | Fin q => q == inject_Z z
  | _ => False
  end.

(** The number [n] is an integer between [lo] and [hi]. *)
Definition within (n : number) (lo hi : Z) : Prop :=
  exists z, represents n z /\ lo <= z <= hi.

End Exactness.

(* ===================================================================== *)
(** * InstitutionalAsset.sol: views, and what it keeps true of its holders *)
(* ===================================================================== *)

Module AssetViews.
Import Solidity Asset.

Definition getHolders (s : State) : list address := holders s.

Definition getHolderCount (s : State) : Z := Z.of_nat (length (holders s)).

Definition isTransferCompliant (s : State) (from to : address) (amount : Z) : bool :=
  if negb (transfersEnabled s) then false
  else if negb (readBool (whitelistedInvestors s) from)
          || negb (readBool (whitelistedInvestors s) to) then false
  else if _isOnSanctionsList to then false
  else if negb (_checkCrossBorderCompliance from to) then false
  else if amount <? minimumFractionSize (assetData s) then false
  else true.

(** The values of type [uint256]. *)
Definition uint256 (z : Z) : Prop := 0 <= z <= MAX_UINT256.

(** The amounts a call carries are [uint256] values. *)
Definition wellTyped (call : Call) : Prop :=
  match call with
  | CallTransfer _ amount | CallTransferFrom _ _ amount | CallApprove _ amount =>
      uint256 amount
  | CallWhitelistInvestor _ class => uint256 class
  | CallEmergencyPause | CallResumeTransfers | CallUpdateAssetStatus _ => True
  end.

(** The states of a contract deployed and called with [uint256] amounts. *)
Inductive deployed : State -> Prop :=
| deployed_constructor (data : AssetData) (adapter : address) (s : State) :
    uint256 (totalFractions data) ->
    uint256 (minimumFractionSize data) ->
    constructor data adapter = Success s ->
    deployed s
| deployed_execute (env : Env) (call : Call) (s s' : State) (events : list Event) :
    deployed s ->
    wellTyped call ->
    execute env call s = Success (s', events) ->
    deployed s'.

(** The [holders] array and the [isHolder] flags describe one set, which
    contains every account with a balance. *)
Definition holdersConsistent (s : State) : Prop :=
  NoDup (holders s)
  /\ forall a,
       (readBool (isHolder s) a = true <-> a ∈ holders s)
       /\ (balanceOf s a <> 0 -> a ∈ holders s).

End AssetViews.

(* ===================================================================== *)
(** * Properties of the ZK PRET mock                                      *)
(* ===================================================================== *)

Module ZKPretSpec.
Import JS Runtime ZKPret.

Lemma prefix_spec (needle hay : string) :
  String.prefix needle hay = true <-> exists post, hay = needle +:+ post.
Proof.
  revert hay. induction needle as [|c needle IH]; intros [|d hay]; simpl.
  - split; [intros _; exists ""; reflexivity | reflexivity].
  - split; [intros _; exists (String d hay); reflexivity | reflexivity].
  - split; [discriminate | intros [post H]; discriminate H].
  - destruct (Ascii.ascii_dec c d) as [->|Hne].
    + rewrite IH. split; intros [post H]; exists post.
      * now rewrite H.
      * now injection H.
    + split; [discriminate | intros [post H]; injection H; congruence].
Qed.

Lemma includes_unfold (hay needle : string) :
  includes hay needle =
    if String.prefix needle hay then true
    else match hay with
         | EmptyString => false
         | String _ rest => includes rest needle
         end.
Proof. destruct hay; reflexivity. Qed.

(** [includes] is substring containment. *)
Lemma includes_spec (hay needle : string) :
  includes hay needle = true <-> exists pre post, hay = pre +:+ needle +:+ post.
Proof.
  induction hay as [|c hay IH]; rewrite includes_unfold.
  - destruct (String.prefix needle "") eqn:E.
    + apply prefix_spec in E as [post E]. split; [|reflexivity].
      intros _. exists "", post. exact E.
    + split; [discriminate|]. intros [pre [post H]].
      destruct pre; simpl in H; [|discriminate H].
      assert (String.prefix needle "" = true) by (apply prefix_spec; eauto).
      congruence.
  - destruct (String.prefix needle (String c hay)) eqn:E.
    + apply prefix_spec in E as [post E]. split; [|reflexivity].
      intros _. exists "", post. exact E.
    + rewrite IH. split.
      * intros [pre [post H]]. exists (String c pre), post. simpl. now rewrite H.
      * intros [pre [post H]]. destruct pre as [|d pre]; simpl in H.
        -- assert (String.prefix needle (String c hay) = true)
             by (apply prefix_spec; eauto).
           congruence.
        -- injection H as _ H. eauto.
Qed.

Ltac run_m :=
  repeat (unfold mbind, mret, M_bind, M_ret, dateNow, log, throw; cbn).

(** The four mock verifications return whatever the clock shows; only the
    [proof] text and the [timestamp] depend on it. *)
Lemma verifyGLEIF_run (lei : string) (corporateName : option string) (w : World) :
  exists p t w',
    verifyGLEIF lei corporateName w =
      (Returned
         {| verified := Nat.eqb (String.length lei) 20 && negb (includes lei "INVALID");
            score := Some (ofZ (if Nat.eqb (String.length lei) 20
                                    && negb (includes lei "INVALID")
                                 then 100 else 0));
            proof := p; timestamp := t |}, w').
Proof.
  unfold verifyGLEIF.
  destruct (Nat.eqb (String.length lei) 20 && negb (includes lei "INVALID"));
    run_m; eauto.
Qed.

Lemma verifyBPMNCompliance_run (processDefinition : option string) (d : string) (w : World) :
  exists p t w',
    verifyBPMNCompliance processDefinition (Some d) w =
      (Returned
         {| verified := Nat.ltb 10 (String.length d) && negb (includes d "Unverified");
            score := Some (ofZ (if Nat.ltb 10 (String.length d)
                                    && negb (includes d "Unverified")
                                 then 85 else 0));
            proof := p; timestamp := t |}, w').
Proof.
  unfold verifyBPMNCompliance.
  destruct (Nat.ltb 10 (String.length d) && negb (includes d "Unverified"));
    run_m; eauto.
Qed.

Lemma assessACTUSRisk_run (assetData : TransactionData) (w : World) :
  exists p t w',
    assessACTUSRisk assetData w =
      (Returned
         {| verified :=
              le (if gt (numberOf (interestRate assetData)) (ofZ 1500)
                  then ofZ 800 else ofZ 300) (ofZ 500);
            score := Some (if gt (numberOf (interestRate assetData)) (ofZ 1500)
                           then ofZ 800 else ofZ 300);
            proof := p; timestamp := t |}, w').
Proof. unfold assessACTUSRisk. run_m. eauto. Qed.

Lemma verifyDCSADocuments_run (documentHash : option string) (docs : list string)
    (w : World) :
  exists p t w',
    verifyDCSADocuments documentHash docs w =
      (Returned
         {| verified :=
              negb (bool_decide
                      (documentHash = Some "0x0000000000000000000000000000000000000000"))
              && Nat.ltb 0 (List.length docs);
            score := Some (ofZ (if negb (bool_decide
                                           (documentHash =
                                              Some "0x0000000000000000000000000000000000000000"))
                                    && Nat.ltb 0 (List.length docs)
                                 then 90 else 0));
            proof := p; timestamp := t |}, w').
Proof.
  unfold verifyDCSADocuments.
  destruct (negb (bool_decide
                    (documentHash = Some "0x0000000000000000000000000000000000000000"))
            && Nat.ltb 0 (List.length docs));
    run_m; eauto.
Qed.

#[global] Arguments verifyGLEIF : simpl never.
#[global] Arguments verifyBPMNCompliance : simpl never.
#[global] Arguments assessACTUSRisk : simpl never.
#[global] Arguments verifyDCSADocuments : simpl never.

Section Scores.
Variable round : Q -> Q.
Variable assetData : TransactionData.

(** The scores do not depend on the world the computation starts in,
    and [calculateMetadataScore] never throws. *)
Lemma calculateMetadataScore_run :
  exists scores, forall w, exists w',
    calculateMetadataScore round assetData w = (Returned scores, w').
Proof.
  eexists. intros w.
  unfold calculateMetadataScore, trySteps. run_m.
  destruct (verifyGLEIF_run (orStr (legalEntityIdentifier assetData) "")
              (Some (orStr (corporateName assetData) "")) w) as (p1 & t1 & w1 & ->).
  cbn.
  destruct (verifyBPMNCompliance_run (Some (orStr (assetDescription assetData) ""))
              (orStr (assetDescription assetData) "") w1) as (p2 & t2 & w2 & ->).
  cbn.
  destruct (assessACTUSRisk_run assetData w2) as (p3 & t3 & w3 & ->).
  cbn.
  destruct (verifyDCSADocuments_run (Some (orStr (documentHash assetData) ""))
              (default [] (tradeDocuments assetData)) w3) as (p4 & t4 & w4 & ->).
  cbn. eexists. reflexivity.
Qed.

#[global] Arguments calculateMetadataScore : simpl never.

Lemma checkMetadataThreshold_run :
  exists check, forall w, exists w',
    checkMetadataThreshold round assetData w = (Returned check, w').
Proof.
  destruct calculateMetadataScore_run as [scores Hs].
  eexists. intros w. unfold checkMetadataThreshold. run_m.
  destruct (Hs w) as [w' ->]. eexists. reflexivity.
Qed.
End Scores.

#[global] Arguments checkMetadataThreshold : simpl never.

End ZKPretSpec.

(* ===================================================================== *)
(** * Properties of the FORTE rule engine                                 *)
(* ===================================================================== *)

Module ForteSpec.
Import JS Runtime ZKPret Forte ZKPretSpec.

Ltac split_ifs :=
  repeat (match goal with
          | |- context [if ?b then _ else _] => destruct b
          end; run_m).

Section Rules.
Variable round : Q -> Q.
Variable data : TransactionData.

(** No rule's verdict depends on the clock or on the console. *)
Lemma outcomeOf_world (rule : Rule) (w w' : World) :
  outcomeOf round rule data w = outcomeOf round rule data w'.
Proof.
  unfold outcomeOf, evaluateRule.
  repeat match goal with
         | |- context [String.eqb (ruleId rule) ?s] =>
             destruct (String.eqb (ruleId rule) s)
         end.
  - unfold evaluateRule01.
    destruct (legalEntityIdentifier data) as [[|c lei]|]; run_m; try reflexivity.
    destruct (verifyGLEIF_run (String c lei) (corporateName data) w) as (? & ? & ? & ->).
    destruct (verifyGLEIF_run (String c lei) (corporateName data) w') as (? & ? & ? & ->).
    reflexivity.
  - unfold evaluateRule02. run_m. reflexivity.
  - reflexivity.
  - unfold evaluateRule04.
    destruct (legalEntityIdentifier data) as [[|c lei]|]; run_m; try reflexivity.
    split_ifs; reflexivity.
  - unfold evaluateRule05.
    destruct (assetDescription data) as [d|]; run_m; try reflexivity.
    destruct (verifyBPMNCompliance_run (Some d) d w) as (? & ? & ? & ->).
    destruct (verifyBPMNCompliance_run (Some d) d w') as (? & ? & ? & ->).
    reflexivity.
  - unfold evaluateRule06. run_m.
    destruct (assessACTUSRisk_run data w) as (? & ? & ? & ->).
    destruct (assessACTUSRisk_run data w') as (? & ? & ? & ->).
    reflexivity.
  - unfold evaluateRule07. run_m.
    destruct (verifyDCSADocuments_run (documentHash data)
                (default [] (tradeDocuments data)) w) as (? & ? & ? & ->).
    destruct (verifyDCSADocuments_run (documentHash data)
                (default [] (tradeDocuments data)) w') as (? & ? & ? & ->).
    reflexivity.
  - unfold evaluateRule08. run_m. reflexivity.
  - unfold evaluateRule09. run_m.
    destruct (calculateMetadataScore_run round data) as [scores Hs].
    destruct (Hs w) as [? ->]. destruct (Hs w') as [? ->]. reflexivity.
  - unfold evaluateRule10. run_m. reflexivity.
  - unfold evaluateRule11. run_m. reflexivity.
  - unfold evaluateRule12. run_m.
    destruct (checkMetadataThreshold_run round data) as [check Hc].
    destruct (Hc w) as [? ->]. destruct (Hc w') as [? ->]. reflexivity.
  - unfold evaluateRule13. run_m. split_ifs; reflexivity.
  - unfold evaluateRule14, checkIndiaRBICompliance. run_m. split_ifs; reflexivity.
  - reflexivity.
Qed.

(** One iteration never throws, and its effect on the result is told by
    the rule's verdict. *)
Lemma checkRule_run (result : CheckResult) (rule : Rule) (w : World) :
  exists w',
    checkRule round data result rule w =
      (Returned (applyVerdict (outcomeOf round rule data w) result rule), w').
Proof.
  unfold checkRule, outcomeOf, applyVerdict, isPassed, isFailed, isWarned.
  destruct (evaluateRule round rule data w) as [[ruleResult|e] w1]; run_m; eauto.
  destruct (passed ruleResult); run_m; eauto.
  destruct (String.eqb (action rule) "DENY"); run_m; eauto.
  destruct (String.eqb (action rule) "WARN"); run_m; eauto.
  destruct (String.eqb (action rule) "ADJUST"); run_m; eauto.
Qed.

Variable wref : World.

Local Abbreviation step := (stepFrom round data wref).

Lemma forEachRule_run (rules : list Rule) (result : CheckResult) (w : World) :
  exists w',
    forEachRule round data rules result w = (Returned (fold_left step rules result), w').
Proof.
  revert result w. induction rules as [|rule rules IH]; intros result w.
  - eexists. reflexivity.
  - cbn [forEachRule fold_left]. unfold mbind, M_bind.
    destruct (checkRule_run result rule w) as [w1 ->].
    rewrite (outcomeOf_world rule w wref). apply IH.
Qed.

Lemma fold_passedRules (rules : list Rule) (result : CheckResult) :
  passedRules (fold_left step rules result) =
    (passedRules result ++
       map ruleId (List.filter (fun rule => isPassed (outcomeOf round rule data wref))
                     rules))%list.
Proof.
  revert result. induction rules as [|rule rules IH]; intros result; cbn [fold_left].
  - cbn. now rewrite app_nil_r.
  - rewrite IH. unfold stepFrom, applyVerdict. cbn [List.filter].
    destruct (isPassed (outcomeOf round rule data wref)) eqn:Ep.
    + cbn. now rewrite <- app_assoc.
    + destruct (isFailed _ rule); [reflexivity|].
      destruct (isWarned _ rule); reflexivity.
Qed.

Lemma isPassed_not_failed (o : option bool) (rule : Rule) :
  isPassed o = true -> isFailed o rule = false /\ isWarned o rule = false.
Proof. destruct o as [[|]|]; cbn; auto; discriminate. Qed.

Lemma isFailed_not_warned (o : option bool) (rule : Rule) :
  isFailed o rule = true -> isWarned o rule = false.
Proof.
  destruct o as [[|]|]; cbn; auto. intros ->. reflexivity.
Qed.

Lemma fold_failedRules (rules : list Rule) (result : CheckResult) :
  failedRules (fold_left step rules result) =
    (failedRules result ++
       map ruleId (List.filter (fun rule => isFailed (outcomeOf round rule data wref) rule)
                     rules))%list.
Proof.
  revert result. induction rules as [|rule rules IH]; intros result; cbn [fold_left].
  - cbn. now rewrite app_nil_r.
  - rewrite IH. unfold stepFrom, applyVerdict. cbn [List.filter].
    destruct (isPassed (outcomeOf round rule data wref)) eqn:Ep.
    + apply (isPassed_not_failed _ rule) in Ep as [-> _]. reflexivity.
    + destruct (isFailed _ rule).
      * cbn. now rewrite <- app_assoc.
      * destruct (isWarned _ rule); reflexivity.
Qed.

Lemma fold_warnings (rules : list Rule) (result : CheckResult) :
  warnings (fold_left step rules result) =
    (warnings result ++
       map ruleId (List.filter (fun rule => isWarned (outcomeOf round rule data wref) rule)
                     rules))%list.
Proof.
  revert result. induction rules as [|rule rules IH]; intros result; cbn [fold_left].
  - cbn. now rewrite app_nil_r.
  - rewrite IH. unfold stepFrom, applyVerdict. cbn [List.filter].
    destruct (isPassed (outcomeOf round rule data wref)) eqn:Ep.
    + apply (isPassed_not_failed _ rule) in Ep as [_ ->]. reflexivity.
    + destruct (isFailed _ rule) eqn:Ef.
      * apply isFailed_not_warned in Ef as ->. reflexivity.
      * destruct (isWarned _ rule); [|reflexivity].
        cbn. now rewrite <- app_assoc.
Qed.

Lemma fold_compliant (rules : list Rule) (result : CheckResult) :
  compliant (fold_left step rules result) =
    compliant result
    && forallb (fun rule => negb (isFailed (outcomeOf round rule data wref) rule)) rules.
Proof.
  revert result. induction rules as [|rule rules IH]; intros result; cbn [fold_left forallb].
  - now rewrite andb_true_r.
  - rewrite IH. unfold stepFrom, applyVerdict.
    destruct (isPassed (outcomeOf round rule data wref)) eqn:Ep.
    + apply (isPassed_not_failed _ rule) in Ep as [-> _]. reflexivity.
    + destruct (isFailed _ rule).
      * cbn. now rewrite andb_false_r.
      * destruct (isWarned _ rule); reflexivity.
Qed.

(** [checkRules] on a registered policy returns the folded result. *)
Lemma checkRules_run (registry : gmap string Policy) (policyId : string)
    (policy : Policy) (w : World) :
  registry !! policyId = Some policy ->
  exists w',
    checkRules round registry policyId data w =
      (Returned
         (fold_left step (rules policy)
            {| compliant := true; passedRules := []; failedRules := [];
               warnings := [] |}), w').
Proof.
  intros Hp. unfold checkRules. rewrite Hp. run_m.
  match goal with
  | |- context [forEachRule round data ?rs ?r ?w0] =>
      destruct (forEachRule_run rs r w0) as [w1 ->]
  end.
  eexists. reflexivity.
Qed.
End Rules.

(** Number comparisons against integer bounds. *)
Lemma gt_ofZ_mono (a : number) (x y : Z) :
  (x <= y)%Z -> gt a (ofZ x) = false -> gt a (ofZ y) = false.
Proof.
  intros Hxy. unfold gt, lt, ofZ.
  destruct a as [|[|]|q]; cbn; try reflexivity; try discriminate.
  unfold Qltb. rewrite !negb_false_iff, !Qle_bool_iff. intros Hq.
  eapply Qle_trans; [exact Hq|]. now rewrite <- Zle_Qle.
Qed.

Lemma inList_In (x : string) (l : list string) : inList x l = true <-> In x l.
Proof.
  unfold inList. rewrite existsb_exists. split.
  - intros [y [Hy E]]. apply String.eqb_eq in E. now subst.
  - intros H. exists x. split; [exact H | apply String.eqb_refl].
Qed.

Lemma orStr_nonempty (s d : string) : s <> "" -> orStr (Some s) d = s.
Proof. destruct s; [congruence | reflexivity]. Qed.

(** On the supported countries the code's table lookup, tried in both
    directions, gives the stated corridor limit. *)
Lemma getCrossBorderLimit_stated (b s : string) :
  In b supportedCountries -> In s supportedCountries ->
  getCrossBorderLimit b s = VNum (ofZ (statedCorridorLimit b s)).
Proof.
  unfold supportedCountries. cbn [In]. intros Hb Hs.
  repeat (destruct Hb as [<-|Hb]); try contradiction;
    repeat (destruct Hs as [<-|Hs]); try contradiction; vm_compute; reflexivity.
Qed.

Lemma india_limit (b s : string) :
  In b supportedCountries -> In s supportedCountries ->
  String.eqb b "IN" || String.eqb s "IN" = true ->
  (statedCorridorLimit b s <= 50000000)%Z.
Proof.
  unfold supportedCountries. cbn [In]. intros Hb Hs.
  repeat (destruct Hb as [<-|Hb]); try contradiction;
    repeat (destruct Hs as [<-|Hs]); try contradiction;
    vm_compute; intros H; congruence.
Qed.

Lemma supported_not_restricted (c : string) :
  In c supportedCountries -> inList c restrictedCountries = false.
Proof.
  unfold supportedCountries. cbn [In]. intros H.
  repeat (destruct H as [<-|H]); try contradiction; reflexivity.
Qed.

Lemma filter_Permutation {A : Type} (f : A -> bool) (l l' : list A) :
  Permutation l l' -> Permutation (List.filter f l) (List.filter f l').
Proof.
  induction 1 as [|x l l' _ IH|x y l|l l' l'' _ IH1 _ IH2]; cbn.
  - constructor.
  - destruct (f x); [constructor|]; exact IH.
  - destruct (f x), (f y); try reflexivity. constructor.
  - etransitivity; eassumption.
Qed.

Lemma forallb_Permutation {A : Type} (f : A -> bool) (l l' : list A) :
  Permutation l l' -> forallb f l = forallb f l'.
Proof.
  induction 1 as [|x l l' _ IH|x y l|l l' l'' _ IH1 _ IH2]; cbn.
  - reflexivity.
  - now rewrite IH.
  - destruct (f x), (f y); reflexivity.
  - congruence.
Qed.

Lemma not_failed_iff (round : Q -> Q) (data : TransactionData) (w : World) (rule : Rule) :
  negb (isFailed (outcomeOf round rule data w) rule) = true <->
  forall w0, exists ruleResult w1,
    evaluateRule round rule data w0 = (Returned ruleResult, w1)
    /\ (action rule = "DENY" -> passed ruleResult = true).
Proof.
  split.
  - intros H w0. rewrite (outcomeOf_world round data rule w w0) in H.
    unfold outcomeOf in H.
    destruct (evaluateRule round rule data w0) as [[ruleResult|e] w1]; cbn in H.
    + exists ruleResult, w1. split; [reflexivity|]. intros Ha.
      destruct (passed ruleResult); [reflexivity|].
      cbn in H. rewrite Ha in H. discriminate H.
    + discriminate H.
  - intros H. destruct (H w) as (ruleResult & w1 & E & Hd).
    unfold outcomeOf. rewrite E. destruct (passed ruleResult); cbn; [reflexivity|].
    destruct (String.eqb (action rule) "DENY") eqn:Ea; [|reflexivity].
    apply String.eqb_eq in Ea. specialize (Hd Ea). discriminate Hd.
Qed.

(** The engine on the demo transaction, on the transaction without a
    description {- Rule 5 throws, Rules 9 and 12 score the empty
    description -} and on the one whose asset type is an inherited name
    {- Rule 8, an ADJUST rule, fails and is recorded as a warning -}. *)
Example checkRules_demo :
  Fixture.returned (checkRules Fixture.exact Fixture.demoRegistry "POLICY_DEMO"
                      Fixture.demoData Fixture.world0)
  = Some {| compliant := true;
            passedRules :=
              ["RULE_01"; "RULE_02"; "RULE_03"; "RULE_04"; "RULE_05"; "RULE_06";
               "RULE_07"; "RULE_08"; "RULE_09"; "RULE_10"; "RULE_11"; "RULE_12"];
            failedRules := []; warnings := [] |}.
Proof. vm_compute. reflexivity. Qed.

Example checkRules_undescribed :
  Fixture.returned (checkRules Fixture.exact Fixture.demoRegistry "POLICY_DEMO"
                      Fixture.undescribedData Fixture.world0)
  = Some {| compliant := false;
            passedRules :=
              ["RULE_01"; "RULE_02"; "RULE_03"; "RULE_04"; "RULE_06"; "RULE_07";
               "RULE_08"; "RULE_09"; "RULE_10"; "RULE_11"];
            failedRules := ["RULE_05"; "RULE_12"]; warnings := [] |}.
Proof. vm_compute. reflexivity. Qed.

Example checkRules_inherited_type :
  Fixture.returned (checkRules Fixture.exact Fixture.demoRegistry "POLICY_DEMO"
                      Fixture.inheritedTypeData Fixture.world0)
  = Some {| compliant := true;
            passedRules :=
              ["RULE_01"; "RULE_02"; "RULE_03"; "RULE_04"; "RULE_05"; "RULE_06";
               "RULE_07"; "RULE_09"; "RULE_10"; "RULE_11"; "RULE_12"];
            failedRules := []; warnings := ["RULE_08"] |}.
Proof. vm_compute. reflexivity. Qed.

Example checkRules_unknown_policy :
  Fixture.returned (checkRules Fixture.exact Fixture.demoRegistry "POLICY_OTHER"
                      Fixture.demoData Fixture.world0) = None.
Proof. vm_compute. reflexivity. Qed.

(** ** C1 *)

(** C1: on a registered policy [checkRules] returns, and [compliant] is
    true exactly when every rule's evaluation returns {- none throws -}
    and every rule whose action is DENY returns [passed]; an iteration on
    a failing rule whose action is WARN or ADJUST only appends the rule to
    [warnings]: [compliant], [passedRules] and [failedRules] are left as
    they were. *)
Theorem checkRules_compliant_iff (round : Q -> Q) (registry : gmap string Policy)
    (policyId : string) (policy : Policy) (data : TransactionData) (w : World) :
  registry !! policyId = Some policy ->
  exists result w',
    checkRules round registry policyId data w = (Returned result, w')
    /\ (compliant result = true <->
         forall rule, In rule (rules policy) ->
           forall w0, exists ruleResult w1,
             evaluateRule round rule data w0 = (Returned ruleResult, w1)
             /\ (action rule = "DENY" -> passed ruleResult = true))
    /\ (forall rule result0 w0 ruleResult w1,
          evaluateRule round rule data w0 = (Returned ruleResult, w1) ->
          passed ruleResult = false ->
          action rule = "WARN" \/ action rule = "ADJUST" ->
          exists w2,
            checkRule round data result0 rule w0 =
              (Returned {| compliant := compliant result0;
                           passedRules := passedRules result0;
                           failedRules := failedRules result0;
                           warnings := warnings result0 ++ [ruleId rule] |}, w2)).
Proof.
  intros Hp.
  destruct (checkRules_run round data w registry policyId policy w Hp) as [w' Hrun].
  eexists _, w'. split; [exact Hrun|]. split.
  - rewrite fold_compliant. cbn [compliant andb]. rewrite forallb_forall.
    split; intros H rule Hin; apply (not_failed_iff round data w rule); auto.
  - intros rule result0 w0 ruleResult w1 E Hf Ha.
    unfold checkRule. rewrite E, Hf.
    destruct Ha as [-> | ->]; run_m; eexists; reflexivity.
Qed.

(** C1, witness: the demo policy and the demo transaction of [sdk.ts]. *)
Lemma checkRules_compliant_iff_witness :
  Fixture.demoRegistry !! "POLICY_DEMO" = Some Fixture.demoPolicy
  /\ exists result w',
       checkRules Fixture.exact Fixture.demoRegistry "POLICY_DEMO" Fixture.demoData
         Fixture.world0 = (Returned result, w').
Proof.
  split; [reflexivity|].
  destruct (checkRules_compliant_iff Fixture.exact Fixture.demoRegistry "POLICY_DEMO"
              Fixture.demoPolicy Fixture.demoData Fixture.world0 eq_refl)
    as (result & w' & H & _).
  exists result, w'. exact H.
Defined.

(** ** C3 *)

(** C3: two policies whose rule lists are permutations of each other give,
    on the same transaction and whatever the clock and the console hold
    when the checks start, the same verdict and the same passed, failed
    and warned rules up to order {- the same multisets, hence the same
    sets -}; the reason is that the verdict of a rule is the same in every
    world. *)
Theorem checkRules_permutation (round : Q -> Q)
    (registry1 registry2 : gmap string Policy) (id1 id2 : string)
    (policy1 policy2 : Policy) (data : TransactionData) (w1 w2 : World) :
  registry1 !! id1 = Some policy1 ->
  registry2 !! id2 = Some policy2 ->
  Permutation (rules policy1) (rules policy2) ->
  (exists r1 w1' r2 w2',
     checkRules round registry1 id1 data w1 = (Returned r1, w1')
     /\ checkRules round registry2 id2 data w2 = (Returned r2, w2')
     /\ compliant r1 = compliant r2
     /\ Permutation (passedRules r1) (passedRules r2)
     /\ Permutation (failedRules r1) (failedRules r2)
     /\ Permutation (warnings r1) (warnings r2))
  /\ (forall rule w w', outcomeOf round rule data w = outcomeOf round rule data w').
Proof.
  intros H1 H2 Hperm. split; [|intros rule w w'; apply outcomeOf_world].
  destruct (checkRules_run round data w1 registry1 id1 policy1 w1 H1) as [w1' E1].
  destruct (checkRules_run round data w1 registry2 id2 policy2 w2 H2) as [w2' E2].
  eexists _, w1', _, w2'. split; [exact E1|]. split; [exact E2|].
  rewrite !fold_compliant, !fold_passedRules, !fold_failedRules, !fold_warnings.
  cbn [compliant passedRules failedRules warnings app andb].
  split; [apply forallb_Permutation; exact Hperm|].
  repeat split; apply Permutation_map, filter_Permutation; exact Hperm.
Qed.

(** C3, witness: the demo policy and the same rules in reverse order. *)
Lemma checkRules_permutation_witness :
  exists r1 r2,
    Fixture.returned (checkRules Fixture.exact Fixture.demoRegistry "POLICY_DEMO"
                        Fixture.demoData Fixture.world0) = Some r1
    /\ Fixture.returned (checkRules Fixture.exact Fixture.reversedRegistry "POLICY_REVERSED"
                           Fixture.demoData Fixture.world0) = Some r2
    /\ compliant r1 = compliant r2.
Proof.
  destruct (checkRules_permutation Fixture.exact Fixture.demoRegistry
              Fixture.reversedRegistry "POLICY_DEMO" "POLICY_REVERSED"
              Fixture.demoPolicy Fixture.reversedPolicy Fixture.demoData
              Fixture.world0 Fixture.world0 eq_refl eq_refl (Permutation_rev _))
    as [(r1 & w1' & r2 & w2' & E1 & E2 & Hc & _) _].
  exists r1, r2. rewrite E1, E2. repeat split. exact Hc.
Defined.

(** ** C6 *)

(** C6, counterexample: a transaction from the US to GB whose
    [pyusdAmount] is 0 and whose [principalAmount] is 200000000: both
    countries are on the allow-list and the PYUSD amount, 0, is not
    greater than the corridor limit 100000000, yet Rule 14 does not pass:
    it compares [principalAmount], which [||] puts in the place of the
    zero. *)
Lemma evaluateRule14_falls_back_on_principalAmount :
  buyerCountry Scenarios.principalOnlyData = Some "US"
  /\ sellerCountry Scenarios.principalOnlyData = Some "GB"
  /\ pyusdAmount Scenarios.principalOnlyData = Some (ofZ 0)
  /\ principalAmount Scenarios.principalOnlyData = Some (ofZ 200000000)
  /\ In "US" ["US"; "GB"; "DE"; "JP"; "IN"; "SG"; "CA"; "AU"; "FR"; "IT"; "ES"; "NL"]
  /\ In "GB" ["US"; "GB"; "DE"; "JP"; "IN"; "SG"; "CA"; "AU"; "FR"; "IT"; "ES"; "NL"]
  /\ statedCorridorLimit "US" "GB" = 100000000%Z
  /\ gt (ofZ 0) (ofZ 100000000) = false
  /\ (passed <$> Fixture.returned
                   (evaluateRule14 Scenarios.principalOnlyData Fixture.world0))
     = Some false.
Proof.
  repeat split; try (vm_compute; reflexivity).
  - left. reflexivity.
  - right. left. reflexivity.
Qed.

(** C6, amended: Rule 14 returns on every transaction, and it passes
    exactly when both countries are among US, GB, DE, JP, IN, SG, CA, AU,
    FR, IT, ES and NL and the amount is not greater than the stated
    corridor limit of the pair, taken in either direction; where a country
    is [data.buyerCountry || 'US'], respectively
    [data.sellerCountry || 'US'] {- US for a missing or empty field -},
    and the amount is [data.pyusdAmount || data.principalAmount || 0]:
    [pyusdAmount] unless that is missing, zero or NaN, then
    [principalAmount] unless that is missing, zero or NaN, then 0. *)
Theorem evaluateRule14_passes_iff (data : TransactionData) (w : World) :
  let b := match buyerCountry data with
           | Some "" | None => "US"
           | Some country => country
           end in
  let s := match sellerCountry data with
           | Some "" | None => "US"
           | Some country => country
           end in
  let rest := match principalAmount data with
              | Some (Fin q) => if Qeq_bool q 0 then Fin 0 else Fin q
              | Some (Infinity negative) => Infinity negative
              | Some NaN | None => Fin 0
              end in
  let amount := match pyusdAmount data with
                | Some (Fin q) => if Qeq_bool q 0 then rest else Fin q
                | Some (Infinity negative) => Infinity negative
                | Some NaN | None => rest
                end in
  exists r w',
    evaluateRule14 data w = (Returned r, w')
    /\ (passed r = true <->
         In b ["US"; "GB"; "DE"; "JP"; "IN"; "SG"; "CA"; "AU"; "FR"; "IT"; "ES"; "NL"]
         /\ In s ["US"; "GB"; "DE"; "JP"; "IN"; "SG"; "CA"; "AU"; "FR"; "IT"; "ES"; "NL"]
         /\ gt amount (Fin (inject_Z (statedCorridorLimit b s))) = false).
Proof.
  intros b s rest amount.
  assert (Hb : orStr (buyerCountry data) "US" = b) by reflexivity.
  assert (Hs : orStr (sellerCountry data) "US" = s) by reflexivity.
  assert (Ha : orNum (pyusdAmount data) (orNum (principalAmount data) (ofZ 0)) = amount).
  { subst amount rest. unfold orNum, truthy, ofZ.
    destruct (pyusdAmount data) as [[| |q]|];
      destruct (principalAmount data) as [[| |q']|]; try reflexivity;
      repeat match goal with |- context [Qeq_bool ?x ?y] => destruct (Qeq_bool x y) end;
      reflexivity. }
  change (Fin (inject_Z (statedCorridorLimit b s))) with (ofZ (statedCorridorLimit b s)).
  change ["US"; "GB"; "DE"; "JP"; "IN"; "SG"; "CA"; "AU"; "FR"; "IT"; "ES"; "NL"]
    with supportedCountries.
  unfold evaluateRule14. rewrite Hb, Hs, Ha. clearbody b s amount. clear rest Hb Hs Ha.
  destruct (inList b supportedCountries) eqn:Eb; cbn [negb orb].
  2:{ eexists _, _. split; [reflexivity|]. cbn [passed]. split; [discriminate|].
      intros (Hb' & _). apply (proj2 (inList_In _ _)) in Hb'. congruence. }
  destruct (inList s supportedCountries) eqn:Es; cbn [negb orb].
  2:{ eexists _, _. split; [reflexivity|]. cbn [passed]. split; [discriminate|].
      intros (_ & Hs' & _). apply (proj2 (inList_In _ _)) in Hs'. congruence. }
  apply inList_In in Eb, Es.
  rewrite (supported_not_restricted b Eb), (supported_not_restricted s Es).
  cbn [orb]. rewrite (getCrossBorderLimit_stated b s Eb Es). cbn [toNumber].
  destruct (gt amount (ofZ (statedCorridorLimit b s))) eqn:Eg.
  { eexists _, _. split; [reflexivity|]. cbn [passed]. split; [discriminate|].
    intros (_ & _ & H). discriminate H. }
  destruct (String.eqb b "IN" || String.eqb s "IN") eqn:Ei.
  - unfold checkIndiaRBICompliance.
    rewrite (gt_ofZ_mono amount _ 50000000 (india_limit b s Eb Es Ei) Eg).
    destruct (ge amount (ofZ 1000000)); run_m;
      eexists _, _; (split; [reflexivity|]); cbn [passed]; tauto.
  - eexists _, _. split; [reflexivity|]. cbn [passed]. tauto.
Qed.

(** ** C8 *)

Lemma Qltb_inject_Z (a b : Z) : Qltb (inject_Z a) (inject_Z b) = (a <? b)%Z.
Proof.
  unfold Qltb, Qle_bool. cbn. rewrite !Z.mul_1_r. symmetry. apply Z.ltb_antisym.
Qed.

Lemma clamp_ofZ (z : Z) :
  max (ofZ 10) (min (ofZ 10000) (ofZ z)) = ofZ (Z.max 10 (Z.min 10000 z)).
Proof.
  assert (Hmin : min (ofZ 10000) (ofZ z) = ofZ (Z.min 10000 z)).
  { unfold min, ofZ, lt. rewrite Qltb_inject_Z.
    destruct (Z.ltb_spec z 10000); do 2 f_equal; lia. }
  rewrite Hmin. unfold max, ofZ, lt. rewrite Qltb_inject_Z.
  destruct (Z.ltb_spec 10 (Z.min 10000 z)); do 2 f_equal; lia.
Qed.

Lemma floor_div_Fin (round : Q -> Q) (p : Q) (m : Z) :
  m <> 0%Z ->
  floor (div round (Fin p) (Fin (m # 1))) = ofZ (Qfloor (round (p / (m # 1))%Q)).
Proof.
  intros Hm. unfold div. destruct (Qeq_bool (m # 1) 0) eqn:E; [|reflexivity].
  apply Qeq_bool_eq in E. unfold Qeq in E. cbn in E. lia.
Qed.

(** Where the asset type does not name an inherited property, the count
    is clamped and Rule 8 passes, for every finite principal. *)
Lemma calculateOptimalFractions_clamped (round : Q -> Q) (p : Q) (t : string) :
  inList t objectPrototypeKeys = false ->
  exists k,
    optimalCount (calculateOptimalFractions round (Some (Fin p)) (Some t)) = ofZ k
    /\ (10 <= k <= 10000)%Z.
Proof.
  intros Ht. unfold calculateOptimalFractions, getProperty. cbn [optimalCount keyOf numberOf].
  rewrite Ht. unfold assetTypeMultipliers. cbn [assoc].
  repeat match goal with
         | |- context [String.eqb ?k t] => destruct (String.eqb k t)
         end;
    match goal with
    | |- context [toNumber ?v] =>
        let n := fresh "n" in
        set (n := toNumber v); vm_compute in n; subst n
    end;
    (rewrite floor_div_Fin by discriminate);
    rewrite clamp_ofZ; eexists; (split; [reflexivity | lia]).
Qed.

(** C8, the failing input: with the asset type [constructor] the
    multiplier read from the table is the inherited [Object] function,
    the quotient is [NaN], the clamp leaves [NaN], and Rule 8 fails,
    whatever the principal amount. *)
Theorem evaluateRule08_fails_on_inherited_assetType (round : Q -> Q) (w : World) :
  optimalCount (calculateOptimalFractions round (Some (ofZ 5000000)) (Some "constructor"))
    = NaN
  /\ evaluateRule08 round Fixture.inheritedTypeData w =
       (Returned {| passed := false; reason := Some (SuboptimalFractionCount NaN) |}, w).
Proof. split; reflexivity. Qed.

(** ** C2 *)

(** C2, counterexample: a string of 20 characters that contains
    [INVALID] is rejected by [verifyGLEIF], although Rule 4 accepts it. *)
Lemma verifyGLEIF_rejects_a_20_character_LEI :
  String.length "INVALID0000000000000" = 20%nat
  /\ (verified <$> Fixture.returned
                     (verifyGLEIF "INVALID0000000000000" (Some "APPLE INC") Fixture.world0))
     = Some false.
Proof. split; vm_compute; reflexivity. Qed.

(** C2, amended: [verifyGLEIF] returns for every LEI string, and
    [verified] is true exactly when the LEI has 20 characters and does not
    contain the text [INVALID]; Rule 4 reads the length alone and passes
    exactly when the LEI has 20 characters. *)
Theorem verifyGLEIF_verified_iff (lei : string) (corporateName : option string)
    (data : TransactionData) (w : World) :
  (exists r w',
     verifyGLEIF lei corporateName w = (Returned r, w')
     /\ (verified r = true <->
          String.length lei = 20%nat
          /\ ~ exists pre post, lei = pre +:+ "INVALID" +:+ post))
  /\ (exists r w',
        evaluateRule04 data w = (Returned r, w')
        /\ (passed r = true <->
             exists l, legalEntityIdentifier data = Some l /\ String.length l = 20%nat)).
Proof.
  split.
  - destruct (verifyGLEIF_run lei corporateName w) as (p & t & w' & ->).
    eexists _, _. split; [reflexivity|]. cbn.
    rewrite andb_true_iff, Nat.eqb_eq, negb_true_iff.
    rewrite <- (includes_spec lei "INVALID").
    split; intros [H1 H2]; split; try exact H1.
    + rewrite H2. discriminate.
    + now destruct (includes lei "INVALID").
  - unfold evaluateRule04.
    destruct (legalEntityIdentifier data) as [[|c l]|].
    + eexists _, _. split; [reflexivity|]. cbn. split; [discriminate|].
      intros [l [[= <-] Hl]]. discriminate Hl.
    + destruct (Nat.eqb (String.length (String c l)) 20) eqn:E; run_m;
        eexists _, _; (split; [reflexivity|]); cbn.
      * apply Nat.eqb_eq in E. split; [eauto | reflexivity].
      * apply Nat.eqb_neq in E. split; [discriminate|].
        intros [l' [[= <-] Hl]]. contradiction.
    + eexists _, _. split; [reflexivity|]. cbn. split; [discriminate|].
      intros [l [[=] _]].
Qed.

End ForteSpec.

(* ===================================================================== *)
(** * Properties of the quick demo                                        *)
(* ===================================================================== *)

Module QuickDemoSpec.
Import JS QuickDemo.

Lemma reportRules_run (l : list string) (s : State) :
  random (fold_left reportRule l s) = random s
  /\ draws (fold_left reportRule l s) = (draws s + length l)%nat
  /\ output (fold_left reportRule l s) =
       (output s ++
          imap (fun i rule =>
                  "    " +:+ statusOf (Qltb threshold (random s (draws s + i)%nat))
                  +:+ " " +:+ rule) l)%list.
Proof.
  revert s. induction l as [|rule l IH]; intros s.
  - cbn. rewrite app_nil_r. repeat split. lia.
  - cbn [fold_left]. destruct (IH (reportRule s rule)) as (Hr & Hd & Ho).
    rewrite Hr, Hd, Ho. cbn. repeat split; [lia|].
    rewrite <- app_assoc. cbn. rewrite Nat.add_0_r. do 2 f_equal.
    apply imap_ext. intros i x _. cbn. do 6 f_equal. lia.
Qed.

Example simulateForteRules_all_pass :
  take 3 (output (simulateForteRules
                    {| random := fun _ => (1 # 2)%Q; draws := 0; output := [] |}))
  = [ "  🔍 Testing All 14 FORTE Rules...";
      "    ✅ PASS Rule 1: Enhanced KYC + GLEIF Verification";
      "    ✅ PASS Rule 2: Enhanced OFAC Real-time Check" ].
Proof. vm_compute. reflexivity. Qed.

Example simulateForteRules_second_fails :
  take 3 (output (simulateForteRules
                    {| random := fun i => if Nat.eqb i 1 then (1 # 20)%Q else (1 # 2)%Q;
                       draws := 0; output := [] |}))
  = [ "  🔍 Testing All 14 FORTE Rules...";
      "    ✅ PASS Rule 1: Enhanced KYC + GLEIF Verification";
      "    ❌ FAIL Rule 2: Enhanced OFAC Real-time Check" ].
Proof. vm_compute. reflexivity. Qed.

(** C7: every rule line of the quick demo prints PASS exactly when the
    number drawn from [Math.random()] for it is greater than 0.1 {- the
    double of that name, 3602879701896397 / 2^55, which exceeds one tenth
    by 1 / (5 * 2^55) -}, and nothing else enters the line but the rule's
    title; so two runs that start alike and draw different numbers print
    different verdicts: with every draw 900719925474099 / 2^53, the last
    multiple of 2^-53 below 0.1, every line says FAIL, and with every draw
    900719925474100 / 2^53, the next one, every line says PASS. *)
Theorem simulateForteRules_follows_the_draws :
  (forall s,
     output (simulateForteRules s) =
       (output s ++ ["  🔍 Testing All 14 FORTE Rules..."] ++
          imap (fun i rule =>
                  "    "
                  +:+ (if Qltb (3602879701896397 # 36028797018963968)
                               (random s (draws s + i)%nat)
                       then "✅ PASS" else "❌ FAIL")
                  +:+ " " +:+ rule) rules ++
          ["  📊 Overall Compliance: 14/14 rules configured"])%list)
  /\ (forall r, Qltb threshold r = true <-> (1 # 10) + (1 # 180143985094819840) < r)%Q
  /\ exists s1 s2,
       (forall i, random s1 i == 900719925474099 # 9007199254740992)%Q
       /\ (forall i, random s2 i == 900719925474100 # 9007199254740992)%Q
       /\ (forall i, 0 <= random s1 i < 1 /\ 0 <= random s2 i < 1)%Q
       /\ draws s1 = draws s2 /\ output s1 = output s2
       /\ output (simulateForteRules s1) =
            ("  🔍 Testing All 14 FORTE Rules..."
             :: map (fun rule => "    ❌ FAIL " +:+ rule) rules
             ++ ["  📊 Overall Compliance: 14/14 rules configured"])%list
       /\ output (simulateForteRules s2) =
            ("  🔍 Testing All 14 FORTE Rules..."
             :: map (fun rule => "    ✅ PASS " +:+ rule) rules
             ++ ["  📊 Overall Compliance: 14/14 rules configured"])%list
       /\ output (simulateForteRules s1) <> output (simulateForteRules s2).
Proof.
  split; [|split].
  - intros s. unfold simulateForteRules.
    destruct (reportRules_run rules
                (consoleLog "  🔍 Testing All 14 FORTE Rules..." s)) as (_ & _ & Ho).
    cbn [consoleLog output]. rewrite Ho. cbn [consoleLog output random draws].
    now rewrite <- !app_assoc.
  - intros r. unfold Qltb, threshold.
    rewrite negb_true_iff, <- not_true_iff_false, Qle_bool_iff.
    assert (E : ((1 # 10) + (1 # 180143985094819840)
                 == 3602879701896397 # 36028797018963968)%Q) by reflexivity.
    rewrite E. split; [apply Qnot_le_lt | apply Qlt_not_le].
  - exists {| random := fun _ => (900719925474099 # 9007199254740992)%Q;
              draws := 0; output := [] |},
           {| random := fun _ => (900719925474100 # 9007199254740992)%Q;
              draws := 0; output := [] |}.
    split; [intros i; reflexivity|]. split; [intros i; reflexivity|].
    split; [intros i; cbn; repeat split; reflexivity || discriminate|].
    split; [reflexivity|]. split; [reflexivity|].
    split; [vm_compute; reflexivity|]. split; [vm_compute; reflexivity|].
    vm_compute. discriminate.
Qed.

End QuickDemoSpec.

(* ===================================================================== *)
(** * Properties of PyusdCrossBorderFinance                               *)
(* ===================================================================== *)

Module PyusdSpec.
Import Solidity Pyusd.

Lemma bind_Success {A B : Type} (m : Result A) (f : A -> Result B) (b : B) :
  m ≫= f = Success b -> exists a, m = Success a /\ f a = Success b.
Proof. destruct m; cbn; [eauto | discriminate | discriminate]. Qed.

Lemma require_Success (c : bool) (reason : string) (u : unit) :
  require c reason = Success u -> c = true.
Proof. destruct c; [reflexivity | discriminate]. Qed.

(** Take a successful sequence of binds apart, one step at a time. *)
Ltac unbind H :=
  repeat (let x := fresh "x" in
          let E := fresh "E" in
          apply bind_Success in H as (x & E & H);
          try (apply require_Success in E)).

Lemma trade_setTrade (s : State) (id id' : Z) (t : CrossBorderTrade) :
  trade (setTrade s id t) id' = if decide (id = id') then t else trade s id'.
Proof. unfold trade, setTrade. cbn. rewrite lookup_insert. now case_decide. Qed.

Lemma participant_written (env : Env) (s : State) (id : Z) (u : unit) :
  sender env <> 0 ->
  onlyTradeParticipant env s id = Success u ->
  trades s !! id <> None.
Proof.
  intros Hs H E. apply require_Success in H.
  unfold trade in H. rewrite E in H. cbn in H.
  rewrite !orb_true_iff, !bool_decide_eq_true in H. tauto.
Qed.

Section ExternalFacts.
Variable Ext : Type.
Variable isGLEIFVerified : Ext -> string -> Result bool.
Variable isDCSAVerified : Ext -> Z -> Result bool.
Variable pyusdTransfer : Ext -> address -> address -> Z -> Result (bool * Ext).
Variable pyusdTransferFrom : Ext -> address -> address -> address -> Z -> Result (bool * Ext).

Local Abbreviation dispatch :=
  (Pyusd.dispatch Ext isGLEIFVerified isDCSAVerified pyusdTransfer pyusdTransferFrom).
Local Abbreviation reenter :=
  (Pyusd.reenter Ext isGLEIFVerified isDCSAVerified pyusdTransfer pyusdTransferFrom).
Local Abbreviation execute :=
  (Pyusd.execute Ext isGLEIFVerified isDCSAVerified pyusdTransfer pyusdTransferFrom).
Local Abbreviation reachable :=
  (Pyusd.reachable Ext isGLEIFVerified isDCSAVerified pyusdTransfer pyusdTransferFrom).
Local Abbreviation executeComplianceCheck := (Pyusd.executeComplianceCheck Ext isDCSAVerified).
Local Abbreviation escrowPYUSD := (Pyusd.escrowPYUSD Ext pyusdTransferFrom).
Local Abbreviation executeInstantSettlement := (Pyusd.executeInstantSettlement Ext pyusdTransfer).
Local Abbreviation initiateCrossBorderTrade := (Pyusd.initiateCrossBorderTrade Ext isGLEIFVerified).
Local Abbreviation respects := (Pyusd.respects Ext).

(** What the three status-changing functions require and do. *)
Lemma executeComplianceCheck_status env s ext id s' ext' events :
  executeComplianceCheck env s ext id = Success (s', ext', events) ->
  onlyTradeParticipant env s id = Success tt
  /\ status (trade s id) = INITIATED
  /\ exists t, s' = setTrade s id t /\ status t = COMPLIANCE_CHECK.
Proof.
  intros H. unfold Pyusd.executeComplianceCheck in H. unbind H.
  match goal with
  | Hst : bool_decide (status _ = _) = true |- _ => apply bool_decide_eq_true in Hst
  end.
  match goal with
  | Hp : _ || _ || _ || _ = true |- _ =>
      assert (onlyTradeParticipant env s id = Success tt)
        by (unfold onlyTradeParticipant; now rewrite Hp)
  end.
  injection H as <- _ _. repeat split; eauto.
Qed.

(** [escrowPYUSD] checks the trade, lets the token run, and then writes
    the status into the trade as the token left it. *)
Lemma escrowPYUSD_status during env s ext id s' ext' events :
  escrowPYUSD during env s ext id = Success (s', ext', events) ->
  onlyTradeParticipant env s id = Success tt
  /\ status (trade s id) = COMPLIANCE_CHECK
  /\ exists s1 ext1,
       during s ext = (s1, ext1, events)
       /\ pyusdTransferFrom ext1 (this env) (buyer (trade s id)) (this env)
            (pyusdAmount (trade s id)) = Success (true, ext')
       /\ s' = setTrade s1 id
                 (withStatus (trade s1 id) PYUSD_ESCROWED (settledAt (trade s1 id))).
Proof.
  intros H. unfold Pyusd.escrowPYUSD in H.
  apply bind_Success in H as (? & Hp%require_Success & H).
  apply bind_Success in H as (? & Hst%require_Success & H).
  apply bind_Success in H as (? & _ & H).
  destruct (during s ext) as [[s1 ext1] events1] eqn:Hd.
  apply bind_Success in H as ([ok ext2] & Ht & H).
  apply bind_Success in H as (? & Hok%require_Success & H).
  cbn in Hok, H. subst ok. injection H as <- <- <-.
  apply bool_decide_eq_true in Hst.
  split; [unfold onlyTradeParticipant; now rewrite Hp|].
  split; [exact Hst|]. exists s1, ext1. repeat split. exact Ht.
Qed.

(** [executeInstantSettlement] checks the trade, computes the three
    amounts, lets the token run three times, and then writes the status
    and the time into the trade as the token left it. *)
Lemma executeInstantSettlement_status first second third env s ext id s' ext' events :
  executeInstantSettlement first second third env s ext id = Success (s', ext', events) ->
  onlyTradeParticipant env s id = Success tt
  /\ status (trade s id) = PYUSD_ESCROWED
  /\ seller (trade s id) <> sanctioned
  /\ exists s1 ext1 events1 paid1 s2 ext2 events2 paid2 s3 ext3 events3,
       first s ext = (s1, ext1, events1)
       /\ pyusdTransfer ext1 (this env) (seller (trade s id))
            (pyusdAmount (trade s id) * 98 / 100) = Success (true, paid1)
       /\ second s1 paid1 = (s2, ext2, events2)
       /\ pyusdTransfer ext2 (this env) (buyerBank (trade s1 id))
            (pyusdAmount (trade s id) * 1 / 100) = Success (true, paid2)
       /\ third s2 paid2 = (s3, ext3, events3)
       /\ pyusdTransfer ext3 (this env) (sellerBank (trade s2 id))
            (pyusdAmount (trade s id) * 1 / 100) = Success (true, ext')
       /\ s' = setTrade s3 id (withStatus (trade s3 id) SETTLED (timestamp env))
       /\ events =
            (events1 ++ events2 ++ events3
             ++ [InstantSettlement id (pyusdAmount (trade s3 id)) (timestamp env)])%list.
Proof.
  intros H. unfold Pyusd.executeInstantSettlement in H.
  apply bind_Success in H as (? & Hp%require_Success & H).
  apply bind_Success in H as (? & Hst%require_Success & H).
  apply bind_Success in H as (? & Hsan%require_Success & H).
  apply bind_Success in H as (p98 & H98 & H).
  apply bind_Success in H as (p1 & H1 & H).
  apply bind_Success in H as (p1' & H1' & H).
  unfold checked_mul in H98, H1, H1'.
  destruct (pyusdAmount (trade s id) * 98 <=? MAX_UINT256); [|discriminate H98].
  destruct (pyusdAmount (trade s id) * 1 <=? MAX_UINT256); [|discriminate H1].
  injection H98 as <-. injection H1 as <-. injection H1' as <-.
  destruct (first s ext) as [[s1 ext1] events1] eqn:Hd1.
  apply bind_Success in H as ([ok1 paid1] & Ht1 & H).
  apply bind_Success in H as (? & Hok1%require_Success & H).
  cbn [fst snd] in Hok1, H. subst ok1.
  destruct (second s1 paid1) as [[s2 ext2] events2] eqn:Hd2.
  apply bind_Success in H as ([ok2 paid2] & Ht2 & H).
  apply bind_Success in H as (? & Hok2%require_Success & H).
  cbn [fst snd] in Hok2, H. subst ok2.
  destruct (third s2 paid2) as [[s3 ext3] events3] eqn:Hd3.
  apply bind_Success in H as ([ok3 paid3] & Ht3 & H).
  apply bind_Success in H as (? & Hok3%require_Success & H).
  cbn [fst snd] in Hok3, H. subst ok3. injection H as <- <- <-.
  apply bool_decide_eq_true in Hst.
  apply negb_true_iff, bool_decide_eq_false in Hsan.
  split; [unfold onlyTradeParticipant; now rewrite Hp|].
  split; [exact Hst|]. split; [exact Hsan|].
  exists s1, ext1, events1, paid1, s2, ext2, events2, paid2, s3, ext3, events3.
  repeat split; first [assumption | reflexivity].
Qed.

Lemma initiateCrossBorderTrade_state env s ext seller buyerBank sellerBank localAmount
    localCurrency buyerCountry sellerCountry lc buyerLEI sellerLEI s' ext' events id :
  initiateCrossBorderTrade env s ext seller buyerBank sellerBank localAmount
    localCurrency buyerCountry sellerCountry lc buyerLEI sellerLEI
    = Success (s', ext', events, id) ->
  id = nextTradeId s
  /\ nextTradeId s' = nextTradeId s + 1
  /\ exchangeRates s' = exchangeRates s
  /\ exists t, trades s' = <[nextTradeId s := t]> (trades s) /\ status t = INITIATED.
Proof.
  intros H. unfold Pyusd.initiateCrossBorderTrade in H. unbind H.
  match goal with
  | Hadd : checked_add _ _ = Success _ |- _ =>
      unfold checked_add in Hadd; case_match; [|discriminate];
      injection Hadd as <-
  end.
  injection H as <- _ _ <-. cbn. repeat split; eauto.
Qed.

(** A relation that holds across every call, given that it holds across
    the callbacks made during it, holds across any run of callbacks. *)
Lemma reenter_respects (R : State -> State -> Prop) (allowed : address -> Call -> Prop) :
  (forall s, R s s) ->
  (forall s1 s2 s3, R s1 s2 -> R s2 s3 -> R s1 s3) ->
  (forall first second third env call s ext s' ext' events,
     respects R first -> respects R second -> respects R third ->
     sender env <> 0 -> allowed (sender env) call ->
     dispatch first second third env call s ext = Success (s', ext', events) ->
     R s s') ->
  forall now self callbacks,
    (forall a c, In (a, c) (calls callbacks) -> allowed a c) ->
    respects R (reenter now self callbacks).
Proof.
  intros Hrefl Htrans Hstep now self.
  induction callbacks as [|caller call first IH1 second IH2 third IH3 rest IHr];
    intros Hall s ext s' ext' events H.
  - injection H as <- _ _. apply Hrefl.
  - cbn [Pyusd.reenter] in H. cbn [calls] in Hall.
    assert (H1 : respects R (reenter now self first)).
    { apply IH1. intros a c Hin. apply Hall. right. apply in_or_app. now left. }
    assert (H2 : respects R (reenter now self second)).
    { apply IH2. intros a c Hin. apply Hall. right.
      apply in_or_app. right. apply in_or_app. now left. }
    assert (H3 : respects R (reenter now self third)).
    { apply IH3. intros a c Hin. apply Hall. right.
      apply in_or_app. right. apply in_or_app. right. apply in_or_app. now left. }
    assert (Hr : respects R (reenter now self rest)).
    { apply IHr. intros a c Hin. apply Hall. right.
      apply in_or_app. right. apply in_or_app. right. apply in_or_app. now right. }
    match type of H with
    | match ?d with _ => _ end = _ => destruct d as [[[s1 ext1] events1]| |] eqn:E
    end.
    + destruct (reenter now self rest s1 ext1) as [[s2 ext2] events2] eqn:Er.
      injection H as <- _ _.
      apply (Htrans s s1 s2).
      * apply (Hstep _ _ _ _ _ _ _ _ _ _ H1 H2 H3) in E; [exact E | discriminate|].
        apply Hall. now left.
      * exact (Hr _ _ _ _ _ Er).
    + exact (Hr _ _ _ _ _ H).
    + exact (Hr _ _ _ _ _ H).
Qed.

(** ** C5 *)

(** No function but [updateExchangeRate] writes the table. *)
Lemma dispatch_rates first second third env call s ext s' ext' events :
  respects (fun s s' => exchangeRates s' = exchangeRates s) first ->
  respects (fun s s' => exchangeRates s' = exchangeRates s) second ->
  respects (fun s s' => exchangeRates s' = exchangeRates s) third ->
  (forall currency rate, call <> UpdateExchangeRate currency rate) ->
  dispatch first second third env call s ext = Success (s', ext', events) ->
  exchangeRates s' = exchangeRates s.
Proof.
  intros H1 H2 H3 Hcall H. destruct call; cbn in H.
  - apply bind_Success in H as ([[[s1 e1] ev1] id1] & E & H).
    injection H as <- _ _.
    now apply initiateCrossBorderTrade_state in E as (_ & _ & Hx & _).
  - now apply executeComplianceCheck_status in H as (_ & _ & t & -> & _).
  - apply escrowPYUSD_status in H as (_ & _ & s1 & ext1 & Hd & _ & ->).
    cbn. exact (H1 _ _ _ _ _ Hd).
  - apply executeInstantSettlement_status in H
      as (_ & _ & _ & s1 & ext1 & ev1 & p1 & s2 & ext2 & ev2 & p2 & s3 & ext3 & ev3
          & Hd1 & _ & Hd2 & _ & Hd3 & _ & -> & _).
    cbn. rewrite (H3 _ _ _ _ _ Hd3), (H2 _ _ _ _ _ Hd2). exact (H1 _ _ _ _ _ Hd1).
  - unfold Pyusd.initiateCrossChainTrade in H. unbind H. now injection H as <- _ _.
  - exfalso. eapply Hcall. reflexivity.
Qed.

(** C5, amended: the constructor sets exactly the five rates {- every
    other currency reads zero -}; every transaction other than
    [updateExchangeRate], during which the token does not have
    [updateExchangeRate] called either, leaves the table as it is;
    [updateExchangeRate(currency, rate)], which any caller may make,
    always succeeds, sets the entry of [currency] to [rate] and leaves
    every other entry as it is. *)
Theorem exchangeRates_change_only_by_update :
  (forall token adapter currency,
     rate (constructor token adapter) currency =
       if String.eqb currency "USD" then 1000000
       else if String.eqb currency "EUR" then 1100000
       else if String.eqb currency "GBP" then 1250000
       else if String.eqb currency "JPY" then 6700
       else if String.eqb currency "CNY" then 140000
       else 0)
  /\ (forall env call token s ext s' ext' events,
        execute env call token s ext = Success (s', ext', events) ->
        (forall currency rate, call <> UpdateExchangeRate currency rate) ->
        (forall caller nestedCall currency rate,
           In (caller, nestedCall) (nested token) ->
           nestedCall <> UpdateExchangeRate currency rate) ->
        exchangeRates s' = exchangeRates s)
  /\ (forall env token s ext currency r,
        execute env (UpdateExchangeRate currency r) token s ext
          = Success (updateExchangeRate s currency r, ext, [])
        /\ rate (updateExchangeRate s currency r) currency = r
        /\ forall other, other <> currency ->
             rate (updateExchangeRate s currency r) other = rate s other).
Proof.
  split; [|split].
  - intros token adapter currency. unfold rate, read, constructor. cbn.
    rewrite !lookup_insert.
    repeat match goal with
           | |- context [String.eqb currency ?c] =>
               destruct (String.eqb_spec currency c) as [->|?]
           end;
      repeat case_decide; try congruence; try reflexivity.
  - intros env call token s ext s' ext' events H Hcall Hnested.
    assert (Hrun : forall callbacks,
               (forall a c, In (a, c) (calls callbacks) -> In (a, c) (nested token)) ->
               respects (fun s s' => exchangeRates s' = exchangeRates s)
                 (reenter (timestamp env) (this env) callbacks)).
    { intros callbacks Hsub.
      apply (reenter_respects (fun s s' => exchangeRates s' = exchangeRates s)
               (fun _ c => forall currency rate, c <> UpdateExchangeRate currency rate)).
      - reflexivity.
      - intros s1 s2 s3 H12 H23. congruence.
      - intros f1 f2 f3 env0 call0 s0 ext0 s0' ext0' ev0 R1 R2 R3 _ Hc Hd.
        exact (dispatch_rates f1 f2 f3 env0 call0 s0 ext0 s0' ext0' ev0 R1 R2 R3 Hc Hd).
      - intros a c Hin currency rate. eapply Hnested. apply Hsub. exact Hin. }
    unfold Pyusd.execute in H.
    apply (dispatch_rates _ _ _ _ _ _ _ _ _ _
             (Hrun (first token) ltac:(intros a c Hin; unfold nested;
                                       apply in_or_app; now left))
             (Hrun (second token) ltac:(intros a c Hin; unfold nested;
                                        apply in_or_app; right;
                                        apply in_or_app; now left))
             (Hrun (third token) ltac:(intros a c Hin; unfold nested;
                                       apply in_or_app; right;
                                       apply in_or_app; now right))
             Hcall H).
  - intros env token s ext currency r. split; [reflexivity|].
    unfold rate, read, updateExchangeRate. cbn. split.
    + now rewrite lookup_insert_eq.
    + intros other Hne. now rewrite lookup_insert_ne.
Qed.

End ExternalFacts.

(** C5, counterexample: after deployment any caller can overwrite the
    USD rate. *)
Lemma updateExchangeRate_changes_the_table :
  exists s',
    Fixture.run (Fixture.buyerEnv 1000) (UpdateExchangeRate "USD" 5) Fixture.deployed
      = Success (s', tt, [])
    /\ rate Fixture.deployed "USD" = 1000000
    /\ rate s' "USD" = 5.
Proof. eexists. repeat split. Qed.

(** C5, witness: the compliance check leaves the table as it is. *)
Lemma exchangeRates_change_only_by_update_witness :
  exchangeRates Fixture.cleared = exchangeRates Fixture.initiated.
Proof.
  refine (proj1 (proj2
            (exchangeRates_change_only_by_update unit Fixture.allVerified
               Fixture.allDocuments Fixture.tokenTransfer Fixture.tokenTransferFrom))
            (Fixture.buyerEnv 1001) (ExecuteComplianceCheck 0) quiet Fixture.initiated tt
            Fixture.cleared tt [ComplianceCleared 0 true true] _ _ _).
  - vm_compute. reflexivity.
  - discriminate.
  - intros caller nestedCall currency rate Hin. destruct Hin.
Defined.

Example trade_lifecycle :
  map (fun s => status (trade s 0))
      [Fixture.deployed; Fixture.initiated; Fixture.cleared; Fixture.escrowed;
       Fixture.settledLate]
  = [INITIATED; INITIATED; COMPLIANCE_CHECK; PYUSD_ESCROWED; SETTLED].
Proof. vm_compute. reflexivity. Qed.

Example settlement_comparison_in_time :
  getSettlementComparison Fixture.settledInTime 0
  = Success (1000, 259200, 258200, 40000000).
Proof. vm_compute. reflexivity. Qed.

Example settlement_comparison_unsettled :
  getSettlementComparison Fixture.escrowed 0 = Success (0, 0, 0, 0).
Proof. vm_compute. reflexivity. Qed.

(** ** C4 *)

(** C4, the failing run: the buyer calls [escrowPYUSD(0)] on the cleared
    trade 0, and the token, before [transferFrom] returns, has the buyer's
    bank call [escrowPYUSD(0)] and [executeInstantSettlement(0)].  When
    [transferFrom] returns the trade is SETTLED, its settlement event
    emitted and [settledAt] written; the buyer's call then goes on to
    write PYUSD_ESCROWED over it, an earlier position of the enum, and
    the transaction succeeds.  The trade can then be settled a second
    time. *)
Theorem escrowPYUSD_reentered_moves_status_back :
  exists settled final again,
    Scenarios.midEscrow = (settled, tt, [InstantSettlement 0 2000000000 1002])
    /\ status (trade settled 0) = SETTLED
    /\ Scenarios.runWith Scenarios.reentrant (Fixture.buyerEnv 1002) (EscrowPYUSD 0)
         Fixture.cleared
       = Success (final, tt, [InstantSettlement 0 2000000000 1002])
    /\ status (trade final 0) = PYUSD_ESCROWED
    /\ settledAt (trade final 0) = 1002
    /\ ordinal (status (trade final 0)) < ordinal (status (trade settled 0))
    /\ Fixture.run (Fixture.buyerEnv 2000) (ExecuteInstantSettlement 0) final
       = Success (again, tt, [InstantSettlement 0 2000000000 2000])
    /\ status (trade again 0) = SETTLED.
Proof.
  eexists _, _, _.
  split; [vm_compute; reflexivity|].
  split; [vm_compute; reflexivity|].
  split; [vm_compute; reflexivity|].
  split; [vm_compute; reflexivity|].
  split; [vm_compute; reflexivity|].
  split; [vm_compute; reflexivity|].
  split; vm_compute; reflexivity.
Qed.

(** ** C9 *)

(** C9: for a settled trade whose settlement came more than three days
    after its creation, [getSettlementComparison] panics with the
    arithmetic code 0x11: the subtraction [traditionalEstimate -
    pyusdSettlementTime] underflows; for a trade with [settledAt] zero it
    returns four zeros. *)
Theorem getSettlementComparison_underflow (s : State) (id : Z) :
  (0 < settledAt (trade s id) ->
   createdAt (trade s id) + 3 * 86400 < settledAt (trade s id) ->
   getSettlementComparison s id = Panic 17)
  /\ (settledAt (trade s id) = 0 ->
      getSettlementComparison s id = Success (0, 0, 0, 0)).
Proof.
  unfold getSettlementComparison, checked_sub. split.
  - intros Hpos Hlate.
    destruct (Z.ltb_spec 0 (settledAt (trade s id))); [|lia].
    destruct (Z.leb_spec (createdAt (trade s id)) (settledAt (trade s id))); [|lia].
    cbn. case_match; [|reflexivity].
    match goal with H : (_ <=? _) = true |- _ => apply Z.leb_le in H end. lia.
  - intros ->. reflexivity.
Qed.

(** C9, witness: the trade settled 300000 seconds after its creation. *)
Lemma getSettlementComparison_underflow_witness :
  getSettlementComparison Fixture.settledLate 0 = Panic 17.
Proof.
  apply (proj1 (getSettlementComparison_underflow Fixture.settledLate 0));
    vm_compute; reflexivity.
Defined.

End PyusdSpec.

(* ===================================================================== *)
(** * Properties of InstitutionalAsset                                    *)
(* ===================================================================== *)

Module AssetSpec.
Import Solidity Asset.
Import PyusdSpec.

Lemma sumBalances_insert_fresh (b : gmap Z Z) (k v : Z) :
  b !! k = None -> sumBalances (<[k := v]> b) = v + sumBalances b.
Proof.
  intros Hk. unfold sumBalances.
  apply (map_fold_insert_L (fun _ v acc => v + acc) 0 k v b); [|exact Hk].
  intros; lia.
Qed.

Lemma sumBalances_delete (b : gmap Z Z) (k x : Z) :
  b !! k = Some x -> sumBalances b = x + sumBalances (delete k b).
Proof.
  intros Hk. unfold sumBalances.
  apply (map_fold_delete_L (fun _ v acc => v + acc) 0 k x b); [|exact Hk].
  intros; lia.
Qed.

(** Writing one balance changes the sum by the difference. *)
Lemma sumBalances_insert (b : gmap Z Z) (k v : Z) :
  sumBalances (<[k := v]> b) = sumBalances b - read b k + v.
Proof.
  unfold read. destruct (b !! k) as [x|] eqn:E; cbn.
  - rewrite <- insert_delete_eq.
    rewrite sumBalances_insert_fresh by apply lookup_delete_eq.
    rewrite (sumBalances_delete b k x E). lia.
  - rewrite sumBalances_insert_fresh by exact E. lia.
Qed.

Lemma _removeHolder_balances s holder s' :
  _removeHolder s holder = Success s' ->
  balances s' = balances s /\ totalSupply s' = totalSupply s.
Proof.
  unfold _removeHolder. intros H. unbind H.
  destruct (indexOf holder (holders s) 0); injection H as <-; split; reflexivity.
Qed.

Lemma _transfer_balances s from to amount s' events r :
  _transfer s from to amount = Success (s', events, r) ->
  sumBalances (balances s') = sumBalances (balances s)
  /\ totalSupply s' = totalSupply s.
Proof.
  unfold _transfer. intros H. unbind H. cbn in *.
  injection H as <- _ _.
  match goal with Hx : checked_sub _ _ = Success _ |- _ => rename Hx into Hsub end.
  match goal with Hx : checked_add _ _ = Success _ |- _ => rename Hx into Hadd end.
  match goal with Hx : (if _ then _ else _) = Success _ |- _ => rename Hx into Hlast end.
  match type of Hlast with
  | _ = Success ?s2 =>
      match type of Hsub with
      | _ = Success ?d =>
          match type of Hadd with
          | _ = Success ?c =>
              assert (Hb : balances s2 = <[to := c]> (<[from := d]> (balances s))
                           /\ totalSupply s2 = totalSupply s)
          end
      end
  end.
  { destruct (negb (readBool (isHolder s) to)); cbn in Hlast;
      match type of Hlast with
      | (if ?c0 then _ else _) = _ => destruct c0
      end;
      try (apply _removeHolder_balances in Hlast as [-> ->]);
      try (injection Hlast as <-);
      split; reflexivity. }
  unfold checked_sub in Hsub. unfold checked_add in Hadd.
  repeat match goal with
         | Hx : (if ?c then Success _ else Panic _) = Success _ |- _ =>
             destruct c; [injection Hx as <- | discriminate Hx]
         end.
  destruct Hb as [-> ->]. split; [|reflexivity].
  rewrite !sumBalances_insert. lia.
Qed.

#[local] Opaque _transfer.

Lemma transfer_balances env s to amount s' events r :
  transfer env s to amount = Success (s', events, r) ->
  sumBalances (balances s') = sumBalances (balances s)
  /\ totalSupply s' = totalSupply s.
Proof.
  unfold transfer. intros H. unbind H.
  match goal with
  | Ht : _transfer _ _ _ _ = Success ?x |- _ =>
      destruct x as [[s1 ev1] r1]; apply _transfer_balances in Ht;
      injection H as <- _ _; exact Ht
  end.
Qed.

Lemma transferFrom_balances env s from to amount s' events r :
  transferFrom env s from to amount = Success (s', events, r) ->
  sumBalances (balances s') = sumBalances (balances s)
  /\ totalSupply s' = totalSupply s.
Proof.
  unfold transferFrom. intros H. unbind H.
  apply _transfer_balances in H. exact H.
Qed.

Lemma other_calls_keep_balances env call s s' events :
  isTransferCall call = false ->
  execute env call s = Success (s', events) ->
  balances s' = balances s /\ totalSupply s' = totalSupply s.
Proof.
  intros Hc H. destruct call; try discriminate Hc; cbn in H.
  - unfold whitelistInvestor in H. unbind H. now injection H as <- _.
  - unfold emergencyPause in H. unbind H. now injection H as <- _.
  - unfold resumeTransfers in H. unbind H. now injection H as <- _.
  - unfold updateAssetStatus in H. unbind H. injection H as <- _.
    destruct (bool_decide (newStatus = DEFAULT)); split; reflexivity.
  - injection H as <- _. split; reflexivity.
Qed.

Lemma execute_balances env call s s' events :
  execute env call s = Success (s', events) ->
  sumBalances (balances s') = sumBalances (balances s)
  /\ totalSupply s' = totalSupply s.
Proof.
  intros H. destruct (isTransferCall call) eqn:Hc.
  - destruct call; try discriminate Hc; cbn in H;
      apply bind_Success in H as ([[s1 ev1] r1] & E & H); injection H as <- _.
    + eapply transfer_balances; eauto.
    + eapply transferFrom_balances; eauto.
  - destruct (other_calls_keep_balances env call s s' events Hc H) as [-> ->].
    split; reflexivity.
Qed.

Lemma constructor_supply data adapter s :
  constructor data adapter = Success s ->
  balances s = <[manager data := totalSupply s]> ∅
  /\ sumBalances (balances s) = totalSupply s.
Proof.
  unfold constructor. intros H. unbind H. injection H as <-. cbn.
  split; [reflexivity|].
  rewrite sumBalances_insert_fresh by apply lookup_empty.
  unfold sumBalances. rewrite map_fold_empty. lia.
Qed.

Lemma reachable_supply s : reachable s -> sumBalances (balances s) = totalSupply s.
Proof.
  induction 1 as [data adapter s Hc | env call s s' events _ IH He].
  - now apply constructor_supply in Hc.
  - apply execute_balances in He as [-> ->]. exact IH.
Qed.

Example balances_after_transfer :
  totalSupply Fixture.minted = 5000 * 10 ^ 18
  /\ balanceOf Fixture.minted 10 = 5000 * 10 ^ 18
  /\ balanceOf Fixture.transferred 10 = 5000 * 10 ^ 18 - 1000
  /\ balanceOf Fixture.transferred 20 = 1000
  /\ holders Fixture.transferred = [10; 20].
Proof. vm_compute. repeat split. Qed.

(** ** C10 *)

(** C10: the constructor mints [totalSupply] to the manager and nothing to
    anyone else; from then on every successful transaction {- [transfer]
    and [transferFrom] among them -} leaves the sum of all balances and
    [totalSupply] as they were, so the sum equals [totalSupply] in every
    reachable state; and a transaction that is neither [transfer] nor
    [transferFrom] leaves every balance as it was. *)
Theorem balances_sum_is_totalSupply :
  (forall data adapter s,
     constructor data adapter = Success s ->
     balances s = <[manager data := totalSupply s]> ∅)
  /\ (forall s, reachable s -> sumBalances (balances s) = totalSupply s)
  /\ (forall s, reachable s ->
      forall env call s' events,
        execute env call s = Success (s', events) ->
        sumBalances (balances s') = sumBalances (balances s)
        /\ totalSupply s' = totalSupply s
        /\ sumBalances (balances s') = totalSupply s'
        /\ (isTransferCall call = false -> balances s' = balances s)).
Proof.
  split; [|split].
  - intros data adapter s H. now apply constructor_supply in H.
  - apply reachable_supply.
  - intros s Hr env call s' events H.
    pose proof (reachable_supply s Hr) as Hs.
    destruct (execute_balances env call s s' events H) as [Hsum Htot].
    repeat split; try congruence.
    intros Hc. now destruct (other_calls_keep_balances env call s s' events Hc H).
Qed.

(** C10, witness: the manager's transfer of 1000 units to account 20. *)
Lemma balances_sum_is_totalSupply_witness :
  sumBalances (balances Fixture.transferred) = sumBalances (balances Fixture.whitelisted)
  /\ sumBalances (balances Fixture.transferred) = totalSupply Fixture.transferred.
Proof.
  assert (Hr : reachable Fixture.whitelisted).
  { eapply (reachable_execute Fixture.managerEnv (CallWhitelistInvestor 20 1)
              Fixture.minted).
    - eapply (reachable_constructor Fixture.assetData 2). vm_compute. reflexivity.
    - vm_compute. reflexivity. }
  destruct (proj2 (proj2 balances_sum_is_totalSupply) Fixture.whitelisted Hr
              Fixture.managerEnv (CallTransfer 20 1000) Fixture.transferred
              [ComplianceRuleTriggered "RULE_02_OFAC" 20 true;
               ComplianceRuleTriggered "RULE_03_SANCTIONS" 20 true;
               ComplianceRuleTriggered "RULE_10_MIN_FRACTION" 10 true;
               Transfer 10 20 1000])
    as (H1 & _ & H2 & _).
  - vm_compute. reflexivity.
  - split; assumption.
Defined.

End AssetSpec.

(* ===================================================================== *)
(** * Further properties of the FORTE rule engine                         *)
(* ===================================================================== *)

Module ForteExtra.
Import JS Runtime ZKPret Forte ZKPretSpec ForteSpec.

Section Returns.
Variable round : Q -> Q.
Variable data : TransactionData.

(** Every rule but Rule 5 returns. *)
Lemma evaluateRule01_returns w : exists r w', evaluateRule01 data w = (Returned r, w').
Proof.
  unfold evaluateRule01.
  destruct (legalEntityIdentifier data) as [[|c lei]|]; run_m; eauto.
  destruct (verifyGLEIF_run (String c lei) (corporateName data) w) as (? & ? & ? & ->).
  eauto.
Qed.

Lemma evaluateRule04_returns w : exists r, evaluateRule04 data w = (Returned r, w).
Proof.
  unfold evaluateRule04.
  destruct (legalEntityIdentifier data) as [[|c lei]|]; eauto.
  destruct (negb (Nat.eqb (String.length (String c lei)) 20)); eauto.
Qed.

Lemma evaluateRule06_returns w : exists r w', evaluateRule06 data w = (Returned r, w').
Proof.
  unfold evaluateRule06. run_m.
  destruct (assessACTUSRisk_run data w) as (? & ? & ? & ->). eauto.
Qed.

Lemma evaluateRule07_returns w : exists r w', evaluateRule07 data w = (Returned r, w').
Proof.
  unfold evaluateRule07. run_m.
  destruct (verifyDCSADocuments_run (documentHash data)
              (default [] (tradeDocuments data)) w) as (? & ? & ? & ->).
  eauto.
Qed.

Lemma evaluateRule09_returns w : exists r w', evaluateRule09 round data w = (Returned r, w').
Proof.
  unfold evaluateRule09. run_m.
  destruct (calculateMetadataScore_run round data) as [scores Hs].
  destruct (Hs w) as [? ->]. eauto.
Qed.

Lemma evaluateRule12_returns w : exists r w', evaluateRule12 round data w = (Returned r, w').
Proof.
  unfold evaluateRule12. run_m.
  destruct (checkMetadataThreshold_run round data) as [check Hc].
  destruct (Hc w) as [? ->]. eauto.
Qed.

Lemma evaluateRule13_returns w : exists r, evaluateRule13 data w = (Returned r, w).
Proof. unfold evaluateRule13. run_m. split_ifs; eauto. Qed.

Lemma evaluateRule14_returns w : exists r w', evaluateRule14 data w = (Returned r, w').
Proof. unfold evaluateRule14, checkIndiaRBICompliance. run_m. split_ifs; eauto. Qed.

Lemma evaluateRule05_outcome w :
  (assetDescription data = None /\ exists e, evaluateRule05 data w = (Thrown e, w))
  \/ (exists d r w', assetDescription data = Some d
                     /\ evaluateRule05 data w = (Returned r, w')).
Proof.
  unfold evaluateRule05. destruct (assetDescription data) as [d|].
  - right. run_m. destruct (verifyBPMNCompliance_run (Some d) d w) as (? & ? & ? & ->).
    eauto 6.
  - left. split; [reflexivity|]. unfold verifyBPMNCompliance. run_m. eauto.
Qed.

(** Rule 5 without a description to read. *)
Lemma outcomeOf_RULE_05_throws (rule : Rule) (w : World) :
  ruleId rule = "RULE_05" -> assetDescription data = None ->
  outcomeOf round rule data w = None.
Proof.
  intros Hid Hd. unfold outcomeOf, evaluateRule. rewrite Hid. cbn [String.eqb Ascii.eqb].
  cbn.
  destruct (evaluateRule05_outcome w) as [[_ [e ->]] | (d & r & w' & Hd' & _)].
  - reflexivity.
  - congruence.
Qed.

(** X1: an evaluation throws exactly when the rule is RULE_05 and the
    transaction has no asset description; every other rule, and every
    unknown rule id, returns a result. *)
Theorem evaluateRule_throws_iff (rule : Rule) (w : World) :
  outcomeOf round rule data w = None
  <-> ruleId rule = "RULE_05" /\ assetDescription data = None.
Proof.
  unfold outcomeOf, evaluateRule.
  repeat match goal with
         | |- context [String.eqb (ruleId rule) ?s] =>
             destruct (String.eqb_spec (ruleId rule) s) as [Heq|?]
         end;
    try (match goal with
         | |- context [evaluateRule05 data w] => idtac
         | |- _ =>
             let finish :=
               (split; [discriminate | intros [H5 _]; congruence]) in
             first
               [ destruct (evaluateRule01_returns w) as (? & ? & ->); finish
               | destruct (evaluateRule04_returns w) as (? & ->); finish
               | destruct (evaluateRule06_returns w) as (? & ? & ->); finish
               | destruct (evaluateRule07_returns w) as (? & ? & ->); finish
               | destruct (evaluateRule09_returns w) as (? & ? & ->); finish
               | destruct (evaluateRule12_returns w) as (? & ? & ->); finish
               | destruct (evaluateRule13_returns w) as (? & ->); finish
               | destruct (evaluateRule14_returns w) as (? & ? & ->); finish
               | finish ]
         end).
  destruct (evaluateRule05_outcome w) as [[Hd [e ->]] | (d & r & w' & Hd & ->)].
  - split; auto.
  - split; [discriminate | intros [_ H]; congruence].
Qed.

End Returns.

Lemma forallb_negb_filter {A B : Type} (f : A -> bool) (g : A -> B) (l : list A) :
  forallb (fun x => negb (f x)) l = true <-> map g (List.filter f l) = [].
Proof.
  induction l as [|x l IH]; cbn; [tauto|].
  destruct (f x); cbn; [split; discriminate | exact IH].
Qed.

(** X2: on a registered policy the verdict is [compliant] exactly when the
    list of failed rules is empty. *)
Theorem checkRules_compliant_iff_nothing_failed (round : Q -> Q)
    (registry : gmap string Policy) (policyId : string) (policy : Policy)
    (data : TransactionData) (w : World) :
  registry !! policyId = Some policy ->
  exists result w',
    checkRules round registry policyId data w = (Returned result, w')
    /\ (compliant result = true <-> failedRules result = []).
Proof.
  intros Hp.
  destruct (checkRules_run round data w registry policyId policy w Hp) as [w' Hrun].
  eexists _, w'. split; [exact Hrun|].
  rewrite fold_compliant, fold_failedRules. cbn [compliant failedRules andb app].
  apply forallb_negb_filter.
Qed.

Lemma checkRules_compliant_iff_nothing_failed_witness :
  exists result w',
    checkRules Fixture.exact Fixture.demoRegistry "POLICY_DEMO" Fixture.undescribedData
      Fixture.world0 = (Returned result, w')
    /\ (compliant result = true <-> failedRules result = []).
Proof.
  apply (checkRules_compliant_iff_nothing_failed Fixture.exact Fixture.demoRegistry
           "POLICY_DEMO" Fixture.demoPolicy).
  reflexivity.
Defined.

Lemma classes_count (o : Rule -> option bool) (l : list Rule) :
  (length (List.filter (fun rule => isPassed (o rule)) l)
   + length (List.filter (fun rule => isFailed (o rule) rule) l)
   + length (List.filter (fun rule => isWarned (o rule) rule) l)
   <= length l)%nat
  /\ ((forall rule, In rule l ->
         action rule = "DENY" \/ action rule = "WARN" \/ action rule = "ADJUST") ->
      (length (List.filter (fun rule => isPassed (o rule)) l)
       + length (List.filter (fun rule => isFailed (o rule) rule) l)
       + length (List.filter (fun rule => isWarned (o rule) rule) l)
       = length l)%nat).
Proof.
  induction l as [|rule l [IHle IHeq]]; cbn [List.filter length].
  - split; [lia | reflexivity].
  - assert (Hcase :
      forall a : string,
        action rule = a ->
        (isPassed (o rule) = true /\ isFailed (o rule) rule = false
         /\ isWarned (o rule) rule = false)
        \/ (isPassed (o rule) = false /\ isFailed (o rule) rule = true
            /\ isWarned (o rule) rule = false)
        \/ (isPassed (o rule) = false /\ isFailed (o rule) rule = false
            /\ isWarned (o rule) rule = true)
        \/ (isPassed (o rule) = false /\ isFailed (o rule) rule = false
            /\ isWarned (o rule) rule = false
            /\ a <> "DENY" /\ a <> "WARN" /\ a <> "ADJUST")).
    { intros a Ha. unfold isPassed, isFailed, isWarned. rewrite Ha.
      destruct (o rule) as [[|]|]; auto.
      destruct (String.eqb_spec a "DENY"); cbn; auto.
      destruct (String.eqb_spec a "WARN"); cbn; auto 6.
      destruct (String.eqb_spec a "ADJUST"); cbn; auto 10. }
    specialize (Hcase (action rule) eq_refl).
    split.
    + destruct Hcase as [(-> & -> & ->) | [(-> & -> & ->) | [(-> & -> & ->)
                        | (-> & -> & -> & _)]]]; cbn [length]; lia.
    + intros Hall.
      assert (Hl : forall r, In r l ->
                action r = "DENY" \/ action r = "WARN" \/ action r = "ADJUST")
        by (intros r Hr; apply Hall; now right).
      specialize (IHeq Hl).
      destruct Hcase as [(-> & -> & ->) | [(-> & -> & ->) | [(-> & -> & ->)
                        | (_ & _ & _ & H1 & H2 & H3)]]]; cbn [length]; try lia.
      destruct (Hall rule (or_introl eq_refl)) as [H | [H | H]]; congruence.
Qed.

(** X3: [checkRules] files every rule of the policy at most once: the
    passed, failed and warned lists together are never longer than the
    rule list, and they account for every rule when every action is DENY,
    WARN or ADJUST {- a failing rule with any other action is dropped
    without a trace -}. *)
Theorem checkRules_accounts_for_rules (round : Q -> Q)
    (registry : gmap string Policy) (policyId : string) (policy : Policy)
    (data : TransactionData) (w : World) :
  registry !! policyId = Some policy ->
  exists result w',
    checkRules round registry policyId data w = (Returned result, w')
    /\ (length (passedRules result) + length (failedRules result)
        + length (warnings result) <= length (rules policy))%nat
    /\ ((forall rule, In rule (rules policy) ->
           action rule = "DENY" \/ action rule = "WARN" \/ action rule = "ADJUST") ->
        (length (passedRules result) + length (failedRules result)
         + length (warnings result) = length (rules policy))%nat).
Proof.
  intros Hp.
  destruct (checkRules_run round data w registry policyId policy w Hp) as [w' Hrun].
  eexists _, w'. split; [exact Hrun|].
  rewrite fold_passedRules, fold_failedRules, fold_warnings.
  cbn [passedRules failedRules warnings app]. rewrite !length_map.
  apply (classes_count (fun rule => outcomeOf round rule data w)).
Qed.

Lemma checkRules_accounts_for_rules_witness :
  exists result w',
    checkRules Fixture.exact Fixture.demoRegistry "POLICY_DEMO" Fixture.demoData
      Fixture.world0 = (Returned result, w')
    /\ (length (passedRules result) + length (failedRules result)
        + length (warnings result) = 12)%nat.
Proof.
  destruct (checkRules_accounts_for_rules Fixture.exact Fixture.demoRegistry
              "POLICY_DEMO" Fixture.demoPolicy Fixture.demoData Fixture.world0 eq_refl)
    as (result & w' & Hrun & _ & Heq).
  exists result, w'. split; [exact Hrun|]. apply Heq.
  intros rule Hin. cbn in Hin.
  repeat (destruct Hin as [<- | Hin]; [cbn; auto|]). contradiction.
Defined.

(** X4: a transaction without an asset description fails every policy that
    contains RULE_05, whatever action the policy gives that rule: the
    evaluation throws, and [checkRules] files a throwing rule under
    [failedRules] and clears [compliant]. *)
Theorem checkRules_missing_description (round : Q -> Q)
    (registry : gmap string Policy) (policyId : string) (policy : Policy)
    (data : TransactionData) (rule : Rule) (w : World) :
  registry !! policyId = Some policy ->
  In rule (rules policy) ->
  ruleId rule = "RULE_05" ->
  assetDescription data = None ->
  exists result w',
    checkRules round registry policyId data w = (Returned result, w')
    /\ compliant result = false
    /\ In "RULE_05" (failedRules result).
Proof.
  intros Hp Hin Hid Hd.
  destruct (checkRules_run round data w registry policyId policy w Hp) as [w' Hrun].
  eexists _, w'. split; [exact Hrun|].
  assert (Hf : isFailed (outcomeOf round rule data w) rule = true).
  { rewrite (outcomeOf_RULE_05_throws round data rule w Hid Hd).
    reflexivity. }
  rewrite fold_compliant, fold_failedRules. cbn [compliant failedRules andb app].
  split.
  - apply not_true_is_false. rewrite forallb_forall. intros Hall.
    specialize (Hall rule Hin). rewrite Hf in Hall. discriminate Hall.
  - rewrite <- Hid. apply in_map. apply filter_In. split; assumption.
Qed.

Lemma checkRules_missing_description_witness :
  exists result w',
    checkRules Fixture.exact Fixture.demoRegistry "POLICY_DEMO" Fixture.undescribedData
      Fixture.world0 = (Returned result, w')
    /\ compliant result = false
    /\ In "RULE_05" (failedRules result).
Proof.
  apply (checkRules_missing_description Fixture.exact Fixture.demoRegistry "POLICY_DEMO"
           Fixture.demoPolicy Fixture.undescribedData
           (Fixture.rule "RULE_05" "BPMN Business Process Compliance" "DENY")).
  - reflexivity.
  - cbn. auto 10.
  - reflexivity.
  - reflexivity.
Defined.

(** X5: whenever Rule 1 passes, Rule 4 passes on the same transaction: the
    length test of Rule 4 is part of the GLEIF verification Rule 1 runs. *)
Theorem rule01_implies_rule04 (data : TransactionData) (w1 w1' w4 : World)
    (r1 : RuleResult) :
  evaluateRule01 data w1 = (Returned r1, w1') ->
  passed r1 = true ->
  evaluateRule04 data w4 = (Returned {| passed := true; reason := None |}, w4).
Proof.
  intros H1 Hp.
  assert (Hlen : exists l, legalEntityIdentifier data = Some l
                           /\ l <> "" /\ Nat.eqb (String.length l) 20 = true).
  { unfold evaluateRule01 in H1.
    destruct (legalEntityIdentifier data) as [[|c lei]|].
    - injection H1 as <- _. discriminate Hp.
    - revert H1. unfold mbind, M_bind.
      destruct (verifyGLEIF_run (String c lei) (corporateName data) w1)
        as (p & t & w' & ->).
      intros [= <- _]. cbn [passed verified] in Hp.
      apply andb_true_iff in Hp as [Hlen _].
      exists (String c lei). repeat split; [discriminate | exact Hlen].
    - injection H1 as <- _. discriminate Hp. }
  destruct Hlen as (l & Hl & Hne & Hlen).
  unfold evaluateRule04. rewrite Hl. destruct l as [|c lei]; [congruence|].
  rewrite Hlen. reflexivity.
Qed.

Lemma rule01_implies_rule04_witness :
  evaluateRule04 Fixture.demoData Fixture.world0
  = (Returned {| passed := true; reason := None |}, Fixture.world0).
Proof.
  assert (R : Fixture.returned (evaluateRule01 Fixture.demoData Fixture.world0)
              = Some {| passed := true; reason := None |})
    by (vm_compute; reflexivity).
  destruct (evaluateRule01 Fixture.demoData Fixture.world0) as [[r1|e] w'] eqn:E;
    [|discriminate R].
  injection R as ->.
  apply (rule01_implies_rule04 Fixture.demoData Fixture.world0 w' Fixture.world0
           {| passed := true; reason := None |} E).
  reflexivity.
Defined.

Lemma le_not_gt (a b : number) : le a b = true -> gt a b = false.
Proof.
  unfold le, gt. destruct a as [|sa|x], b as [|sb|y]; try discriminate;
    intros H; apply negb_true_iff in H; exact H.
Qed.

Lemma not_gt_le (a b : number) : a <> NaN -> b <> NaN -> gt a b = false -> le a b = true.
Proof.
  unfold le, gt. destruct a as [|sa|x], b as [|sb|y]; try congruence;
    intros _ _ H; apply negb_true_iff; exact H.
Qed.

(** A transaction Rule 13 lets through is under its ceiling. *)
Lemma evaluateRule13_passed_le (data : TransactionData) (w w' : World) (r : RuleResult) :
  evaluateRule13 data w = (Returned r, w') ->
  passed r = true ->
  le (effectiveAmount data) (ofZ 50000000) = true.
Proof.
  unfold evaluateRule13, effectiveAmount.
  set (amount := orNum (pyusdAmount data) (orNum (principalAmount data) (ofZ 0))).
  change (ge (Fin (1001 # 1000)) (Fin (995 # 1000))
          && le (Fin (1001 # 1000)) (Fin (1005 # 1000))) with true.
  cbn [negb].
  destruct (le amount (ofZ 50000000)); cbn [negb]; [reflexivity|].
  intros H. injection H as <- _. discriminate.
Qed.

(** X6: Rule 13 returns without touching the clock or the console, and
    passes exactly when the PYUSD amount {- [pyusdAmount], else
    [principalAmount], else 0 -} lies between 1000000 and 50000000: the
    peg price is the constant 1.001, so the peg test never fails. *)
Theorem evaluateRule13_passes_iff (data : TransactionData) (w : World) :
  exists r,
    evaluateRule13 data w = (Returned r, w)
    /\ (passed r = true <->
         ge (effectiveAmount data) (ofZ 1000000) = true
         /\ le (effectiveAmount data) (ofZ 50000000) = true).
Proof.
  unfold evaluateRule13, effectiveAmount.
  set (amount := orNum (pyusdAmount data) (orNum (principalAmount data) (ofZ 0))).
  change (ge (Fin (1001 # 1000)) (Fin (995 # 1000))
          && le (Fin (1001 # 1000)) (Fin (1005 # 1000))) with true.
  cbn [negb].
  destruct (le amount (ofZ 50000000)); cbn [negb].
  - destruct (ge amount (ofZ 1000000)); cbn [negb]; eexists;
      (split; [reflexivity|]); cbn [passed]; intuition discriminate.
  - eexists. split; [reflexivity|]. cbn [passed]. intuition discriminate.
Qed.

(** X7: when Rule 13 passes and both countries {- a missing or empty one
    counts as US -} are on the allow-list of a corridor whose limit is at
    least 50000000, Rule 14 passes too: the 50000000 ceiling of Rule 13 is
    the tighter bound, and it also satisfies the India check. *)
Theorem rule13_implies_rule14 (data : TransactionData) (w13 w13' w14 : World)
    (r13 : RuleResult) :
  In (orStr (buyerCountry data) "US") supportedCountries ->
  In (orStr (sellerCountry data) "US") supportedCountries ->
  (50000000 <= statedCorridorLimit (orStr (buyerCountry data) "US")
                 (orStr (sellerCountry data) "US"))%Z ->
  evaluateRule13 data w13 = (Returned r13, w13') ->
  passed r13 = true ->
  exists w14',
    evaluateRule14 data w14 = (Returned {| passed := true; reason := None |}, w14').
Proof.
  intros Hb Hs Hlimit H13 Hp.
  pose proof (evaluateRule13_passed_le data w13 w13' r13 H13 Hp) as Hle.
  apply le_not_gt in Hle.
  unfold evaluateRule14. unfold effectiveAmount in Hle.
  set (b := orStr (buyerCountry data) "US") in *.
  set (s := orStr (sellerCountry data) "US") in *.
  set (amount := orNum (pyusdAmount data) (orNum (principalAmount data) (ofZ 0))) in *.
  rewrite (proj2 (inList_In b _) Hb), (proj2 (inList_In s _) Hs).
  rewrite (supported_not_restricted b Hb), (supported_not_restricted s Hs).
  cbn [negb orb]. rewrite (getCrossBorderLimit_stated b s Hb Hs). cbn [toNumber].
  rewrite (gt_ofZ_mono amount 50000000 _ Hlimit Hle).
  unfold checkIndiaRBICompliance. rewrite Hle.
  destruct (String.eqb b "IN" || String.eqb s "IN"); [|eauto].
  destruct (ge amount (ofZ 1000000)); run_m; eauto.
Qed.

Lemma rule13_implies_rule14_witness :
  exists w14',
    evaluateRule14 Fixture.demoData Fixture.world0
    = (Returned {| passed := true; reason := None |}, w14').
Proof.
  assert (R : Fixture.returned (evaluateRule13 Fixture.demoData Fixture.world0)
              = Some {| passed := true; reason := None |})
    by (vm_compute; reflexivity).
  destruct (evaluateRule13 Fixture.demoData Fixture.world0) as [[r13|e] w'] eqn:E;
    [|discriminate R].
  injection R as ->.
  apply (rule13_implies_rule14 Fixture.demoData Fixture.world0 w' Fixture.world0
           {| passed := true; reason := None |}).
  - cbn. auto.
  - cbn. auto 10.
  - vm_compute. discriminate.
  - exact E.
  - reflexivity.
Defined.

Lemma own_multiplier (t : string) :
  inList t objectPrototypeKeys = false ->
  exists m : Z,
    (0 < m)%Z
    /\ toNumber (orElse (getProperty assetTypeMultipliers t) (ofZ 1000)) = Fin (m # 1).
Proof.
  intros Ht. unfold getProperty. rewrite Ht. unfold assetTypeMultipliers. cbn [assoc].
  repeat match goal with
         | |- context [String.eqb ?k t] => destruct (String.eqb k t)
         end;
    match goal with
    | |- context [toNumber ?v] =>
        let n := fresh "n" in
        set (n := toNumber v); vm_compute in n; subst n
    end;
    eexists; (split; [|reflexivity]); reflexivity.
Qed.

Lemma inherited_multiplier (t : string) :
  inList t objectPrototypeKeys = true ->
  toNumber (orElse (getProperty assetTypeMultipliers t) (ofZ 1000)) = NaN.
Proof.
  unfold objectPrototypeKeys, inList. cbn [existsb]. intros Ht.
  repeat (apply orb_true_iff in Ht as [Ht | Ht];
          [apply String.eqb_eq in Ht; subst t; reflexivity|]).
  discriminate Ht.
Qed.

Lemma clamp_Infinity (negative : bool) :
  exists k, max (ofZ 10) (min (ofZ 10000) (Infinity negative)) = ofZ k
            /\ (10 <= k <= 10000)%Z.
Proof.
  destruct negative; [exists 10%Z | exists 10000%Z]; split; try reflexivity; lia.
Qed.

Lemma passes_clamped (k : Z) :
  (10 <= k <= 10000)%Z -> ge (ofZ k) (ofZ 10) && le (ofZ k) (ofZ 10000) = true.
Proof.
  intros Hk. unfold ge, le, ofZ, lt. rewrite !Qltb_inject_Z.
  apply andb_true_iff. split; apply negb_true_iff, Z.ltb_ge; lia.
Qed.

(** X8: Rule 8 returns without touching the clock or the console, and
    passes exactly when the transaction carries a principal amount that is
    a number {- not missing, not NaN -} and its asset type does not name a
    property inherited from [Object.prototype]; this holds for every
    rounding of the division. *)
Theorem evaluateRule08_passes_iff (round : Q -> Q) (data : TransactionData) (w : World) :
  exists r,
    evaluateRule08 round data w = (Returned r, w)
    /\ (passed r = true <->
         (exists n, principalAmount data = Some n /\ n <> NaN)
         /\ inList (keyOf (assetType data)) objectPrototypeKeys = false).
Proof.
  unfold evaluateRule08. eexists. split; [reflexivity|]. cbn [passed].
  unfold calculateOptimalFractions. cbn [optimalCount].
  destruct (inList (keyOf (assetType data)) objectPrototypeKeys) eqn:Hk.
  - rewrite (inherited_multiplier _ Hk).
    replace (div round (numberOf (principalAmount data)) NaN) with NaN
      by (destruct (numberOf (principalAmount data)); reflexivity).
    cbn. split; [discriminate | intros [_ H]; discriminate H].
  - destruct (own_multiplier _ Hk) as (m & Hm & ->).
    destruct (principalAmount data) as [[|negative|p]|]; cbn [numberOf].
    + cbn. split; [discriminate | intros [(n & [= <-] & Hn) _]; congruence].
    + replace (floor (div round (Infinity negative) (Fin (m # 1))))
        with (Infinity negative).
      2:{ assert (Hq : Qltb (m # 1) 0 = false)
            by (unfold Qltb, Qle_bool; cbn; apply negb_false_iff, Z.leb_le; lia).
          unfold div, floor. now rewrite Hq, xorb_false_r. }
      destruct (clamp_Infinity negative) as (k & -> & Hk').
      rewrite (passes_clamped k Hk'). split; [|reflexivity].
      intros _. split; [|reflexivity]. eexists. split; [reflexivity | discriminate].
    + rewrite floor_div_Fin by lia. rewrite clamp_ofZ.
      rewrite passes_clamped by lia. split; [|reflexivity].
      intros _. split; [|reflexivity]. eexists. split; [reflexivity | discriminate].
    + cbn. split; [discriminate | intros [(n & [=] & _) _]].
Qed.

Lemma includes_dash (a b : string) : includes (a +:+ "-" +:+ b) "-" = true.
Proof. apply includes_spec. exists a, b. reflexivity. Qed.

Lemma dashed_not_inherited (a b : string) :
  inList (a +:+ "-" +:+ b) objectPrototypeKeys = false.
Proof.
  apply not_true_is_false. intros H. apply inList_In in H.
  pose proof (includes_dash a b) as Hd.
  unfold objectPrototypeKeys in H. cbn [In] in H.
  repeat (destruct H as [H | H]; [rewrite <- H in Hd; vm_compute in Hd; discriminate Hd|]).
  exact H.
Qed.

(** X9: for all country strings whatsoever [getCrossBorderLimit] returns a
    number, one of 25000000, 50000000, 75000000 and 100000000: both keys
    contain a dash, so neither reads a property inherited from
    [Object.prototype], and a missing key falls through to the default. *)
Theorem getCrossBorderLimit_is_a_limit (buyerCountry sellerCountry : string) :
  exists limit : Z,
    getCrossBorderLimit buyerCountry sellerCountry = VNum (ofZ limit)
    /\ (limit = 25000000 \/ limit = 50000000 \/ limit = 75000000
        \/ limit = 100000000)%Z.
Proof.
  unfold getCrossBorderLimit, getProperty.
  rewrite (dashed_not_inherited buyerCountry sellerCountry).
  rewrite (dashed_not_inherited sellerCountry buyerCountry).
  unfold countryPairLimits. cbn [assoc].
  repeat match goal with
         | |- context [String.eqb ?k (?x +:+ "-" +:+ ?y)] =>
             destruct (String.eqb k (x +:+ "-" +:+ y))
         end;
    eexists; (split; [vm_compute; reflexivity|]); auto.
Qed.

Lemma lowerAscii_one (c : ascii) : lowerAscii c = "1"%char -> c = "1"%char.
Proof.
  destruct c as [[] [] [] [] [] [] [] []]; vm_compute; intros H;
    first [reflexivity | discriminate H].
Qed.

Lemma lowerAscii_zero (c : ascii) : lowerAscii c = "0"%char -> c = "0"%char.
Proof.
  destruct c as [[] [] [] [] [] [] [] []]; vm_compute; intros H;
    first [reflexivity | discriminate H].
Qed.

Lemma lowerAscii_x (c : ascii) :
  lowerAscii c = "x"%char -> c = "x"%char \/ c = "X"%char.
Proof.
  destruct c as [[] [] [] [] [] [] [] []]; vm_compute; intros H;
    first [left; reflexivity | right; reflexivity | discriminate H].
Qed.

Lemma toLowerCase_ones (t s : string) :
  Forall (fun c => c = "1"%char) (list_ascii_of_string t) ->
  toLowerCase s = t -> s = t.
Proof.
  revert s. induction t as [|c t IH]; intros s Hall H.
  - destruct s; [reflexivity | discriminate H].
  - destruct s as [|d s]; [discriminate H|]. cbn [toLowerCase] in H.
    injection H as Hd Hs. cbn [list_ascii_of_string] in Hall.
    apply Forall_cons in Hall as [Hc Hrest]. rewrite Hc in Hd |- *.
    apply lowerAscii_one in Hd. rewrite Hd. f_equal. now apply IH.
Qed.

(** X10: Rule 2 returns without touching the clock or the console; it
    fails exactly for the two spellings of the sanctioned address, with
    prefix [0x] or [0X], and passes for every other recipient and for a
    missing one. *)
Theorem evaluateRule02_fails_iff (data : TransactionData) (w : World) :
  exists r,
    evaluateRule02 data w = (Returned r, w)
    /\ (passed r = false <->
         recipient data = Some "0x1111111111111111111111111111111111111111"
         \/ recipient data = Some "0X1111111111111111111111111111111111111111").
Proof.
  unfold evaluateRule02. eexists. split; [reflexivity|]. cbn [passed].
  rewrite negb_false_iff.
  destruct (recipient data) as [r|]; [|split; [discriminate | intros [H|H]; discriminate H]].
  unfold inList, sanctionedAddresses. cbn [existsb]. rewrite orb_false_r, String.eqb_eq.
  split.
  - intros H. destruct r as [|c0 [|c1 rest]]; try discriminate H.
    cbn [toLowerCase] in H. injection H as H0 H1 Hrest.
    apply lowerAscii_zero in H0. apply lowerAscii_x in H1.
    apply toLowerCase_ones in Hrest; [|repeat constructor].
    subst c0 rest. destruct H1 as [-> | ->]; auto.
  - intros [[= ->] | [= ->]]; reflexivity.
Qed.

End ForteExtra.

(* ===================================================================== *)
(** * The metadata score                                                  *)
(* ===================================================================== *)

Module ScoreExtra.
Import JS Runtime ZKPret Forte Exactness ZKPretSpec ForteSpec.

Lemma Qltb_represents (a b : Q) (x y : Z) :
  a == inject_Z x -> b == inject_Z y -> Qltb a b = (x <? y)%Z.
Proof.
  intros Ha Hb. unfold Qltb. rewrite Ha, Hb. apply Qltb_inject_Z.
Qed.

Lemma represents_ofZ (z : Z) : represents (ofZ z) z.
Proof. cbn. reflexivity. Qed.

Lemma represents_floor (n : number) (z : Z) : represents n z -> floor n = ofZ z.
Proof.
  destruct n as [| |q]; cbn; try contradiction. intros H.
  unfold ofZ. now rewrite H, Qfloor_Z.
Qed.

Lemma represents_max (a b : number) (x y : Z) :
  represents a x -> represents b y -> represents (max a b) (Z.max x y).
Proof.
  destruct a as [| |qa], b as [| |qb]; cbn; try contradiction. intros Ha Hb.
  rewrite (Qltb_represents qa qb x y Ha Hb).
  destruct (Z.ltb_spec x y); cbn.
  - now rewrite Z.max_r by lia.
  - now rewrite Z.max_l by lia.
Qed.

Lemma represents_min (a b : number) (x y : Z) :
  represents a x -> represents b y -> represents (min a b) (Z.min x y).
Proof.
  destruct a as [| |qa], b as [| |qb]; cbn; try contradiction. intros Ha Hb.
  rewrite (Qltb_represents qb qa y x Hb Ha).
  destruct (Z.ltb_spec y x); cbn.
  - now rewrite Z.min_r by lia.
  - now rewrite Z.min_l by lia.
Qed.

Lemma represents_ge (a b : number) (x y : Z) :
  represents a x -> represents b y -> ge a b = (y <=? x)%Z.
Proof.
  destruct a as [| |qa], b as [| |qb]; cbn; try contradiction. intros Ha Hb.
  rewrite (Qltb_represents qa qb x y Ha Hb). symmetry. apply Z.leb_antisym.
Qed.

Section Exact.
Variable round : Q -> Q.
Hypothesis Hround : exactOnIntegers round.

Lemma represents_add (a b : number) (x y : Z) :
  represents a x -> represents b y -> Z.abs (x + y) <= 2 ^ 53 ->
  represents (add round a b) (x + y).
Proof.
  destruct a as [| |qa], b as [| |qb]; cbn; try contradiction. intros Ha Hb Hxy.
  apply Hround; [|exact Hxy]. rewrite Ha, Hb. now rewrite inject_Z_plus.
Qed.

Lemma represents_sub (a b : number) (x y : Z) :
  represents a x -> represents b y -> Z.abs (x - y) <= 2 ^ 53 ->
  represents (sub round a b) (x - y).
Proof.
  destruct a as [| |qa], b as [| |qb]; cbn; try contradiction. intros Ha Hb Hxy.
  apply Hround; [|exact Hxy]. rewrite Ha, Hb.
  unfold Z.sub. now rewrite inject_Z_plus, inject_Z_opp.
Qed.

Lemma represents_mul (a b : number) (x y : Z) :
  represents a x -> represents b y -> Z.abs (x * y) <= 2 ^ 53 ->
  represents (mul round a b) (x * y).
Proof.
  destruct a as [| |qa], b as [| |qb]; cbn; try contradiction. intros Ha Hb Hxy.
  apply Hround; [|exact Hxy]. rewrite Ha, Hb. now rewrite inject_Z_mult.
Qed.

Lemma represents_div (a b : number) (k y : Z) :
  represents a (k * y) -> represents b y -> y <> 0 -> Z.abs k <= 2 ^ 53 ->
  represents (div round a b) k.
Proof.
  destruct a as [| |qa], b as [| |qb]; cbn; try contradiction. intros Ha Hb Hy Hk.
  destruct (Qeq_bool qb 0) eqn:E.
  - apply Qeq_bool_eq in E. rewrite Hb in E. unfold Qeq in E. cbn in E. lia.
  - cbn. apply Hround; [|exact Hk]. rewrite Ha, Hb, inject_Z_mult.
    apply Qdiv_mult_l. intros H0. unfold Qeq in H0. cbn in H0. lia.
Qed.

Lemma within_add (a b : number) (lo1 hi1 lo2 hi2 : Z) :
  within a lo1 hi1 -> within b lo2 hi2 ->
  - 2 ^ 52 <= lo1 -> hi1 <= 2 ^ 52 -> - 2 ^ 52 <= lo2 -> hi2 <= 2 ^ 52 ->
  within (add round a b) (lo1 + lo2) (hi1 + hi2).
Proof.
  intros (x & Hx & Bx) (y & Hy & By) ? ? ? ?.
  exists (x + y). split; [|lia]. apply represents_add; auto.
  change (2 ^ 53) with (2 * 2 ^ 52). lia.
Qed.

End Exact.

(** The actuarial score as [calculateMetadataScore] computes it. *)
Local Abbreviation actuarial round data :=
  (max (ofZ 0)
     (sub round (ofZ 20)
        (floor (div round
                  (mul round
                     (orNum (Some (if gt (numberOf (interestRate data)) (ofZ 1500)
                                   then ofZ 800 else ofZ 300)) (ofZ 500))
                     (ofZ 20))
                  (ofZ 1000))))).

Local Abbreviation required round data :=
  (min (ofZ 100)
     (let base :=
        if ge (numberOf (principalAmount data)) (ofZ 10000000) then ofZ 95
        else if ge (numberOf (principalAmount data)) (ofZ 5000000) then ofZ 85
        else if ge (numberOf (principalAmount data)) (ofZ 1000000) then ofZ 75
        else ofZ 70 in
      let structured :=
        if bool_decide (assetType data = Some "STRUCTURED_PRODUCTS")
        then add round base (ofZ 5) else base in
      if bool_decide (assetType data = Some "TRADE_FINANCE")
      then add round structured (ofZ 3) else structured)).

(** The score and the threshold check return the same values in every
    world; the total is the sum of the five component scores. *)
Lemma calculateMetadataScore_total (round : Q -> Q) (data : TransactionData) :
  exists scores (g b d : bool),
    (forall w, exists w', calculateMetadataScore round data w = (Returned scores, w'))
    /\ totalScore scores =
         plus round
           (add round
              (add round
                 (add round (ofZ (if g then 25 else 0)) (ofZ (if b then 20 else 10)))
                 (actuarial round data))
              (ofZ (if d then 15 else 8)))
           (orElse (getProperty creditScoreMap (keyOf (creditRating data))) (ofZ 10)).
Proof.
  eexists _, _, _, _. split.
  - intros w. unfold calculateMetadataScore, trySteps. run_m.
    destruct (verifyGLEIF_run (orStr (legalEntityIdentifier data) "")
                (Some (orStr (corporateName data) "")) w) as (p1 & t1 & w1 & ->).
    cbn.
    destruct (verifyBPMNCompliance_run (Some (orStr (assetDescription data) ""))
                (orStr (assetDescription data) "") w1) as (p2 & t2 & w2 & ->).
    cbn.
    destruct (assessACTUSRisk_run data w2) as (p3 & t3 & w3 & ->).
    cbn.
    destruct (verifyDCSADocuments_run (Some (orStr (documentHash data) ""))
                (default [] (tradeDocuments data)) w3) as (p4 & t4 & w4 & ->).
    cbn. eexists. reflexivity.
  - cbn [totalScore withTotal]. reflexivity.
Qed.

Lemma checkMetadataThreshold_total (round : Q -> Q) (data : TransactionData)
    (scores : MetadataScores) :
  (forall w, exists w', calculateMetadataScore round data w = (Returned scores, w')) ->
  exists req,
    req = required round data
    /\ forall w, exists w',
        checkMetadataThreshold round data w =
          (Returned {| meetsThreshold := ge (scalarToNumber (totalScore scores)) req;
                       currentScore := totalScore scores;
                       requiredScore := req |}, w').
Proof.
  intros Hs. eexists. split; [reflexivity|].
  intros w. unfold checkMetadataThreshold. run_m.
  destruct (Hs w) as [w' ->]. eexists. reflexivity.
Qed.

Lemma ge_lower (a b : number) (y z : Z) :
  ge a b = true -> represents b y -> z <= y -> ge a (ofZ z) = true.
Proof.
  destruct a as [|[|]|qa], b as [| |qb]; cbn; try discriminate; try contradiction;
    try reflexivity.
  intros H Hb Hz. unfold Qltb in *. rewrite negb_involutive in *.
  apply Qle_bool_iff in H. apply Qle_bool_iff.
  eapply Qle_trans; [|exact H]. rewrite Hb. now rewrite <- Zle_Qle.
Qed.

Section Bounds.
Variable round : Q -> Q.
Hypothesis Hround : exactOnIntegers round.
Variable data : TransactionData.

Lemma actuarial_within : within (actuarial round data) 4 14.
Proof.
  destruct (gt (numberOf (interestRate data)) (ofZ 1500)).
  - change (orNum (Some (ofZ 800)) (ofZ 500)) with (ofZ 800).
    assert (H1 : represents (mul round (ofZ 800) (ofZ 20)) (16 * 1000))
      by (apply (represents_mul round Hround _ _ 800 20);
          [apply represents_ofZ | apply represents_ofZ | vm_compute; discriminate]).
    assert (H2 : represents (div round (mul round (ofZ 800) (ofZ 20)) (ofZ 1000)) 16)
      by (apply (represents_div round Hround _ _ 16 1000);
          [exact H1 | apply represents_ofZ | lia | vm_compute; discriminate]).
    rewrite (represents_floor _ 16 H2).
    exists (Z.max 0 (20 - 16)). split; [|lia].
    apply represents_max; [apply represents_ofZ|].
    apply (represents_sub round Hround); try apply represents_ofZ.
    vm_compute; discriminate.
  - change (orNum (Some (ofZ 300)) (ofZ 500)) with (ofZ 300).
    assert (H1 : represents (mul round (ofZ 300) (ofZ 20)) (6 * 1000))
      by (apply (represents_mul round Hround _ _ 300 20);
          [apply represents_ofZ | apply represents_ofZ | vm_compute; discriminate]).
    assert (H2 : represents (div round (mul round (ofZ 300) (ofZ 20)) (ofZ 1000)) 6)
      by (apply (represents_div round Hround _ _ 6 1000);
          [exact H1 | apply represents_ofZ | lia | vm_compute; discriminate]).
    rewrite (represents_floor _ 6 H2).
    exists (Z.max 0 (20 - 6)). split; [|lia].
    apply represents_max; [apply represents_ofZ|].
    apply (represents_sub round Hround); try apply represents_ofZ.
    vm_compute; discriminate.
Qed.

Lemma financial_cases (key : string) :
  (inList key objectPrototypeKeys = false
   /\ exists z, orElse (getProperty creditScoreMap key) (ofZ 10) = VNum (ofZ z)
                /\ 1 <= z <= 20)
  \/ (inList key objectPrototypeKeys = true
      /\ orElse (getProperty creditScoreMap key) (ofZ 10) = VObject key).
Proof.
  destruct (inList key objectPrototypeKeys) eqn:Hk.
  - right. split; [reflexivity|].
    unfold objectPrototypeKeys, inList in Hk. cbn [existsb] in Hk.
    repeat (apply orb_true_iff in Hk as [Hk | Hk];
            [apply String.eqb_eq in Hk; subst key; reflexivity|]).
    discriminate Hk.
  - left. split; [reflexivity|]. unfold getProperty. rewrite Hk.
    unfold creditScoreMap. cbn [assoc].
    repeat match goal with
           | |- context [String.eqb ?k key] => destruct (String.eqb k key)
           end;
      eexists; (split; [vm_compute; reflexivity | lia]).
Qed.

Lemma sum_within (g b d : bool) :
  within (add round
            (add round
               (add round (ofZ (if g then 25 else 0)) (ofZ (if b then 20 else 10)))
               (actuarial round data))
            (ofZ (if d then 15 else 8))) 22 74.
Proof.
  assert (Hg : within (ofZ (if g then 25 else 0)) 0 25)
    by (eexists; split; [apply represents_ofZ | destruct g; lia]).
  assert (Hb : within (ofZ (if b then 20 else 10)) 10 20)
    by (eexists; split; [apply represents_ofZ | destruct b; lia]).
  assert (Hd : within (ofZ (if d then 15 else 8)) 8 15)
    by (eexists; split; [apply represents_ofZ | destruct d; lia]).
  pose proof actuarial_within as Ha.
  pose proof (within_add round Hround _ _ _ _ _ _ Hg Hb) as H1.
  pose proof (within_add round Hround _ _ _ _ _ _ (H1 ltac:(lia) ltac:(lia) ltac:(lia)
                ltac:(lia)) Ha) as H2.
  pose proof (within_add round Hround _ _ _ _ _ _ (H2 ltac:(lia) ltac:(lia) ltac:(lia)
                ltac:(lia)) Hd) as H3.
  apply H3; lia.
Qed.

(** The total of the four scores. *)
Lemma total_cases (g b d : bool) (total : scalar) :
  total =
    plus round
      (add round
         (add round
            (add round (ofZ (if g then 25 else 0)) (ofZ (if b then 20 else 10)))
            (actuarial round data))
         (ofZ (if d then 15 else 8)))
      (orElse (getProperty creditScoreMap (keyOf (creditRating data))) (ofZ 10)) ->
  (inList (keyOf (creditRating data)) objectPrototypeKeys = false ->
   within (scalarToNumber total) 23 94)
  /\ (inList (keyOf (creditRating data)) objectPrototypeKeys = true ->
      scalarToNumber total = NaN).
Proof.
  intros ->.
  destruct (financial_cases (keyOf (creditRating data)))
    as [(Hk & z & -> & Hz) | (Hk & ->)]; rewrite Hk.
  - split; [intros _ | discriminate]. cbn [plus scalarToNumber].
    assert (Hf : within (ofZ z) 1 20)
      by (eexists; split; [apply represents_ofZ | lia]).
    pose proof (within_add round Hround _ _ _ _ _ _ (sum_within g b d) Hf) as H.
    apply H; lia.
  - split; [discriminate | intros _; reflexivity].
Qed.

(** X11: the metadata score never reaches its nominal 100: when the credit
    rating is not the name of an inherited property the total is an
    integer between 23 and 94 {- a rating D scores like an unknown rating,
    10, because its table entry 0 is falsy -}; when it is such a name the
    total is a string and not a number.  The score is the same in every
    world, and computing it never throws. *)
Theorem metadata_total_bounds :
  exists scores,
    (forall w, exists w', calculateMetadataScore round data w = (Returned scores, w'))
    /\ (inList (keyOf (creditRating data)) objectPrototypeKeys = false ->
        within (scalarToNumber (totalScore scores)) 23 94)
    /\ (inList (keyOf (creditRating data)) objectPrototypeKeys = true ->
        scalarToNumber (totalScore scores) = NaN).
Proof.
  destruct (calculateMetadataScore_total round data) as (scores & g & b & d & Hs & Ht).
  exists scores. split; [exact Hs|].
  exact (total_cases g b d (totalScore scores) Ht).
Qed.

Lemma required_within : within (required round data) 70 100.
Proof.
  assert (Hbase :
    within (if ge (numberOf (principalAmount data)) (ofZ 10000000) then ofZ 95
            else if ge (numberOf (principalAmount data)) (ofZ 5000000) then ofZ 85
            else if ge (numberOf (principalAmount data)) (ofZ 1000000) then ofZ 75
            else ofZ 70) 70 95).
  { repeat match goal with
           | |- context [if ?c then _ else _] => destruct c
           end;
      eexists; (split; [apply represents_ofZ | lia]). }
  cbn zeta.
  set (base := if ge (numberOf (principalAmount data)) (ofZ 10000000) then ofZ 95
               else _) in *.
  assert (H5 : within (ofZ 5) 5 5) by (eexists; split; [apply represents_ofZ | lia]).
  assert (H3 : within (ofZ 3) 3 3) by (eexists; split; [apply represents_ofZ | lia]).
  assert (Hs : within (if bool_decide (assetType data = Some "STRUCTURED_PRODUCTS")
                       then add round base (ofZ 5) else base) 70 100).
  { destruct (bool_decide (assetType data = Some "STRUCTURED_PRODUCTS")).
    - destruct (within_add round Hround _ _ _ _ _ _ Hbase H5) as (z & Hz & Bz); try lia.
      exists z. split; [exact Hz | lia].
    - destruct Hbase as (z & Hz & Bz). exists z. split; [exact Hz | lia]. }
  set (structured := if bool_decide (assetType data = Some "STRUCTURED_PRODUCTS")
                     then _ else _) in *.
  assert (Ht : within (if bool_decide (assetType data = Some "TRADE_FINANCE")
                       then add round structured (ofZ 3) else structured) 70 103).
  { destruct (bool_decide (assetType data = Some "TRADE_FINANCE")).
    - destruct (within_add round Hround _ _ _ _ _ _ Hs H3) as (z & Hz & Bz); try lia.
      exists z. split; [exact Hz | lia].
    - destruct Hs as (z & Hz & Bz). exists z. split; [exact Hz | lia]. }
  destruct Ht as (z & Hz & Bz). exists (Z.min 100 z). split; [|lia].
  apply represents_min; [apply represents_ofZ | exact Hz].
Qed.

Lemma required_at_10M :
  ge (numberOf (principalAmount data)) (ofZ 10000000) = true ->
  within (required round data) 95 100.
Proof.
  intros Hp. cbn zeta. rewrite Hp.
  assert (Hbase : within (ofZ 95) 95 95) by (eexists; split; [apply represents_ofZ | lia]).
  assert (H5 : within (ofZ 5) 5 5) by (eexists; split; [apply represents_ofZ | lia]).
  assert (H3 : within (ofZ 3) 3 3) by (eexists; split; [apply represents_ofZ | lia]).
  assert (Hs : within (if bool_decide (assetType data = Some "STRUCTURED_PRODUCTS")
                       then add round (ofZ 95) (ofZ 5) else ofZ 95) 95 100).
  { destruct (bool_decide (assetType data = Some "STRUCTURED_PRODUCTS")).
    - destruct (within_add round Hround _ _ _ _ _ _ Hbase H5) as (z & Hz & Bz); try lia.
      exists z. split; [exact Hz | lia].
    - destruct Hbase as (z & Hz & Bz). exists z. split; [exact Hz | lia]. }
  set (structured := if bool_decide (assetType data = Some "STRUCTURED_PRODUCTS")
                     then _ else _) in *.
  assert (Ht : within (if bool_decide (assetType data = Some "TRADE_FINANCE")
                       then add round structured (ofZ 3) else structured) 95 103).
  { destruct (bool_decide (assetType data = Some "TRADE_FINANCE")).
    - destruct (within_add round Hround _ _ _ _ _ _ Hs H3) as (z & Hz & Bz); try lia.
      exists z. split; [exact Hz | lia].
    - destruct Hs as (z & Hz & Bz). exists z. split; [exact Hz | lia]. }
  destruct Ht as (z & Hz & Bz). exists (Z.min 100 z). split; [|lia].
  apply represents_min; [apply represents_ofZ | exact Hz].
Qed.

(** X12: Rule 12 never passes for a principal amount of 10000000 or more:
    the required score is then at least 95 and the metadata score is at
    most 94. *)
Theorem evaluateRule12_fails_from_10M (w : World) :
  ge (numberOf (principalAmount data)) (ofZ 10000000) = true ->
  exists r w', evaluateRule12 round data w = (Returned r, w') /\ passed r = false.
Proof.
  intros Hp.
  destruct (calculateMetadataScore_total round data) as (scores & g & b & d & Hs & Htot).
  destruct (total_cases g b d (totalScore scores) Htot) as [Hown Hinh]. clear Htot.
  destruct (required_at_10M Hp) as (R & HR & BR).
  destruct (checkMetadataThreshold_total round data scores Hs) as (req & Hreq & Hc).
  rewrite <- Hreq in HR. clear Hreq.
  unfold evaluateRule12. unfold mbind, M_bind.
  destruct (Hc w) as [w' ->].
  run_m. eexists _, _. split; [reflexivity|]. cbn [passed meetsThreshold].
  destruct (inList (keyOf (creditRating data)) objectPrototypeKeys).
  - rewrite (Hinh eq_refl). destruct req; reflexivity.
  - destruct (Hown eq_refl) as (t & Ht & Bt).
    rewrite (represents_ge _ _ t R Ht HR). apply Z.leb_gt. lia.
Qed.

(** X13: whenever Rule 12 passes, Rule 9 passes on the same transaction:
    the required score of Rule 12 is never below the 70 of Rule 9. *)
Theorem rule12_implies_rule09 (w12 w12' w9 : World) (r12 : RuleResult) :
  evaluateRule12 round data w12 = (Returned r12, w12') ->
  passed r12 = true ->
  exists r9 w9', evaluateRule09 round data w9 = (Returned r9, w9') /\ passed r9 = true.
Proof.
  destruct (calculateMetadataScore_total round data) as (scores & g & b & d & Hs & _).
  destruct required_within as (R & HR & BR).
  destruct (checkMetadataThreshold_total round data scores Hs) as (req & Hreq & Hc).
  rewrite <- Hreq in HR. clear Hreq.
  unfold evaluateRule12, evaluateRule09. unfold mbind, M_bind.
  destruct (Hc w12) as [w' ->].
  destruct (Hs w9) as [w9' ->].
  run_m. intros [= <- _]. cbn [passed meetsThreshold]. intros Hge.
  eexists _, _. split; [reflexivity|]. cbn [passed].
  apply (ge_lower _ _ R 70 Hge HR). lia.
Qed.

End Bounds.

Lemma exact_exactOnIntegers : exactOnIntegers Fixture.exact.
Proof. intros q z H _. exact H. Qed.

Lemma evaluateRule12_fails_from_10M_witness :
  exists r w',
    evaluateRule12 Fixture.exact Scenarios.largeData Fixture.world0 = (Returned r, w')
    /\ passed r = false.
Proof.
  apply (evaluateRule12_fails_from_10M Fixture.exact exact_exactOnIntegers).
  vm_compute. reflexivity.
Defined.

Lemma metadata_total_bounds_witness :
  exists scores,
    (forall w, exists w',
        calculateMetadataScore Fixture.exact Fixture.demoData w = (Returned scores, w'))
    /\ within (scalarToNumber (totalScore scores)) 23 94.
Proof.
  destruct (metadata_total_bounds Fixture.exact exact_exactOnIntegers Fixture.demoData)
    as (scores & Hs & Hown & _).
  exists scores. split; [exact Hs|]. apply Hown. reflexivity.
Defined.

Lemma rule12_implies_rule09_witness :
  exists r9 w9',
    evaluateRule09 Fixture.exact Fixture.demoData Fixture.world0 = (Returned r9, w9')
    /\ passed r9 = true.
Proof.
  assert (R : Fixture.returned (evaluateRule12 Fixture.exact Fixture.demoData Fixture.world0)
              = Some {| passed := true; reason := None |})
    by (vm_compute; reflexivity).
  destruct (evaluateRule12 Fixture.exact Fixture.demoData Fixture.world0)
    as [[r12|e] w'] eqn:E; [|discriminate R].
  injection R as ->.
  apply (rule12_implies_rule09 Fixture.exact exact_exactOnIntegers Fixture.demoData
           Fixture.world0 w' Fixture.world0 {| passed := true; reason := None |} E).
  reflexivity.
Defined.

End ScoreExtra.

(* ===================================================================== *)
(** * Further properties of PyusdCrossBorderFinance                       *)
(* ===================================================================== *)

Module PyusdExtra.
Import Solidity Pyusd PyusdInvariant PyusdSpec.

Lemma onlyTradeParticipant_spec (env : Env) (s : State) (id : Z) :
  (onlyTradeParticipant env s id = Success tt /\ isParticipant (sender env) (trade s id))
  \/ (onlyTradeParticipant env s id = Revert "Not authorized for this trade"
      /\ ~ isParticipant (sender env) (trade s id)).
Proof.
  unfold onlyTradeParticipant, isParticipant, require.
  destruct (bool_decide (sender env = buyer (trade s id))) eqn:E1;
    destruct (bool_decide (sender env = seller (trade s id))) eqn:E2;
    destruct (bool_decide (sender env = buyerBank (trade s id))) eqn:E3;
    destruct (bool_decide (sender env = sellerBank (trade s id))) eqn:E4;
    cbn;
    repeat match goal with
           | H : bool_decide _ = true |- _ => apply bool_decide_eq_true in H
           | H : bool_decide _ = false |- _ => apply bool_decide_eq_false in H
           end;
    try (left; split; [reflexivity | tauto]).
  right. split; [reflexivity | tauto].
Qed.

Lemma trade_lookup (s : State) (id : Z) (t : CrossBorderTrade) :
  trades s !! id = Some t -> trade s id = t.
Proof. unfold trade. now intros ->. Qed.

Lemma wellFormed_setTrade (s : State) (id : Z) (t t' : CrossBorderTrade) :
  wellFormed s -> trades s !! id = Some t -> recorded id t' ->
  wellFormed (setTrade s id t').
Proof.
  intros [Hn Hw] Ht Hr. split; [exact Hn|]. intros id'. cbn.
  rewrite lookup_insert. destruct (Hw id') as [Hin Hout]. case_decide.
  - subst id'. split; [eauto|]. intros Hno. apply Hout in Hno. congruence.
  - split; assumption.
Qed.

Lemma wellFormed_written (s : State) (id : Z) :
  wellFormed s -> trades s !! id <> None ->
  0 <= id < nextTradeId s /\ exists t, trades s !! id = Some t /\ recorded id t.
Proof.
  intros [Hn Hw] Hne. destruct (Hw id) as [Hin Hout].
  destruct (decide (0 <= id < nextTradeId s)) as [Hr|Hr]; [auto|].
  exfalso. auto.
Qed.

Lemma participant_is (env : Env) (s : State) (id : Z) :
  onlyTradeParticipant env s id = Success tt -> isParticipant (sender env) (trade s id).
Proof.
  intros H. destruct (onlyTradeParticipant_spec env s id) as [[_ Hp] | [Hr _]];
    [exact Hp | congruence].
Qed.

Lemma progress_le_4 (t : CrossBorderTrade) : progress t <= 4.
Proof. unfold progress. lia. Qed.

Lemma progress_started (t : CrossBorderTrade) :
  1 <= progress t -> status t <> INITIATED.
Proof. unfold progress. intros H E. rewrite E in H. cbn in H. lia. Qed.

Lemma sameDeal_refl (t : CrossBorderTrade) : sameDeal t t.
Proof. unfold sameDeal. tauto. Qed.

Lemma sameDeal_trans (t1 t2 t3 : CrossBorderTrade) :
  sameDeal t1 t2 -> sameDeal t2 t3 -> sameDeal t1 t3.
Proof.
  unfold sameDeal. intros (? & ? & ? & ? & ? & ? & ? & ? & ? & ? & ? & ?)
    (? & ? & ? & ? & ? & ? & ? & ? & ? & ? & ? & ?).
  repeat split; congruence.
Qed.

Lemma sameDeal_withStatus (t : CrossBorderTrade) (st : TradeStatus) (settled : Z) :
  sameDeal t (withStatus t st settled).
Proof. unfold sameDeal. cbn. tauto. Qed.

Lemma evolves_refl (s : State) : evolves s s.
Proof.
  intros Hw. split; [exact Hw|]. intros id t Ht. exists t.
  split; [exact Ht|]. split; [apply sameDeal_refl | lia].
Qed.

Lemma evolves_trans (s1 s2 s3 : State) : evolves s1 s2 -> evolves s2 s3 -> evolves s1 s3.
Proof.
  intros H12 H23 Hw. destruct (H12 Hw) as [Hw2 Ht2]. destruct (H23 Hw2) as [Hw3 Ht3].
  split; [exact Hw3|]. intros id t Ht.
  destruct (Ht2 id t Ht) as (t2 & Hl2 & Hd2 & Hp2).
  destruct (Ht3 id t2 Hl2) as (t3 & Hl3 & Hd3 & Hp3).
  exists t3. split; [exact Hl3|]. split; [exact (sameDeal_trans _ _ _ Hd2 Hd3) | lia].
Qed.

Lemma keeps_refl (id : Z) (t : CrossBorderTrade) (s : State) : keeps id t s s.
Proof. split; [apply evolves_refl | auto]. Qed.

Lemma keeps_trans (id : Z) (t : CrossBorderTrade) (s1 s2 s3 : State) :
  keeps id t s1 s2 -> keeps id t s2 s3 -> keeps id t s1 s3.
Proof.
  intros [E12 K12] [E23 K23]. split; [exact (evolves_trans _ _ _ E12 E23)|].
  intros Hw Ht. apply K23; [exact (proj1 (E12 Hw)) | exact (K12 Hw Ht)].
Qed.

(** A trade that has left INITIATED behind can be given a later status. *)
Lemma recorded_withStatus (id : Z) (t : CrossBorderTrade) (st : TradeStatus) (settled : Z) :
  recorded id t -> status t <> INITIATED ->
  st = PYUSD_ESCROWED \/ st = SETTLED ->
  recorded id (withStatus t st settled).
Proof.
  unfold recorded. intros (? & ? & Hc & ? & ? & ? & ? & ? & ? & ? & ?) Hst Hnew.
  cbn. repeat split; try assumption.
  - destruct Hnew as [-> | ->]; reflexivity.
  - intros _. destruct Hnew as [-> | ->]; discriminate.
  - intros _. now apply Hc.
  - intros [E | E]; destruct Hnew as [-> | ->]; discriminate E.
Qed.

Section ExternalExtra.
Variable Ext : Type.
Variable isGLEIFVerified : Ext -> string -> Result bool.
Variable isDCSAVerified : Ext -> Z -> Result bool.
Variable pyusdTransfer : Ext -> address -> address -> Z -> Result (bool * Ext).
Variable pyusdTransferFrom : Ext -> address -> address -> address -> Z -> Result (bool * Ext).

Local Abbreviation dispatch :=
  (Pyusd.dispatch Ext isGLEIFVerified isDCSAVerified pyusdTransfer pyusdTransferFrom).
Local Abbreviation reenter :=
  (Pyusd.reenter Ext isGLEIFVerified isDCSAVerified pyusdTransfer pyusdTransferFrom).
Local Abbreviation execute :=
  (Pyusd.execute Ext isGLEIFVerified isDCSAVerified pyusdTransfer pyusdTransferFrom).
Local Abbreviation reachable :=
  (Pyusd.reachable Ext isGLEIFVerified isDCSAVerified pyusdTransfer pyusdTransferFrom).
Local Abbreviation executeComplianceCheck := (Pyusd.executeComplianceCheck Ext isDCSAVerified).
Local Abbreviation escrowPYUSD := (Pyusd.escrowPYUSD Ext pyusdTransferFrom).
Local Abbreviation executeInstantSettlement := (Pyusd.executeInstantSettlement Ext pyusdTransfer).
Local Abbreviation initiateCrossBorderTrade := (Pyusd.initiateCrossBorderTrade Ext isGLEIFVerified).
Local Abbreviation initiateCrossChainTrade := (Pyusd.initiateCrossChainTrade Ext).
Local Abbreviation respects := (Pyusd.respects Ext).

Ltac participant H :=
  match type of H with
  | _ || _ || _ || _ = true =>
      rewrite !orb_true_iff, !bool_decide_eq_true in H
  end.

Lemma executeComplianceCheck_exact env s ext id s' ext' events :
  executeComplianceCheck env s ext id = Success (s', ext', events) ->
  isParticipant (sender env) (trade s id)
  /\ status (trade s id) = INITIATED
  /\ isDCSAVerified ext (letterOfCreditHash (trade s id)) = Success true
  /\ ext' = ext
  /\ exists t', s' = setTrade s id t' /\ sameDeal (trade s id) t'
                /\ status t' = COMPLIANCE_CHECK /\ complianceCleared t' = true
                /\ gleifVerified t' = true /\ settledAt t' = settledAt (trade s id).
Proof.
  intros H. unfold Pyusd.executeComplianceCheck in H. unbind H.
  match goal with
  | Hst : bool_decide (status _ = _) = true |- _ => apply bool_decide_eq_true in Hst
  end.
  match goal with Hp : _ || _ || _ || _ = true |- _ => participant Hp end.
  injection H as <- <- _. subst.
  repeat split; try assumption; try (unfold isParticipant; tauto).
  eexists. split; [reflexivity|]. unfold sameDeal. cbn. tauto.
Qed.

Lemma initiateCrossBorderTrade_exact env s ext seller0 buyerBank0 sellerBank0 localAmount0
    localCurrency0 buyerCountry0 sellerCountry0 lc buyerLEI sellerLEI s' ext' events id :
  initiateCrossBorderTrade env s ext seller0 buyerBank0 sellerBank0 localAmount0
    localCurrency0 buyerCountry0 sellerCountry0 lc buyerLEI sellerLEI
    = Success (s', ext', events, id) ->
  (isGLEIFVerified ext buyerLEI = Success true
   /\ isGLEIFVerified ext sellerLEI = Success true
   /\ sender env <> sanctioned /\ seller0 <> sanctioned
   /\ buyerCountry0 <> "IR" /\ sellerCountry0 <> "IR"
   /\ 0 < rate s localCurrency0
   /\ localAmount0 * rate s localCurrency0 <= MAX_UINT256
   /\ 1000 * 1000000 <= localAmount0 * rate s localCurrency0 / 1000000
   /\ nextTradeId s + 1 <= MAX_UINT256)
  /\ id = nextTradeId s
  /\ ext' = ext
  /\ nextTradeId s' = nextTradeId s + 1
  /\ exchangeRates s' = exchangeRates s
  /\ userTrades s' =
       pushUserTrade sellerBank0 id
         (pushUserTrade buyerBank0 id
            (pushUserTrade seller0 id (pushUserTrade (sender env) id (userTrades s))))
  /\ events = [CrossBorderTradeInitiated id (sender env) seller0
                 (localAmount0 * rate s localCurrency0 / 1000000)
                 buyerCountry0 sellerCountry0]
  /\ trades s' =
       <[id := {| tradeId := id; buyer := sender env; seller := seller0;
                  buyerBank := buyerBank0; sellerBank := sellerBank0;
                  pyusdAmount := localAmount0 * rate s localCurrency0 / 1000000;
                  localAmount := localAmount0; localCurrency := localCurrency0;
                  buyerCountry := buyerCountry0; sellerCountry := sellerCountry0;
                  letterOfCreditHash := lc;
                  gleifVerified := gleifVerified (trade s id);
                  complianceCleared := complianceCleared (trade s id);
                  status := INITIATED; createdAt := timestamp env;
                  settledAt := settledAt (trade s id) |}]> (trades s).
Proof.
  intros H. unfold Pyusd.initiateCrossBorderTrade in H.
  apply bind_Success in H as (buyerOk & Eb & H).
  apply bind_Success in H as (bothOk & Es & H).
  apply bind_Success in H as (? & Eboth%require_Success & H).
  apply bind_Success in H as (? & Esender%require_Success & H).
  apply bind_Success in H as (? & Eseller%require_Success & H).
  apply bind_Success in H as (? & Ecountry%require_Success & H).
  apply bind_Success in H as (amount & Econv & H).
  apply bind_Success in H as (? & Emin%require_Success & H).
  apply bind_Success in H as (next & Enext & H).
  subst bothOk. destruct buyerOk; [|discriminate Es].
  unfold _isOnSanctionsList in Esender, Eseller.
  apply negb_true_iff, bool_decide_eq_false in Esender.
  apply negb_true_iff, bool_decide_eq_false in Eseller.
  unfold _validateCrossBorderCompliance in Ecountry.
  apply andb_true_iff in Ecountry as [Ec1 Ec2].
  apply negb_true_iff, String.eqb_neq in Ec1.
  apply negb_true_iff, String.eqb_neq in Ec2.
  unfold _convertToPYUSD in Econv.
  apply bind_Success in Econv as (? & Erate%require_Success & Econv).
  apply bind_Success in Econv as (product & Emul & Econv).
  unfold checked_mul in Emul.
  destruct (Z.leb_spec (localAmount0 * rate s localCurrency0) MAX_UINT256);
    [|discriminate Emul].
  injection Emul as <-. injection Econv as <-.
  unfold checked_add in Enext.
  destruct (Z.leb_spec (nextTradeId s + 1) MAX_UINT256); [|discriminate Enext].
  injection Enext as <-.
  apply Z.ltb_lt in Erate. apply Z.leb_le in Emin.
  injection H as <- <- <- <-. cbn. repeat split; auto.
Qed.

Lemma wellFormed_constructor token adapter : wellFormed (constructor token adapter).
Proof.
  split; [cbn; lia|]. intros id. cbn. split; [lia|]. intros _. apply lookup_empty.
Qed.

(** ** What every call keeps *)

(** The trades on record before a call are on record after it, with their
    terms, and none has fallen behind. *)
Lemma dispatch_terms first second third env call s ext s' ext' events :
  respects evolves first -> respects evolves second -> respects evolves third ->
  wellFormed s ->
  dispatch first second third env call s ext = Success (s', ext', events) ->
  forall id t, trades s !! id = Some t ->
    exists t', trades s' !! id = Some t' /\ sameDeal t t' /\ progress t <= progress t'.
Proof.
  intros R1 R2 R3 Hw H id t Ht. destruct call; cbn in H.
  - apply bind_Success in H as ([[[s1 e1] ev1] id1] & E & H). injection H as <- _ _.
    apply initiateCrossBorderTrade_exact in E as (_ & -> & _ & _ & _ & _ & _ & Hts).
    exists t. rewrite Hts. split; [|split; [apply sameDeal_refl | lia]].
    rewrite lookup_insert_ne; [exact Ht|].
    intros <-. destruct Hw as [_ Hw]. destruct (Hw (nextTradeId s)) as [_ Hout].
    rewrite Hout in Ht by lia. discriminate.
  - apply executeComplianceCheck_exact in H
      as (_ & Hst & _ & _ & t' & -> & Hsame & Hst' & _).
    cbn. rewrite lookup_insert. case_decide; [subst|].
    + rewrite (trade_lookup s id t Ht) in *. exists t'.
      split; [reflexivity|]. split; [exact Hsame|].
      unfold progress. rewrite Hst, Hst'. cbn. lia.
    + exists t. split; [exact Ht|]. split; [apply sameDeal_refl | lia].
  - apply escrowPYUSD_status in H as (_ & _ & s1 & ext1 & Hd & _ & ->).
    destruct (R1 _ _ _ _ _ Hd Hw) as [_ Ht1].
    destruct (Ht1 id t Ht) as (t1 & Hl1 & Hd1 & Hp1).
    cbn. rewrite lookup_insert. case_decide; [subst|eauto].
    rewrite (trade_lookup s1 id t1 Hl1). eexists. split; [reflexivity|].
    split; [exact (sameDeal_trans _ _ _ Hd1 (sameDeal_withStatus _ _ _))|].
    pose proof (progress_le_4 t). unfold progress. cbn. lia.
  - apply executeInstantSettlement_status in H
      as (_ & _ & _ & s1 & ext1 & ev1 & p1 & s2 & ext2 & ev2 & p2 & s3 & ext3 & ev3
          & Hd1 & _ & Hd2 & _ & Hd3 & _ & -> & _).
    pose proof (evolves_trans _ _ _ (R1 _ _ _ _ _ Hd1)
                  (evolves_trans _ _ _ (R2 _ _ _ _ _ Hd2) (R3 _ _ _ _ _ Hd3))) as E.
    destruct (E Hw) as [_ Ht3].
    destruct (Ht3 id t Ht) as (t3 & Hl3 & Hdeal & Hp3).
    cbn. rewrite lookup_insert. case_decide; [subst|eauto].
    rewrite (trade_lookup s3 id t3 Hl3). eexists. split; [reflexivity|].
    split; [exact (sameDeal_trans _ _ _ Hdeal (sameDeal_withStatus _ _ _))|].
    pose proof (progress_le_4 t). unfold progress. cbn. lia.
  - unfold Pyusd.initiateCrossChainTrade in H. unbind H. injection H as <- _ _.
    exists t. split; [exact Ht|]. split; [apply sameDeal_refl | lia].
  - injection H as <- _ _. exists t. split; [exact Ht|].
    split; [apply sameDeal_refl | lia].
Qed.

(** A call made by a caller that exists keeps the state well formed. *)
Lemma dispatch_wellFormed first second third env call s ext s' ext' events :
  respects evolves first -> respects evolves second -> respects evolves third ->
  sender env <> 0 ->
  wellFormed s ->
  dispatch first second third env call s ext = Success (s', ext', events) ->
  wellFormed s'.
Proof.
  intros R1 R2 R3 Hs Hw H. destruct call; cbn in H.
  - apply bind_Success in H as ([[[s1 e1] ev1] id1] & E & H). injection H as <- _ _.
    apply initiateCrossBorderTrade_exact in E
      as ((_ & _ & Hsan & Hsel & Hc1 & Hc2 & _ & _ & Hmin & _) & -> & _ & Hn & _ & _ & _ & Ht).
    destruct Hw as [Hn0 Hw].
    assert (Hfresh : trades s !! nextTradeId s = None) by (apply Hw; lia).
    unfold trade in Ht. rewrite Hfresh in Ht. cbn in Ht.
    split; [lia|]. intros id. rewrite Ht, Hn, lookup_insert.
    destruct (Hw id) as [Hin Hout]. case_decide.
    + subst id. split; [|lia]. intros _. eexists. split; [reflexivity|].
      unfold recorded. cbn. repeat split; auto; try discriminate; try congruence.
    + split; [intros; apply Hin; lia | intros; apply Hout; lia].
  - pose proof H as H0.
    apply executeComplianceCheck_status in H0 as (Hp & _).
    apply executeComplianceCheck_exact in H
      as (_ & Hst & _ & _ & t' & -> & Hsame & Hst' & Hc & Hg & Hset).
    destruct (wellFormed_written s tradeId0 Hw (participant_written env s tradeId0 tt Hs Hp))
      as (_ & t & Ht & Hrec).
    rewrite (trade_lookup s tradeId0 t Ht) in *.
    apply (wellFormed_setTrade s tradeId0 t t' Hw Ht).
    unfold recorded, sameDeal in *.
    destruct Hrec as (? & ? & ? & ? & Hzero & ? & ? & ? & ? & ? & ?).
    destruct Hsame as (-> & -> & -> & _ & _ & -> & _ & _ & -> & -> & _ & _).
    rewrite Hst', Hc, Hg, Hset. repeat split; try assumption; try discriminate.
    intros _. apply Hzero. now left.
  - apply escrowPYUSD_status in H as (Hp & Hst & s1 & ext1 & Hd & _ & ->).
    destruct (wellFormed_written s tradeId0 Hw (participant_written env s tradeId0 tt Hs Hp))
      as (_ & t & Ht & _).
    destruct (R1 _ _ _ _ _ Hd Hw) as [Hw1 Ht1].
    destruct (Ht1 tradeId0 t Ht) as (t1 & Hl1 & _ & Hp1).
    destruct (wellFormed_written s1 tradeId0 Hw1 ltac:(congruence)) as (_ & t1' & Hl1' & Hrec1).
    rewrite Hl1 in Hl1'. injection Hl1' as <-.
    rewrite (trade_lookup s1 tradeId0 t1 Hl1).
    apply (wellFormed_setTrade s1 tradeId0 t1 _ Hw1 Hl1).
    apply (recorded_withStatus _ _ _ _ Hrec1); [|now left].
    apply progress_started. rewrite (trade_lookup s tradeId0 t Ht) in Hst.
    unfold progress in Hp1 |- *. rewrite Hst in Hp1. cbn in Hp1. lia.
  - apply executeInstantSettlement_status in H
      as (Hp & Hst & _ & s1 & ext1 & ev1 & p1 & s2 & ext2 & ev2 & p2 & s3 & ext3 & ev3
          & Hd1 & _ & Hd2 & _ & Hd3 & _ & -> & _).
    destruct (wellFormed_written s tradeId0 Hw (participant_written env s tradeId0 tt Hs Hp))
      as (_ & t & Ht & _).
    pose proof (evolves_trans _ _ _ (R1 _ _ _ _ _ Hd1)
                  (evolves_trans _ _ _ (R2 _ _ _ _ _ Hd2) (R3 _ _ _ _ _ Hd3))) as E.
    destruct (E Hw) as [Hw3 Ht3].
    destruct (Ht3 tradeId0 t Ht) as (t3 & Hl3 & _ & Hp3).
    destruct (wellFormed_written s3 tradeId0 Hw3 ltac:(congruence)) as (_ & t3' & Hl3' & Hrec3).
    rewrite Hl3 in Hl3'. injection Hl3' as <-.
    rewrite (trade_lookup s3 tradeId0 t3 Hl3).
    apply (wellFormed_setTrade s3 tradeId0 t3 _ Hw3 Hl3).
    apply (recorded_withStatus _ _ _ _ Hrec3); [|now right].
    apply progress_started. rewrite (trade_lookup s tradeId0 t Ht) in Hst.
    unfold progress in Hp3 |- *. rewrite Hst in Hp3. cbn in Hp3. lia.
  - unfold Pyusd.initiateCrossChainTrade in H. unbind H. now injection H as <- _ _.
  - injection H as <- _ _. exact Hw.
Qed.

Lemma dispatch_evolves first second third env call s ext s' ext' events :
  respects evolves first -> respects evolves second -> respects evolves third ->
  sender env <> 0 ->
  dispatch first second third env call s ext = Success (s', ext', events) ->
  evolves s s'.
Proof.
  intros R1 R2 R3 Hs H Hw. split.
  - exact (dispatch_wellFormed _ _ _ _ _ _ _ _ _ _ R1 R2 R3 Hs Hw H).
  - exact (dispatch_terms _ _ _ _ _ _ _ _ _ _ R1 R2 R3 Hw H).
Qed.

(** Whatever the token has the contract do during a token call. *)
Lemma reenter_evolves now self callbacks : respects evolves (reenter now self callbacks).
Proof.
  apply (reenter_respects Ext isGLEIFVerified isDCSAVerified pyusdTransfer
           pyusdTransferFrom evolves (fun _ _ => True)).
  - apply evolves_refl.
  - apply evolves_trans.
  - intros f1 f2 f3 env call s ext s' ext' ev R1 R2 R3 Hs _ H.
    exact (dispatch_evolves _ _ _ _ _ _ _ _ _ _ R1 R2 R3 Hs H).
  - intros a c _. exact I.
Qed.

Lemma execute_evolves env call token s ext s' ext' events :
  sender env <> 0 ->
  execute env call token s ext = Success (s', ext', events) ->
  evolves s s'.
Proof.
  intros Hs H. unfold Pyusd.execute in H.
  exact (dispatch_evolves _ _ _ _ _ _ _ _ _ _ (reenter_evolves _ _ _)
           (reenter_evolves _ _ _) (reenter_evolves _ _ _) Hs H).
Qed.

Lemma execute_terms env call token s ext s' ext' events :
  wellFormed s ->
  execute env call token s ext = Success (s', ext', events) ->
  forall id t, trades s !! id = Some t ->
    exists t', trades s' !! id = Some t' /\ sameDeal t t' /\ progress t <= progress t'.
Proof.
  intros Hw H. unfold Pyusd.execute in H.
  exact (dispatch_terms _ _ _ _ _ _ _ _ _ _ (reenter_evolves _ _ _)
           (reenter_evolves _ _ _) (reenter_evolves _ _ _) Hw H).
Qed.

Lemma reachable_wellFormed s : reachable s -> wellFormed s.
Proof.
  induction 1 as [token adapter | env call token s s' ext ext' events _ IH Hs He].
  - apply wellFormed_constructor.
  - exact (proj1 (execute_evolves _ _ _ _ _ _ _ _ Hs He IH)).
Qed.

(** A trade whose parties make none of the calls, or which is SETTLED, is
    left as it is by a call. *)
Lemma dispatch_keeps_trade id t first second third env call s ext s' ext' events :
  respects (keeps id t) first -> respects (keeps id t) second ->
  respects (keeps id t) third ->
  ~ isParticipant (sender env) t \/ status t = SETTLED ->
  wellFormed s -> trades s !! id = Some t ->
  dispatch first second third env call s ext = Success (s', ext', events) ->
  trades s' !! id = Some t.
Proof.
  intros R1 R2 R3 Hno Hw Ht H.
  assert (Hrefuse : forall st, status (trade s id) = st -> st <> SETTLED ->
                                isParticipant (sender env) (trade s id) -> False).
  { rewrite (trade_lookup s id t Ht). intros st Hst Hne Hp.
    destruct Hno as [Hno | Hset]; [exact (Hno Hp) | congruence]. }
  destruct call; cbn in H.
  - apply bind_Success in H as ([[[s1 e1] ev1] id1] & E & H). injection H as <- _ _.
    apply initiateCrossBorderTrade_exact in E as (_ & -> & _ & _ & _ & _ & _ & Hts).
    rewrite Hts. rewrite lookup_insert_ne; [exact Ht|].
    intros <-. destruct Hw as [_ Hw]. destruct (Hw (nextTradeId s)) as [_ Hout].
    rewrite Hout in Ht by lia. discriminate.
  - apply executeComplianceCheck_exact in H as (Hp & Hst & _ & _ & t' & -> & _).
    cbn. rewrite lookup_insert. case_decide; [subst|exact Ht].
    exfalso. exact (Hrefuse _ Hst ltac:(discriminate) Hp).
  - apply escrowPYUSD_status in H as (Hp%participant_is & Hst & s1 & ext1 & Hd & _ & ->).
    destruct (R1 _ _ _ _ _ Hd) as [_ K1].
    cbn. rewrite lookup_insert. case_decide; [subst|exact (K1 Hw Ht)].
    exfalso. exact (Hrefuse _ Hst ltac:(discriminate) Hp).
  - apply executeInstantSettlement_status in H
      as (Hp%participant_is & Hst & _ & s1 & ext1 & ev1 & p1 & s2 & ext2 & ev2 & p2
          & s3 & ext3 & ev3 & Hd1 & _ & Hd2 & _ & Hd3 & _ & -> & _).
    pose proof (keeps_trans _ _ _ _ _ (R1 _ _ _ _ _ Hd1)
                  (keeps_trans _ _ _ _ _ (R2 _ _ _ _ _ Hd2) (R3 _ _ _ _ _ Hd3)))
      as [_ K].
    cbn. rewrite lookup_insert. case_decide; [subst|exact (K Hw Ht)].
    exfalso. exact (Hrefuse _ Hst ltac:(discriminate) Hp).
  - unfold Pyusd.initiateCrossChainTrade in H. unbind H. now injection H as <- _ _.
  - injection H as <- _ _. exact Ht.
Qed.

Lemma respects_keeps_evolves id t during :
  respects (keeps id t) during -> respects evolves during.
Proof. intros R s ext s' ext' events H. exact (proj1 (R _ _ _ _ _ H)). Qed.

Lemma reenter_keeps id t now self callbacks :
  (forall a c, In (a, c) (calls callbacks) -> ~ isParticipant a t \/ status t = SETTLED) ->
  respects (keeps id t) (reenter now self callbacks).
Proof.
  apply (reenter_respects Ext isGLEIFVerified isDCSAVerified pyusdTransfer
           pyusdTransferFrom (keeps id t)
           (fun a _ => ~ isParticipant a t \/ status t = SETTLED)).
  - apply keeps_refl.
  - apply keeps_trans.
  - intros f1 f2 f3 env call s ext s' ext' ev R1 R2 R3 Hs Hno H. split.
    + exact (dispatch_evolves _ _ _ _ _ _ _ _ _ _ (respects_keeps_evolves _ _ _ R1)
               (respects_keeps_evolves _ _ _ R2) (respects_keeps_evolves _ _ _ R3) Hs H).
    + intros Hw Ht.
      exact (dispatch_keeps_trade _ _ _ _ _ _ _ _ _ _ _ _ R1 R2 R3 Hno Hw Ht H).
Qed.

Lemma execute_keeps_trade id t env call token s ext s' ext' events :
  ~ isParticipant (sender env) t \/ status t = SETTLED ->
  (forall a c, In (a, c) (nested token) -> ~ isParticipant a t \/ status t = SETTLED) ->
  wellFormed s -> trades s !! id = Some t ->
  execute env call token s ext = Success (s', ext', events) ->
  trades s' !! id = Some t.
Proof.
  intros Hno Hall Hw Ht H. unfold Pyusd.execute in H.
  refine (dispatch_keeps_trade id t _ _ _ _ _ _ _ _ _ _ _ _ _ Hno Hw Ht H);
    apply reenter_keeps; intros a c Hin; apply (Hall a c); unfold nested.
  - apply in_or_app. now left.
  - apply in_or_app. right. apply in_or_app. now left.
  - apply in_or_app. right. apply in_or_app. now right.
Qed.

(** With a token that does not call back, no successful transaction moves
    the status of a trade to an earlier position of the enum. *)
Lemma quiet_token_moves_status_forward s env call ext s' ext' events id :
  reachable s -> sender env <> 0 ->
  execute env call quiet s ext = Success (s', ext', events) ->
  ordinal (status (trade s id)) <= ordinal (status (trade s' id)).
Proof.
  intros Hr Hs H. apply reachable_wellFormed in Hr as [_ Hw].
  unfold Pyusd.execute in H. destruct call; cbn in H.
  - apply bind_Success in H as ([[[s1 e1] ev1] id1] & E & H). injection H as <- _ _.
    apply initiateCrossBorderTrade_state in E as (_ & _ & _ & t & Ht & Hst).
    unfold trade. rewrite Ht, lookup_insert. case_decide; [|lia].
    subst. rewrite (proj2 (Hw (nextTradeId s)) ltac:(lia)). cbn. rewrite Hst. cbn. lia.
  - apply executeComplianceCheck_status in H as (_ & H0 & t & -> & Ht).
    rewrite trade_setTrade. case_decide; [subst; rewrite H0, Ht; cbn; lia | lia].
  - apply escrowPYUSD_status in H as (_ & H0 & s1 & ext1 & Hd & _ & ->).
    injection Hd as <- _ _.
    rewrite trade_setTrade. case_decide; [subst; rewrite H0; cbn; lia | lia].
  - apply executeInstantSettlement_status in H
      as (_ & H0 & _ & s1 & ext1 & ev1 & p1 & s2 & ext2 & ev2 & p2 & s3 & ext3 & ev3
          & Hd1 & _ & Hd2 & _ & Hd3 & _ & -> & _).
    injection Hd1 as <- _ _. injection Hd2 as <- _ _. injection Hd3 as <- _ _.
    rewrite trade_setTrade. case_decide; [subst; rewrite H0; cbn; lia | lia].
  - unfold Pyusd.initiateCrossChainTrade in H. unbind H.
    injection H as <- _ _. lia.
  - injection H as <- _ _. unfold trade. cbn. lia.
Qed.

(** X14: a successful [initiateCrossBorderTrade] returns the old trade
    count as the new id and raises the count by one; [getTrade] of that id
    then shows the caller as buyer, the arguments as given, the amount
    converted at the stored rate, status INITIATED and the block time as
    creation time; every other trade is as before, and the id is the last
    entry of [getUserTrades] for each of the four parties. *)
Theorem initiateCrossBorderTrade_records env s ext seller0 buyerBank0 sellerBank0
    localAmount0 localCurrency0 buyerCountry0 sellerCountry0 lc buyerLEI sellerLEI
    s' ext' events id :
  initiateCrossBorderTrade env s ext seller0 buyerBank0 sellerBank0 localAmount0
    localCurrency0 buyerCountry0 sellerCountry0 lc buyerLEI sellerLEI
    = Success (s', ext', events, id) ->
  id = getTradeCount s
  /\ getTradeCount s' = getTradeCount s + 1
  /\ (let t := getTrade s' id in
      tradeId t = id /\ buyer t = sender env /\ seller t = seller0
      /\ buyerBank t = buyerBank0 /\ sellerBank t = sellerBank0
      /\ pyusdAmount t = localAmount0 * rate s localCurrency0 / 1000000
      /\ localAmount t = localAmount0 /\ localCurrency t = localCurrency0
      /\ buyerCountry t = buyerCountry0 /\ sellerCountry t = sellerCountry0
      /\ letterOfCreditHash t = lc /\ status t = INITIATED
      /\ createdAt t = timestamp env)
  /\ (forall other, other <> id -> trades s' !! other = trades s !! other)
  /\ (forall party,
        party = sender env \/ party = seller0 \/ party = buyerBank0
        \/ party = sellerBank0 ->
        exists earlier, getUserTrades s' party = (earlier ++ [id])%list).
Proof.
  intros H. apply initiateCrossBorderTrade_exact in H
    as (_ & -> & _ & Hn & _ & Hu & _ & Ht).
  unfold getTradeCount, getTrade, getUserTrades, trade. rewrite Ht, Hu.
  split; [reflexivity|]. split; [exact Hn|]. split; [|split].
  - rewrite lookup_insert_eq. cbn. repeat split.
  - intros other Hne. now rewrite lookup_insert_ne.
  - assert (Hadd : forall (m : gmap Z (list Z)) u,
               exists l, default [] (pushUserTrade u (nextTradeId s) m !! u)
                         = (l ++ [nextTradeId s])%list).
    { intros m u. unfold pushUserTrade. rewrite lookup_insert_eq. cbn. eauto. }
    assert (Hkeep : forall (m : gmap Z (list Z)) u a,
               (exists l, default [] (m !! u) = (l ++ [nextTradeId s])%list) ->
               exists l, default [] (pushUserTrade a (nextTradeId s) m !! u)
                         = (l ++ [nextTradeId s])%list).
    { intros m u a [l Hl]. unfold pushUserTrade. rewrite lookup_insert.
      case_decide; cbn; [subst; eauto | eauto]. }
    intros party [-> | [-> | [-> | ->]]]; auto.
Qed.

(** X15: [initiateCrossBorderTrade] succeeds only if both LEIs are GLEIF
    verified, neither the caller nor the seller is the sanctioned address,
    neither country is IR, the currency has a positive rate, and the
    converted amount is at least 1000000000 (1000 PYUSD); in particular it
    reverts for every currency whose rate is zero or was never set. *)
Theorem initiateCrossBorderTrade_requires env s ext seller0 buyerBank0 sellerBank0
    localAmount0 localCurrency0 buyerCountry0 sellerCountry0 lc buyerLEI sellerLEI
    s' ext' events id :
  initiateCrossBorderTrade env s ext seller0 buyerBank0 sellerBank0 localAmount0
    localCurrency0 buyerCountry0 sellerCountry0 lc buyerLEI sellerLEI
    = Success (s', ext', events, id) ->
  isGLEIFVerified ext buyerLEI = Success true
  /\ isGLEIFVerified ext sellerLEI = Success true
  /\ sender env <> sanctioned /\ seller0 <> sanctioned
  /\ buyerCountry0 <> "IR" /\ sellerCountry0 <> "IR"
  /\ 0 < rate s localCurrency0
  /\ 1000 * 1000000 <= localAmount0 * rate s localCurrency0 / 1000000.
Proof.
  intros H. apply initiateCrossBorderTrade_exact in H
    as ((Hb & Hs & Hbs & Hss & Hbc & Hsc & Hrate & _ & Hmin & _) & _).
  exact (conj Hb (conj Hs (conj Hbs (conj Hss (conj Hbc (conj Hsc (conj Hrate Hmin))))))).
Qed.

(** X16: in every reachable state the trades on record are exactly those
    numbered 0 to [getTradeCount - 1], and each one carries its own number
    in its [tradeId] field. *)
Theorem trade_ids_are_sequential s :
  reachable s ->
  0 <= getTradeCount s
  /\ forall id,
       (trades s !! id <> None <-> 0 <= id < getTradeCount s)
       /\ (forall t, trades s !! id = Some t -> tradeId t = id).
Proof.
  intros Hr. apply reachable_wellFormed in Hr as [Hn Hw].
  split; [exact Hn|]. intros id. destruct (Hw id) as [Hin Hout].
  unfold getTradeCount. split.
  - split.
    + intros Hne. destruct (decide (0 <= id < nextTradeId s)); [assumption|].
      exfalso. auto.
    + intros Hi. destruct (Hin Hi) as (t & -> & _). discriminate.
  - intros t Ht. destruct (decide (0 <= id < nextTradeId s)) as [Hi|Hi].
    + destruct (Hin Hi) as (t' & Ht' & Hrec). rewrite Ht in Ht'. injection Ht' as <-.
      apply Hrec.
    + rewrite (Hout Hi) in Ht. discriminate.
Qed.

Lemma getTrade_recorded s id :
  wellFormed s ->
  (exists t, trades s !! id = Some t /\ getTrade s id = t /\ recorded id t)
  \/ (trades s !! id = None /\ getTrade s id = emptyTrade).
Proof.
  intros [Hn Hw]. destruct (Hw id) as [Hin Hout]. unfold getTrade, trade.
  destruct (decide (0 <= id < nextTradeId s)) as [Hi|Hi].
  - left. destruct (Hin Hi) as (t & Ht & Hrec). rewrite Ht. eauto.
  - right. rewrite (Hout Hi). auto.
Qed.

(** X17: of the nine values of [TradeStatus] only four ever occur: in
    every reachable state every trade is INITIATED, COMPLIANCE_CHECK,
    PYUSD_ESCROWED or SETTLED; no trade is ever LC_ISSUED, GOODS_SHIPPED,
    SETTLEMENT_READY, DISPUTED or CANCELLED. *)
Theorem only_four_statuses_occur s id :
  reachable s ->
  status (getTrade s id) = INITIATED \/ status (getTrade s id) = COMPLIANCE_CHECK
  \/ status (getTrade s id) = PYUSD_ESCROWED \/ status (getTrade s id) = SETTLED.
Proof.
  intros Hr. apply reachable_wellFormed in Hr.
  destruct (getTrade_recorded s id Hr) as [(t & _ & -> & Hrec) | (_ & ->)].
  - destruct Hrec as (_ & Ha & _). destruct (status t); try discriminate Ha; auto.
  - auto.
Qed.

(** X18: in every reachable state, whatever the token has called back,
    the two flags of a trade follow its status: [complianceCleared] and
    [gleifVerified] are true exactly when the status is past INITIATED
    {- so the second [require] of [escrowPYUSD] never fires -}; and a trade
    that is INITIATED or COMPLIANCE_CHECK has [settledAt] zero, for which
    [getSettlementComparison] returns zeros. *)
Theorem flags_follow_status s id :
  reachable s ->
  (complianceCleared (getTrade s id) = true <-> status (getTrade s id) <> INITIATED)
  /\ gleifVerified (getTrade s id) = complianceCleared (getTrade s id)
  /\ (status (getTrade s id) = INITIATED \/ status (getTrade s id) = COMPLIANCE_CHECK ->
      settledAt (getTrade s id) = 0
      /\ getSettlementComparison s id = Success (0, 0, 0, 0)).
Proof.
  intros Hr. apply reachable_wellFormed in Hr.
  assert (Hz : settledAt (getTrade s id) = 0 ->
               getSettlementComparison s id = Success (0, 0, 0, 0)).
  { unfold getSettlementComparison, getTrade. intros ->. reflexivity. }
  destruct (getTrade_recorded s id Hr) as [(t & _ & Heq & Hrec) | (_ & Heq)];
    rewrite Heq in *.
  - destruct Hrec as (_ & _ & Hc & Hg & Hset & _).
    split; [exact Hc|]. split; [exact Hg|]. intros Hns. split; auto.
  - cbn in *. split; [split; [discriminate | congruence]|].
    split; [reflexivity|]. intros _. split; auto.
Qed.

(** X19: every trade on record in a reachable state still meets the entry
    conditions it was admitted under: at least 1000000000 units (1000
    PYUSD), a buyer and a seller that are not the sanctioned address
    {- so the last sanctions check of [executeInstantSettlement] never
    fires -}, and no IR country. *)
Theorem recorded_trades_meet_entry_rules s id t :
  reachable s ->
  trades s !! id = Some t ->
  1000 * 1000000 <= pyusdAmount t
  /\ buyer t <> sanctioned /\ seller t <> sanctioned
  /\ buyerCountry t <> "IR" /\ sellerCountry t <> "IR".
Proof.
  intros Hr Ht. apply reachable_wellFormed in Hr.
  destruct (getTrade_recorded s id Hr) as [(t' & Ht' & _ & Hrec) | (Hnone & _)].
  - rewrite Ht in Ht'. injection Ht' as <-.
    destruct Hrec as (_ & _ & _ & _ & _ & ? & _ & ? & ? & ? & ?). auto.
  - congruence.
Qed.

(** X20: only its four parties can change a trade: a successful
    transaction in which neither the sender nor any caller the token has
    call back is a party to the trade leaves every field of the trade as
    it was. *)
Theorem only_participants_change_a_trade env call token s ext s' ext' events id t :
  reachable s ->
  trades s !! id = Some t ->
  ~ isParticipant (sender env) t ->
  (forall caller nestedCall, In (caller, nestedCall) (nested token) ->
                             ~ isParticipant caller t) ->
  execute env call token s ext = Success (s', ext', events) ->
  trades s' !! id = Some t.
Proof.
  intros Hr Ht Hno Hall H. apply reachable_wellFormed in Hr.
  refine (execute_keeps_trade id t env call token s ext s' ext' events _ _ Hr Ht H).
  - now left.
  - intros a c Hin. left. exact (Hall a c Hin).
Qed.

(** X21: a trade that is SETTLED when a transaction begins is final: no
    successful transaction, whoever sends it and whatever the token calls
    back during it, changes any field of the trade. *)
Theorem settled_trades_are_final env call token s ext s' ext' events id t :
  reachable s ->
  trades s !! id = Some t ->
  status t = SETTLED ->
  execute env call token s ext = Success (s', ext', events) ->
  trades s' !! id = Some t.
Proof.
  intros Hr Ht Hst H. apply reachable_wellFormed in Hr.
  refine (execute_keeps_trade id t env call token s ext s' ext' events _ _ Hr Ht H).
  - now right.
  - intros a c _. now right.
Qed.

(** X22: a trade on record is never deleted and its terms never change:
    after any successful transaction, whatever the token calls back, it
    is still there with the same id, parties, banks, amounts, currency,
    countries, letter-of-credit hash and creation time. *)
Theorem deal_terms_never_change env call token s ext s' ext' events id t :
  reachable s ->
  trades s !! id = Some t ->
  execute env call token s ext = Success (s', ext', events) ->
  exists t', trades s' !! id = Some t' /\ sameDeal t t'.
Proof.
  intros Hr Ht H. apply reachable_wellFormed in Hr.
  destruct (execute_terms env call token s ext s' ext' events Hr H id t Ht)
    as (t' & Ht' & Hd & _).
  eauto.
Qed.

(** X23: a successful call of [executeInstantSettlement] makes three token
    transfers of its own, 98% of the trade's amount to the seller and 1%
    to each bank, each rounded down and each answered with true, whatever
    the token has the contract do in between; the three amounts never
    exceed the trade's amount and fall short of it by at most 2 units. *)
Theorem settlement_pays_out_the_escrow env token s ext id s' ext' events t :
  reachable s ->
  trades s !! id = Some t ->
  execute env (ExecuteInstantSettlement id) token s ext = Success (s', ext', events) ->
  (exists s1 ext1 events1 paid1 s2 ext2 events2 paid2 s3 ext3 events3,
      reenter (timestamp env) (this env) (first token) s ext = (s1, ext1, events1)
      /\ pyusdTransfer ext1 (this env) (seller t) (pyusdAmount t * 98 / 100)
           = Success (true, paid1)
      /\ reenter (timestamp env) (this env) (second token) s1 paid1 = (s2, ext2, events2)
      /\ pyusdTransfer ext2 (this env) (buyerBank t) (pyusdAmount t * 1 / 100)
           = Success (true, paid2)
      /\ reenter (timestamp env) (this env) (third token) s2 paid2 = (s3, ext3, events3)
      /\ pyusdTransfer ext3 (this env) (sellerBank t) (pyusdAmount t * 1 / 100)
           = Success (true, ext'))
  /\ pyusdAmount t - 2
       <= pyusdAmount t * 98 / 100 + pyusdAmount t * 1 / 100 + pyusdAmount t * 1 / 100
       <= pyusdAmount t.
Proof.
  intros Hr Ht H. apply reachable_wellFormed in Hr.
  unfold Pyusd.execute in H. cbn [Pyusd.dispatch] in H.
  apply executeInstantSettlement_status in H
    as (_ & _ & _ & s1 & ext1 & ev1 & p1 & s2 & ext2 & ev2 & p2 & s3 & ext3 & ev3
        & Hd1 & Hpay1 & Hd2 & Hpay2 & Hd3 & Hpay3 & _ & _).
  rewrite (trade_lookup s id t Ht) in *.
  destruct (reenter_evolves _ _ _ _ _ _ _ _ Hd1 Hr) as [Hw1 Hterms1].
  destruct (Hterms1 id t Ht) as (t1 & Hl1 & Hdeal1 & _).
  destruct (reenter_evolves _ _ _ _ _ _ _ _ Hd2 Hw1) as [_ Hterms2].
  destruct (Hterms2 id t1 Hl1) as (t2 & Hl2 & Hdeal2 & _).
  rewrite (trade_lookup s1 id t1 Hl1) in Hpay2.
  rewrite (trade_lookup s2 id t2 Hl2) in Hpay3.
  pose proof (sameDeal_trans _ _ _ Hdeal1 Hdeal2) as Hdeal12.
  destruct Hdeal1 as (_ & _ & _ & Hbank1 & _).
  destruct Hdeal12 as (_ & _ & _ & _ & Hbank2 & _).
  rewrite Hbank1 in Hpay2. rewrite Hbank2 in Hpay3.
  split.
  - exists s1, ext1, ev1, p1, s2, ext2, ev2, p2, s3, ext3, ev3.
    repeat split; assumption.
  - pose proof (Z.div_mod (pyusdAmount t * 98) 100 ltac:(lia)).
    pose proof (Z.mod_pos_bound (pyusdAmount t * 98) 100 ltac:(lia)).
    pose proof (Z.div_mod (pyusdAmount t * 1) 100 ltac:(lia)).
    pose proof (Z.mod_pos_bound (pyusdAmount t * 1) 100 ltac:(lia)).
    lia.
Qed.

End ExternalExtra.

(** The states of the demonstration trade are reachable. *)
Local Abbreviation demoReachable :=
  (Pyusd.reachable unit Fixture.allVerified Fixture.allDocuments Fixture.tokenTransfer
     Fixture.tokenTransferFrom).

Lemma run_reachable now call s s' events :
  demoReachable s ->
  Fixture.run (Fixture.buyerEnv now) call s = Success (s', tt, events) ->
  demoReachable s'.
Proof.
  intros Hr H.
  refine (reachable_execute _ _ _ _ _ (Fixture.buyerEnv now) call quiet s s' tt tt events
            Hr _ H).
  discriminate.
Qed.

Lemma initiated_reachable : demoReachable Fixture.initiated.
Proof.
  eapply (run_reachable 1000 Fixture.initiate Fixture.deployed).
  - apply reachable_constructor.
  - vm_compute. reflexivity.
Qed.

Lemma cleared_reachable : demoReachable Fixture.cleared.
Proof.
  eapply (run_reachable 1001 (ExecuteComplianceCheck 0) Fixture.initiated).
  - exact initiated_reachable.
  - vm_compute. reflexivity.
Qed.

Lemma escrowed_reachable : demoReachable Fixture.escrowed.
Proof.
  eapply (run_reachable 1002 (EscrowPYUSD 0) Fixture.cleared).
  - exact cleared_reachable.
  - vm_compute. reflexivity.
Qed.

Lemma settledInTime_reachable : demoReachable Fixture.settledInTime.
Proof.
  eapply (run_reachable 2000 (ExecuteInstantSettlement 0) Fixture.escrowed).
  - exact escrowed_reachable.
  - vm_compute. reflexivity.
Qed.

(** X14, witness: the buyer initiates the first trade. *)
Lemma initiateCrossBorderTrade_records_witness :
  getTradeCount Fixture.initiated = getTradeCount Fixture.deployed + 1
  /\ buyer (getTrade Fixture.initiated 0) = 10
  /\ pyusdAmount (getTrade Fixture.initiated 0) = 2000000000 * rate Fixture.deployed "USD" / 1000000.
Proof.
  edestruct (initiateCrossBorderTrade_records unit Fixture.allVerified
               (Fixture.buyerEnv 1000) Fixture.deployed tt 11 12 13 2000000000
               "USD" "US" "GB" 77 "HWUPKR0MPOU8FGXBT394" "5493001KJTIIGC8Y1R12"
               Fixture.initiated tt)
    as (Hid & Hn & Ht & _).
  { vm_compute. reflexivity. }
  subst. cbv zeta in Ht. destruct Ht as (_ & Hb & _ & _ & _ & Ha & _).
  split; [exact Hn|]. split; [exact Hb | exact Ha].
Defined.

(** X15, witness: the first trade of the demonstration was admitted. *)
Lemma initiateCrossBorderTrade_requires_witness :
  0 < rate Fixture.deployed "USD"
  /\ 1000 * 1000000 <= 2000000000 * rate Fixture.deployed "USD" / 1000000.
Proof.
  edestruct (initiateCrossBorderTrade_requires unit Fixture.allVerified
               (Fixture.buyerEnv 1000) Fixture.deployed tt 11 12 13 2000000000
               "USD" "US" "GB" 77 "HWUPKR0MPOU8FGXBT394" "5493001KJTIIGC8Y1R12"
               Fixture.initiated tt)
    as (_ & _ & _ & _ & _ & _ & Hrate & Hmin).
  { vm_compute. reflexivity. }
  split; [exact Hrate | exact Hmin].
Defined.

(** X16, witness: after one initiation, trade 0 is on record and trade 1
    is not. *)
Lemma trade_ids_are_sequential_witness :
  trades Fixture.initiated !! 0 <> None
  /\ ~ trades Fixture.initiated !! 1 <> None.
Proof.
  destruct (trade_ids_are_sequential unit Fixture.allVerified Fixture.allDocuments
              Fixture.tokenTransfer Fixture.tokenTransferFrom Fixture.initiated
              initiated_reachable) as [_ Hids].
  split.
  - apply (proj1 (Hids 0)). vm_compute. split; [discriminate | reflexivity].
  - intros Hne. apply (proj1 (Hids 1)) in Hne. vm_compute in Hne.
    destruct Hne as [_ Hlt]. discriminate Hlt.
Defined.

(** X17, witness: the cleared trade. *)
Lemma only_four_statuses_occur_witness :
  status (getTrade Fixture.cleared 0) = INITIATED
  \/ status (getTrade Fixture.cleared 0) = COMPLIANCE_CHECK
  \/ status (getTrade Fixture.cleared 0) = PYUSD_ESCROWED
  \/ status (getTrade Fixture.cleared 0) = SETTLED.
Proof.
  exact (only_four_statuses_occur unit Fixture.allVerified Fixture.allDocuments
           Fixture.tokenTransfer Fixture.tokenTransferFrom Fixture.cleared 0
           cleared_reachable).
Defined.

(** X18, witness: the cleared trade is not yet settled. *)
Lemma flags_follow_status_witness :
  complianceCleared (getTrade Fixture.cleared 0) = true
  /\ getSettlementComparison Fixture.cleared 0 = Success (0, 0, 0, 0).
Proof.
  destruct (flags_follow_status unit Fixture.allVerified Fixture.allDocuments
              Fixture.tokenTransfer Fixture.tokenTransferFrom Fixture.cleared 0
              cleared_reachable) as (Hc & _ & Hs).
  split.
  - apply Hc. vm_compute. discriminate.
  - apply Hs. right. vm_compute. reflexivity.
Defined.

(** X19, witness: the settled trade. *)
Lemma recorded_trades_meet_entry_rules_witness :
  1000 * 1000000 <= pyusdAmount (trade Fixture.settledInTime 0)
  /\ seller (trade Fixture.settledInTime 0) <> sanctioned.
Proof.
  destruct (recorded_trades_meet_entry_rules unit Fixture.allVerified
              Fixture.allDocuments Fixture.tokenTransfer Fixture.tokenTransferFrom
              Fixture.settledInTime 0 (trade Fixture.settledInTime 0)
              settledInTime_reachable)
    as (Hmin & _ & Hs & _).
  { vm_compute. reflexivity. }
  split; [exact Hmin | exact Hs].
Defined.

(** X20, witness: account 50, no party to trade 0, initiates a trade of
    its own; trade 0 is as before. *)
Lemma only_participants_change_a_trade_witness :
  exists s' events,
    Fixture.run Scenarios.outsiderEnv Fixture.initiate
      Fixture.initiated = Success (s', tt, events)
    /\ trades s' !! 0 = Some (trade Fixture.initiated 0).
Proof.
  eexists _, _. split; [vm_compute; reflexivity|].
  eapply (only_participants_change_a_trade unit Fixture.allVerified
            Fixture.allDocuments Fixture.tokenTransfer Fixture.tokenTransferFrom
            Scenarios.outsiderEnv Fixture.initiate quiet
            Fixture.initiated tt _ tt _ 0 (trade Fixture.initiated 0)
            initiated_reachable).
  - vm_compute. reflexivity.
  - vm_compute. intros [H | [H | [H | H]]]; discriminate H.
  - intros caller nestedCall Hin. destruct Hin.
  - vm_compute. reflexivity.
Defined.

(** X21, witness: after trade 0 is settled its buyer initiates another
    trade, on the contract with the token of [Scenarios.reentrant]; trade
    0 is as before. *)
Lemma settled_trades_are_final_witness :
  exists s' events,
    Scenarios.runWith Scenarios.reentrant (Fixture.buyerEnv 3000) Fixture.initiate
      Fixture.settledInTime = Success (s', tt, events)
    /\ trades s' !! 0 = Some (trade Fixture.settledInTime 0).
Proof.
  eexists _, _. split; [vm_compute; reflexivity|].
  eapply (settled_trades_are_final unit Fixture.allVerified
            Fixture.allDocuments Fixture.tokenTransfer Fixture.tokenTransferFrom
            (Fixture.buyerEnv 3000) Fixture.initiate Scenarios.reentrant
            Fixture.settledInTime tt _ tt _ 0 (trade Fixture.settledInTime 0)
            settledInTime_reachable).
  - vm_compute. reflexivity.
  - vm_compute. reflexivity.
  - vm_compute. reflexivity.
Defined.

(** X22, witness: the re-entered escrow keeps the terms of trade 0. *)
Lemma deal_terms_never_change_witness :
  exists s' events t',
    Scenarios.runWith Scenarios.reentrant (Fixture.buyerEnv 1002) (EscrowPYUSD 0)
      Fixture.cleared = Success (s', tt, events)
    /\ trades s' !! 0 = Some t'
    /\ sameDeal (trade Fixture.cleared 0) t'.
Proof.
  eexists _, _. 
  assert (Hrun : exists t',
             trades (fst (fst (Scenarios.reentered))) !! 0 = Some t'
             /\ sameDeal (trade Fixture.cleared 0) t').
  { eapply (deal_terms_never_change unit Fixture.allVerified
              Fixture.allDocuments Fixture.tokenTransfer Fixture.tokenTransferFrom
              (Fixture.buyerEnv 1002) (EscrowPYUSD 0) Scenarios.reentrant
              Fixture.cleared tt _ tt _ 0 (trade Fixture.cleared 0)
              cleared_reachable).
    - vm_compute. reflexivity.
    - vm_compute. reflexivity. }
  destruct Hrun as (t' & Hl & Hd). exists t'.
  split; [vm_compute; reflexivity|]. split; [exact Hl | exact Hd].
Defined.

(** X23, witness: the settlement of the escrowed 2000000000 units. *)
Lemma settlement_pays_out_the_escrow_witness :
  pyusdAmount (trade Fixture.escrowed 0) - 2
    <= pyusdAmount (trade Fixture.escrowed 0) * 98 / 100
       + pyusdAmount (trade Fixture.escrowed 0) * 1 / 100
       + pyusdAmount (trade Fixture.escrowed 0) * 1 / 100
    <= pyusdAmount (trade Fixture.escrowed 0).
Proof.
  eapply (settlement_pays_out_the_escrow unit Fixture.allVerified
            Fixture.allDocuments Fixture.tokenTransfer Fixture.tokenTransferFrom
            (Fixture.buyerEnv 2000) quiet Fixture.escrowed tt 0 Fixture.settledInTime tt _
            (trade Fixture.escrowed 0) escrowed_reachable).
  - vm_compute. reflexivity.
  - vm_compute. reflexivity.
Defined.

End PyusdExtra.

(* ===================================================================== *)
(** * Further properties of InstitutionalAsset                            *)
(* ===================================================================== *)

Module AssetExtra.
Import Solidity Asset AssetViews PyusdSpec AssetSpec.

(** ** The holders array *)

Lemma indexOf_Some holder l i n :
  indexOf holder l i = Some n ->
  exists l1 l2, l = (l1 ++ holder :: l2)%list /\ (holder ∉ l1) /\ n = (i + length l1)%nat.
Proof.
  revert i. induction l as [|h rest IH]; intros i H; cbn in H; [discriminate|].
  case_bool_decide as Hh.
  - injection H as <-. subst h. exists [], rest. cbn.
    split; [reflexivity|]. split; [apply not_elem_of_nil | lia].
  - apply IH in H as (l1 & l2 & -> & Hn & ->). exists (h :: l1), l2. cbn.
    split; [reflexivity|]. split; [|lia].
    rewrite elem_of_cons. intros [-> | Hin]; [congruence | contradiction].
Qed.

Lemma indexOf_None holder l i : indexOf holder l i = None -> holder ∉ l.
Proof.
  revert i. induction l as [|h rest IH]; intros i H; cbn in H.
  - apply not_elem_of_nil.
  - case_bool_decide as Hh; [discriminate|]. apply IH in H.
    rewrite elem_of_cons. intros [-> | Hin]; [congruence | contradiction].
Qed.

(** Overwriting the first occurrence with the last element and dropping
    the last element removes that occurrence. *)
Lemma swap_and_pop (l1 l2 : list address) (h : address) :
  let l := (l1 ++ h :: l2)%list in
  let moved := <[length l1 := List.last l 0]> l in
  take (length moved - 1) moved ≡ₚ (l1 ++ l2)%list.
Proof.
  cbn zeta. rewrite length_insert.
  destruct l2 as [|y l2] using rev_ind.
  - rewrite List.last_last. rewrite length_app. cbn.
    replace (length l1 + 1 - 1)%nat with (length l1) by lia.
    rewrite insert_app_r_alt by lia. rewrite Nat.sub_diag. cbn.
    rewrite take_app_length. now rewrite app_nil_r.
  - clear IHl2.
    replace (l1 ++ h :: l2 ++ [y])%list with ((l1 ++ h :: l2) ++ [y])%list
      by (rewrite <- app_assoc; reflexivity).
    rewrite List.last_last.
    rewrite <- app_assoc. cbn.
    rewrite insert_app_r_alt by lia. rewrite Nat.sub_diag. cbn.
    rewrite length_app. cbn. rewrite length_app. cbn.
    replace (length l1 + S (length l2 + 1) - 1)%nat
      with (length (l1 ++ y :: l2)) by (rewrite length_app; cbn; lia).
    replace (l1 ++ y :: l2 ++ [y])%list with ((l1 ++ y :: l2) ++ [y])%list
      by (rewrite <- app_assoc; reflexivity).
    rewrite take_app_length.
    apply Permutation_app_head. apply Permutation_cons_append.
Qed.

Lemma setHolders_same s : setHolders s (holders s) (isHolder s) = s.
Proof. now destruct s. Qed.

(** [_removeHolder] touches the holder list and flags only. *)
Lemma _removeHolder_frame s holder s' :
  _removeHolder s holder = Success s' ->
  s' = setHolders s (holders s') (isHolder s').
Proof.
  unfold _removeHolder. intros H. unbind H.
  destruct (indexOf holder (holders s) 0); injection H as <-.
  - reflexivity.
  - now rewrite setHolders_same.
Qed.

Lemma _removeHolder_holders s holder s' :
  NoDup (holders s) ->
  holder ∈ holders s ->
  _removeHolder s holder = Success s' ->
  NoDup (holders s')
  /\ (forall a, a ∈ holders s' <-> a ∈ holders s /\ a <> holder)
  /\ isHolder s' = <[holder := false]> (isHolder s).
Proof.
  unfold _removeHolder. intros Hnd Hin H. unbind H.
  destruct (indexOf holder (holders s) 0) as [n|] eqn:Ei.
  - injection H as <-. cbn.
    apply indexOf_Some in Ei as (l1 & l2 & Hl & Hn1 & ->). cbn.
    pose proof (swap_and_pop l1 l2 holder) as Hp. cbn zeta in Hp.
    rewrite <- Hl in Hp. 
    assert (Hnd' : NoDup (l1 ++ holder :: l2)) by now rewrite <- Hl.
    apply NoDup_app in Hnd' as (Hnd1 & Hdisj & Hnd2).
    apply NoDup_cons in Hnd2 as (Hn2 & Hnd2).
    split; [|split; [|reflexivity]].
    + rewrite Hp. apply NoDup_app. split; [exact Hnd1|]. split; [|exact Hnd2].
      intros a Ha Ha2. apply (Hdisj a Ha). now apply elem_of_cons; right.
    + intros a. rewrite Hp, Hl. rewrite !elem_of_app, elem_of_cons.
      split.
      * intros [Ha | Ha]; (split; [tauto|]); intros ->; contradiction.
      * intros [[Ha | [-> | Ha]] Hne]; tauto.
  - apply indexOf_None in Ei. contradiction.
Qed.

(** ** [_transfer] *)

(** The balances after moving [amount] from [from] to [to]. *)
Local Abbreviation debit s from amount :=
  (<[from := read (balances s) from - amount]> (balances s)).
Local Abbreviation credit s from to amount :=
  (<[to := read (debit s from amount) to + amount]> (debit s from amount)).
Local Abbreviation listed s from to amount :=
  (if negb (readBool (isHolder s) to)
   then setHolders (setBalances s (credit s from to amount))
          (app (holders s) (cons to nil)) (<[to := true]> (isHolder s))
   else setBalances s (credit s from to amount)).

Lemma _transfer_unfold s from to amount s' events r :
  _transfer s from to amount = Success (s', events, r) ->
  from <> 0 /\ to <> 0 /\ amount <= read (balances s) from
  /\ read (debit s from amount) to + amount <= MAX_UINT256
  /\ (if read (credit s from to amount) from =? 0
      then _removeHolder (listed s from to amount) from
      else Success (listed s from to amount)) = Success s'
  /\ events = [Transfer from to amount] /\ r = true.
Proof.
  unfold _transfer. intros H.
  apply bind_Success in H as (? & Hfrom%require_Success & H).
  apply bind_Success in H as (? & Hto%require_Success & H).
  apply bind_Success in H as (? & Hbal%require_Success & H).
  apply bind_Success in H as (d & Hsub & H).
  apply bind_Success in H as (c & Hadd & H).
  apply bind_Success in H as (s2 & Hlast & H).
  injection H as <- <- <-.
  apply negb_true_iff, bool_decide_eq_false in Hfrom, Hto.
  apply Z.leb_le in Hbal.
  unfold checked_sub in Hsub. rewrite (proj2 (Z.leb_le _ _) Hbal) in Hsub.
  injection Hsub as <-.
  unfold checked_add in Hadd. cbn in Hadd.
  destruct (Z.leb_spec (read (debit s from amount) to + amount) MAX_UINT256)
    as [Hmax|]; [|discriminate Hadd].
  injection Hadd as <-.
  repeat split; try assumption.
  cbn in Hlast. destruct (negb (readBool (isHolder s) to)); exact Hlast.
Qed.

Lemma _transfer_frame s from to amount s' events r :
  _transfer s from to amount = Success (s', events, r) ->
  s' = setHolders (setBalances s (credit s from to amount)) (holders s') (isHolder s').
Proof.
  intros H. apply _transfer_unfold in H as (_ & _ & _ & _ & H & _).
  assert (Hl : listed s from to amount
               = setHolders (setBalances s (credit s from to amount))
                   (holders (listed s from to amount))
                   (isHolder (listed s from to amount))).
  { destruct (negb (readBool (isHolder s) to)); [reflexivity|].
    now rewrite setHolders_same. }
  destruct (read (credit s from to amount) from =? 0).
  - apply _removeHolder_frame in H. rewrite H at 1. rewrite Hl at 1. reflexivity.
  - injection H as <-. exact Hl.
Qed.

(** What [_transfer] does to one balance. *)
Lemma credit_read s from to amount a :
  read (credit s from to amount) a =
    if decide (from = to) then read (balances s) a
    else if decide (a = from) then read (balances s) from - amount
    else if decide (a = to) then read (balances s) to + amount
    else read (balances s) a.
Proof.
  unfold read. rewrite !lookup_insert.
  repeat case_decide; subst; cbn; try congruence; try lia.
  all: rewrite ?lookup_insert; repeat case_decide; cbn; try congruence; try lia.
Qed.

Lemma _transfer_balanceOf s from to amount s' events r a :
  _transfer s from to amount = Success (s', events, r) ->
  balanceOf s' a =
    if decide (from = to) then balanceOf s a
    else if decide (a = from) then balanceOf s from - amount
    else if decide (a = to) then balanceOf s to + amount
    else balanceOf s a.
Proof.
  intros H. apply _transfer_frame in H. unfold balanceOf. rewrite H. cbn.
  apply credit_read.
Qed.

Lemma bind_require (c : bool) (reason : string) {B : Type} (f : unit -> Result B) :
  c = true -> require c reason ≫= f = f tt.
Proof. now intros ->. Qed.

Lemma bind_ret {A B : Type} (a : A) (f : A -> Result B) : Success a ≫= f = f a.
Proof. reflexivity. Qed.

Lemma _transfer_succeeds s from to amount :
  from <> 0 -> to <> 0 -> amount <= read (balances s) from ->
  read (debit s from amount) to + amount <= MAX_UINT256 ->
  (read (credit s from to amount) from = 0 ->
   readBool (isHolder (listed s from to amount)) from = true) ->
  exists s', _transfer s from to amount = Success (s', [Transfer from to amount], true).
Proof.
  intros Hfrom Hto Hbal Hmax Hholder.
  assert (Hl : exists s2,
             (if read (credit s from to amount) from =? 0
              then _removeHolder (listed s from to amount) from
              else Success (listed s from to amount)) = Success s2).
  { destruct (Z.eqb_spec (read (credit s from to amount) from) 0) as [Hz|]; [|eauto].
    unfold _removeHolder. rewrite (Hholder Hz). cbn.
    destruct (indexOf from (holders (listed s from to amount)) 0); eauto. }
  destruct Hl as [s2 Hl]. exists s2.
  unfold _transfer.
  rewrite bind_require by (now rewrite bool_decide_eq_false_2).
  rewrite bind_require by (now rewrite bool_decide_eq_false_2).
  rewrite bind_require by (now apply Z.leb_le).
  unfold checked_sub. rewrite (proj2 (Z.leb_le _ _) Hbal). rewrite bind_ret.
  cbv zeta. unfold checked_add.
  match goal with
  | |- context [?a + ?b <=? MAX_UINT256] =>
      replace (a + b <=? MAX_UINT256) with true
        by (symmetry; apply Z.leb_le; exact Hmax)
  end.
  rewrite bind_ret.
  match goal with
  | |- ?m ≫= _ = _ =>
      replace m with (Success (A := State) s2)
        by (rewrite <- Hl; cbn [isHolder setBalances balances holders];
            destruct (negb (readBool (isHolder s) to)); reflexivity)
  end.
  reflexivity.
Qed.

(** ** [transfer] and [transferFrom] *)

Lemma isTransferCompliant_true s from to amount :
  isTransferCompliant s from to amount = true <->
  transfersEnabled s = true
  /\ readBool (whitelistedInvestors s) from = true
  /\ readBool (whitelistedInvestors s) to = true
  /\ to <> sanctioned
  /\ minimumFractionSize (assetData s) <= amount.
Proof.
  unfold isTransferCompliant, _isOnSanctionsList, _checkCrossBorderCompliance.
  destruct (transfersEnabled s), (readBool (whitelistedInvestors s) from),
    (readBool (whitelistedInvestors s) to); cbn;
    try (split; [discriminate | intros (? & ? & ? & _); discriminate]).
  case_bool_decide as Hs; cbn.
  - split; [discriminate | tauto].
  - destruct (Z.ltb_spec amount (minimumFractionSize (assetData s))).
    + split; [discriminate | lia].
    + tauto.
Qed.

Lemma transfer_unfold env s to amount s' events r :
  transfer env s to amount = Success (s', events, r) <->
  isTransferCompliant s (sender env) to amount = true
  /\ exists moved,
       _transfer s (sender env) to amount = Success (s', moved, r)
       /\ events =
            ([ ComplianceRuleTriggered "RULE_02_OFAC" to true;
               ComplianceRuleTriggered "RULE_03_SANCTIONS" to true;
               ComplianceRuleTriggered "RULE_10_MIN_FRACTION" (sender env) true ]
             ++ moved)%list.
Proof.
  rewrite isTransferCompliant_true.
  unfold transfer, transfersAllowed, onlyWhitelisted, _isOnSanctionsList,
    _checkCrossBorderCompliance.
  destruct (transfersEnabled s); cbn;
    [|split; [discriminate | intros ((? & _) & _); discriminate]].
  destruct (readBool (whitelistedInvestors s) (sender env)); cbn;
    [|split; [discriminate | intros ((_ & ? & _) & _); discriminate]].
  destruct (readBool (whitelistedInvestors s) to); cbn;
    [|split; [discriminate | intros ((_ & _ & ? & _) & _); discriminate]].
  case_bool_decide as Hs; cbn;
    [split; [discriminate | intros ((_ & _ & _ & ? & _) & _); contradiction]|].
  destruct (Z.leb_spec (minimumFractionSize (assetData s)) amount) as [Hmin|Hmin]; cbn;
    [|split; [discriminate | intros ((_ & _ & _ & _ & ?) & _); lia]].
  destruct (_transfer s (sender env) to amount) as [[[s1 ev1] r1]| |]; cbn.
  - split.
    + intros Heq. injection Heq as <- <- <-. repeat split; eauto.
    + intros (_ & moved & Heq & ->). injection Heq as <- <- <-. reflexivity.
  - split; [discriminate | intros (_ & ? & ? & _); discriminate].
  - split; [discriminate | intros (_ & ? & ? & _); discriminate].
Qed.

Lemma transferFrom_unfold env s from to amount s' events r :
  transferFrom env s from to amount = Success (s', events, r) ->
  isTransferCompliant s from to amount = true
  /\ amount <= allowance s from (sender env)
  /\ _transfer
       (setAllowances s
          (<[(from, sender env) := allowance s from (sender env) - amount]> (allowances s)))
       from to amount = Success (s', events, r).
Proof.
  rewrite isTransferCompliant_true. unfold transferFrom. intros H.
  apply bind_Success in H as (? & Hen%require_Success & H).
  apply bind_Success in H as (? & Hwf%require_Success & H).
  apply bind_Success in H as (? & Hwt%require_Success & H).
  apply bind_Success in H as (? & Hal%require_Success & H).
  apply bind_Success in H as (? & Hsa%require_Success & H).
  apply bind_Success in H as (? & _ & H).
  apply bind_Success in H as (? & Hmin%require_Success & H).
  apply bind_Success in H as (remaining & Hsub & H).
  apply Z.leb_le in Hal, Hmin.
  apply negb_true_iff, bool_decide_eq_false in Hsa.
  unfold checked_sub in Hsub. rewrite (proj2 (Z.leb_le _ _) Hal) in Hsub.
  injection Hsub as <-.
  repeat split; assumption.
Qed.

(** X24: a successful [transfer] returns true and moves exactly [amount]:
    the caller's balance goes down by it, the recipient's up by it, a
    transfer to oneself changes no balance, and no other balance and no
    allowance changes; it logs the three rule events and then
    [Transfer(caller, to, amount)]. *)
Theorem transfer_moves_exactly_amount env s to amount s' events r :
  transfer env s to amount = Success (s', events, r) ->
  r = true
  /\ amount <= balanceOf s (sender env)
  /\ (forall a,
        balanceOf s' a =
          if decide (sender env = to) then balanceOf s a
          else if decide (a = sender env) then balanceOf s (sender env) - amount
          else if decide (a = to) then balanceOf s to + amount
          else balanceOf s a)
  /\ allowances s' = allowances s
  /\ events =
       [ ComplianceRuleTriggered "RULE_02_OFAC" to true;
         ComplianceRuleTriggered "RULE_03_SANCTIONS" to true;
         ComplianceRuleTriggered "RULE_10_MIN_FRACTION" (sender env) true;
         Transfer (sender env) to amount ].
Proof.
  intros H. apply transfer_unfold in H as (_ & moved & H & ->).
  pose proof (_transfer_unfold _ _ _ _ _ _ _ H) as (_ & _ & Hbal & _ & _ & -> & ->).
  split; [reflexivity|]. split; [exact Hbal|]. split; [|split; [|reflexivity]].
  - intros a. exact (_transfer_balanceOf _ _ _ _ _ _ _ a H).
  - apply _transfer_frame in H. rewrite H. reflexivity.
Qed.

(** X25: a successful [transferFrom] needs an allowance of at least
    [amount] from [from] to the caller and lowers exactly that allowance
    by [amount]; the balances move from [from] to [to] as in [transfer];
    the only event is [Transfer(from, to, amount)]. *)
Theorem transferFrom_spends_allowance env s from to amount s' events r :
  transferFrom env s from to amount = Success (s', events, r) ->
  r = true
  /\ amount <= allowance s from (sender env)
  /\ amount <= balanceOf s from
  /\ allowance s' from (sender env) = allowance s from (sender env) - amount
  /\ (forall owner spender,
        (owner, spender) <> (from, sender env) ->
        allowance s' owner spender = allowance s owner spender)
  /\ (forall a,
        balanceOf s' a =
          if decide (from = to) then balanceOf s a
          else if decide (a = from) then balanceOf s from - amount
          else if decide (a = to) then balanceOf s to + amount
          else balanceOf s a)
  /\ events = [Transfer from to amount].
Proof.
  intros H. apply transferFrom_unfold in H as (_ & Hal & H).
  pose proof (_transfer_unfold _ _ _ _ _ _ _ H) as (_ & _ & Hbal & _ & _ & -> & ->).
  split; [reflexivity|]. split; [exact Hal|]. split; [exact Hbal|].
  pose proof (_transfer_frame _ _ _ _ _ _ _ H) as Hs.
  split; [|split; [|split; [|reflexivity]]].
  - unfold allowance at 1. rewrite Hs. cbn. unfold read.
    now rewrite lookup_insert_eq.
  - intros owner spender Hne. unfold allowance at 1. rewrite Hs. cbn. unfold read.
    rewrite lookup_insert_ne by congruence. reflexivity.
  - intros a. exact (_transfer_balanceOf _ _ _ _ _ _ _ a H).
Qed.

(** ** What a transaction leaves alone *)

(** The fields no function writes after deployment, and the whitelist. *)
Lemma _transfer_rest s from to amount s' events r :
  _transfer s from to amount = Success (s', events, r) ->
  assetData s' = assetData s /\ totalSupply s' = totalSupply s
  /\ name s' = name s /\ symbol s' = symbol s
  /\ whitelistedInvestors s' = whitelistedInvestors s
  /\ investorClasses s' = investorClasses s
  /\ transfersEnabled s' = transfersEnabled s.
Proof.
  intros H. apply _transfer_frame in H. rewrite H. cbn. repeat split.
Qed.

Lemma execute_rest env call s s' events :
  execute env call s = Success (s', events) ->
  manager (assetData s') = manager (assetData s)
  /\ minimumFractionSize (assetData s') = minimumFractionSize (assetData s)
  /\ totalFractions (assetData s') = totalFractions (assetData s)
  /\ corporateName (assetData s') = corporateName (assetData s)
  /\ totalSupply s' = totalSupply s /\ name s' = name s /\ symbol s' = symbol s
  /\ whitelistedInvestors s' =
       match call with
       | CallWhitelistInvestor investor _ => <[investor := true]> (whitelistedInvestors s)
       | _ => whitelistedInvestors s
       end
  /\ investorClasses s' =
       match call with
       | CallWhitelistInvestor investor class => <[investor := class]> (investorClasses s)
       | _ => investorClasses s
       end
  /\ transfersEnabled s' =
       match call with
       | CallEmergencyPause => false
       | CallResumeTransfers => true
       | CallUpdateAssetStatus newStatus =>
           if bool_decide (newStatus = DEFAULT) then false else transfersEnabled s
       | _ => transfersEnabled s
       end.
Proof.
  intros H. destruct call; cbn in H.
  - apply bind_Success in H as ([[s1 ev1] r1] & E & H). injection H as <- _.
    apply transfer_unfold in E as (_ & moved & E & _).
    apply _transfer_rest in E as (-> & -> & -> & -> & -> & -> & ->). repeat split.
  - apply bind_Success in H as ([[s1 ev1] r1] & E & H). injection H as <- _.
    apply transferFrom_unfold in E as (_ & _ & E).
    apply _transfer_rest in E as (-> & -> & -> & -> & -> & -> & ->). repeat split.
  - unfold whitelistInvestor in H. unbind H. injection H as <- _. repeat split.
  - unfold emergencyPause in H. unbind H. injection H as <- _. repeat split.
  - unfold resumeTransfers in H. unbind H. injection H as <- _. repeat split.
  - unfold updateAssetStatus in H. unbind H. injection H as <- _.
    destruct (bool_decide (newStatus = DEFAULT)); repeat split.
  - injection H as <- _. repeat split.
Qed.

Lemma execute_by_manager env call s s' events :
  execute env call s = Success (s', events) ->
  match call with
  | CallWhitelistInvestor _ class => sender env = manager (assetData s) /\ class <= 2
  | CallEmergencyPause | CallResumeTransfers | CallUpdateAssetStatus _ =>
      sender env = manager (assetData s)
  | CallTransfer to amount => isTransferCompliant s (sender env) to amount = true
  | CallTransferFrom from to amount => isTransferCompliant s from to amount = true
  | CallApprove _ _ => True
  end.
Proof.
  intros H. destruct call; cbn in H.
  - apply bind_Success in H as ([[s1 ev1] r1] & E & H).
    now apply transfer_unfold in E as (? & _).
  - apply bind_Success in H as ([[s1 ev1] r1] & E & H).
    now apply transferFrom_unfold in E as (? & _).
  - unfold whitelistInvestor, onlyManager in H.
    apply bind_Success in H as (? & Hm%require_Success & H).
    apply bind_Success in H as (? & Hc%require_Success & H).
    apply bool_decide_eq_true in Hm. apply Z.leb_le in Hc. auto.
  - unfold emergencyPause, onlyManager in H.
    apply bind_Success in H as (? & Hm%require_Success & H).
    now apply bool_decide_eq_true in Hm.
  - unfold resumeTransfers, onlyManager in H.
    apply bind_Success in H as (? & Hm%require_Success & H).
    now apply bool_decide_eq_true in Hm.
  - unfold updateAssetStatus, onlyManager in H.
    apply bind_Success in H as (? & Hm%require_Success & H).
    now apply bool_decide_eq_true in Hm.
  - exact I.
Qed.

(** X26: [transfersEnabled] is switched off by [emergencyPause] and by
    [updateAssetStatus(DEFAULT)], switched on by [resumeTransfers] alone
    {- a later [updateAssetStatus] to another status does not resume -},
    and left alone by every other call; only the manager's calls change it,
    and while it is off no [transfer] or [transferFrom] succeeds. *)
Theorem transfers_are_switched_by_the_manager env call s s' events :
  execute env call s = Success (s', events) ->
  transfersEnabled s' =
    match call with
    | CallEmergencyPause => false
    | CallResumeTransfers => true
    | CallUpdateAssetStatus newStatus =>
        if bool_decide (newStatus = DEFAULT) then false else transfersEnabled s
    | _ => transfersEnabled s
    end
  /\ (transfersEnabled s' <> transfersEnabled s -> sender env = manager (assetData s))
  /\ (transfersEnabled s = false -> isTransferCall call = false).
Proof.
  intros H.
  pose proof (execute_rest _ _ _ _ _ H) as (_ & _ & _ & _ & _ & _ & _ & _ & _ & Hen).
  pose proof (execute_by_manager _ _ _ _ _ H) as Hby.
  split; [exact Hen|]. split.
  - intros Hne. destruct call; try (exact Hby); congruence.
  - intros Hoff. destruct call; try reflexivity;
      apply isTransferCompliant_true in Hby as (Hon & _); congruence.
Qed.

(** X27: no call changes the manager or the minimum fraction size; an
    investor once whitelisted stays whitelisted, and the only way onto the
    whitelist is a [whitelistInvestor] call by the manager with a class of
    at most 2. *)
Theorem whitelist_only_grows env call s s' events :
  execute env call s = Success (s', events) ->
  manager (assetData s') = manager (assetData s)
  /\ minimumFractionSize (assetData s') = minimumFractionSize (assetData s)
  /\ forall a,
       (readBool (whitelistedInvestors s) a = true ->
        readBool (whitelistedInvestors s') a = true)
       /\ (readBool (whitelistedInvestors s) a = false ->
           readBool (whitelistedInvestors s') a = true ->
           sender env = manager (assetData s)
           /\ exists class, call = CallWhitelistInvestor a class /\ class <= 2).
Proof.
  intros H.
  pose proof (execute_rest _ _ _ _ _ H) as (Hm & Hmin & _ & _ & _ & _ & _ & Hw & _).
  pose proof (execute_by_manager _ _ _ _ _ H) as Hby.
  split; [exact Hm|]. split; [exact Hmin|]. intros a. rewrite Hw.
  destruct call; try (split; [tauto | congruence]).
  unfold readBool. rewrite lookup_insert. case_decide as Ha.
  - subst. destruct Hby. split; [reflexivity|]. intros _ _. eauto.
  - split; [tauto | congruence].
Qed.

(** The supply the constructor mints fits in 256 bits, and stays. *)
Lemma reachable_supply_fits s : reachable s -> totalSupply s <= MAX_UINT256.
Proof.
  induction 1 as [data adapter s Hc | env call s s' events _ IH He].
  - unfold constructor in Hc.
    apply bind_Success in Hc as (supply & Hmul & Hc). injection Hc as <-. cbn.
    unfold checked_mul in Hmul.
    destruct (Z.leb_spec (totalFractions data * 10 ^ 18) MAX_UINT256);
      [|discriminate Hmul].
    injection Hmul as <-. assumption.
  - pose proof (execute_rest _ _ _ _ _ He) as (_ & _ & _ & _ & Hts & _).
    rewrite Hts. exact IH.
Qed.

(** X28: in every reachable state the token data still follow the asset
    data of the constructor: [totalSupply] is [totalFractions * 1e18] and
    fits in 256 bits, the name is the corporate name followed by
    [ Institutional Asset]; the manager is whitelisted and every investor
    class is at most 2. *)
Theorem token_follows_asset_data s :
  reachable s ->
  totalSupply s = totalFractions (assetData s) * 10 ^ 18
  /\ totalSupply s <= MAX_UINT256
  /\ name s = corporateName (assetData s) +:+ " Institutional Asset"
  /\ readBool (whitelistedInvestors s) (manager (assetData s)) = true
  /\ forall a, read (investorClasses s) a <= 2.
Proof.
  induction 1 as [data adapter s Hc | env call s s' events _ IH He].
  - unfold constructor in Hc.
    apply bind_Success in Hc as (supply & Hmul & Hc). injection Hc as <-. cbn.
    unfold checked_mul in Hmul.
    destruct (Z.leb_spec (totalFractions data * 10 ^ 18) MAX_UINT256);
      [|discriminate Hmul].
    injection Hmul as <-.
    split; [reflexivity|]. split; [assumption|]. split; [reflexivity|].
    split.
    + unfold readBool. now rewrite lookup_insert_eq.
    + intros a. unfold read. rewrite lookup_insert. case_decide; cbn; [lia|].
      rewrite lookup_empty. cbn. lia.
  - destruct IH as (Hs & Hmax & Hn & Hw & Hcl).
    pose proof (execute_rest _ _ _ _ _ He)
      as (Hm & _ & Hf & Hcn & Hts & Hnm & _ & Hwl & Hic & _).
    pose proof (execute_by_manager _ _ _ _ _ He) as Hby.
    rewrite Hts, Hf, Hnm, Hcn, Hm, Hwl, Hic.
    split; [exact Hs|]. split; [exact Hmax|]. split; [exact Hn|].
    destruct call; try (split; assumption).
    destruct Hby as [_ Hc2]. split.
    + unfold readBool. rewrite lookup_insert. case_decide; [reflexivity | exact Hw].
    + intros a. unfold read. rewrite lookup_insert. case_decide; cbn; [lia | apply Hcl].
Qed.

(** ** The holders invariant *)

Lemma sumBalances_nonneg (m : gmap Z Z) :
  (forall k, 0 <= read m k) -> 0 <= sumBalances m.
Proof.
  induction m as [|i x m Hi IH] using map_ind; intros Hm.
  - unfold sumBalances. now rewrite map_fold_empty.
  - rewrite sumBalances_insert_fresh by exact Hi.
    assert (0 <= x).
    { specialize (Hm i). unfold read in Hm. now rewrite lookup_insert_eq in Hm. }
    assert (0 <= sumBalances m); [|lia].
    apply IH. intros k. specialize (Hm k). unfold read in *.
    rewrite lookup_insert in Hm. case_decide; [subst; now rewrite Hi | exact Hm].
Qed.

Lemma sumBalances_two (m : gmap Z Z) (a b : Z) :
  a <> b -> (forall k, 0 <= read m k) -> read m a + read m b <= sumBalances m.
Proof.
  intros Hne Hm.
  pose proof (sumBalances_insert (<[b := 0]> m) a 0) as Ha.
  pose proof (sumBalances_insert m b 0) as Hb.
  assert (Hra : read (<[b := 0]> m) a = read m a).
  { unfold read. now rewrite lookup_insert_ne by congruence. }
  assert (0 <= sumBalances (<[a := 0]> (<[b := 0]> m))); [|lia].
  apply sumBalances_nonneg. intros k. unfold read. rewrite !lookup_insert.
  repeat case_decide; cbn; try lia. apply Hm.
Qed.

Lemma sumBalances_one (m : gmap Z Z) (a : Z) :
  (forall k, 0 <= read m k) -> read m a <= sumBalances m.
Proof.
  intros Hm. pose proof (sumBalances_insert m a 0) as Ha.
  assert (0 <= sumBalances (<[a := 0]> m)); [|lia].
  apply sumBalances_nonneg. intros k. unfold read. rewrite lookup_insert.
  case_decide; cbn; [lia | apply Hm].
Qed.

Lemma holdersConsistent_listed s from to amount :
  holdersConsistent s -> 0 <= amount -> amount <= read (balances s) from ->
  holdersConsistent (listed s from to amount).
Proof.
  intros (Hnd & Hc) Hpos Hbal.
  assert (Hcredit : forall a, read (credit s from to amount) a <> 0 ->
                              a ∈ holders s \/ a = to).
  { intros a. rewrite credit_read. repeat case_decide; subst.
    - intros Ha. left. apply (proj2 (Hc a)). exact Ha.
    - intros Ha. left. apply (proj2 (Hc from)). unfold balanceOf. lia.
    - auto.
    - intros Ha. left. apply (proj2 (Hc a)). exact Ha. }
  unfold holdersConsistent, balanceOf.
  destruct (negb (readBool (isHolder s) to)) eqn:Hto; cbn.
  - apply negb_true_iff in Hto.
    assert (Hnot : to ∉ holders s).
    { intros Hin. apply (proj1 (Hc to)) in Hin. congruence. }
    split.
    + apply NoDup_app. split; [exact Hnd|]. split; [|apply NoDup_singleton].
      intros x Hx Hx'. apply list_elem_of_singleton in Hx'. now subst.
    + intros a. rewrite elem_of_app, list_elem_of_singleton. split.
      * unfold readBool. rewrite lookup_insert. case_decide; cbn.
        -- subst. tauto.
        -- destruct (Hc a) as [Hflag _]. unfold readBool in Hflag. rewrite Hflag.
           split; [tauto | intros [?|?]; [assumption | lia]].
      * apply Hcredit.
  - apply negb_false_iff in Hto. split; [exact Hnd|]. intros a. split.
    + apply Hc.
    + intros Ha. destruct (Hcredit a Ha) as [?| ->]; [assumption|].
      apply (proj1 (Hc to)). exact Hto.
Qed.

Lemma holdersConsistent_transfer s from to amount s' events r :
  holdersConsistent s -> 0 <= amount ->
  _transfer s from to amount = Success (s', events, r) ->
  holdersConsistent s'.
Proof.
  intros Hc Hpos H.
  apply _transfer_unfold in H as (_ & _ & Hbal & _ & H & _).
  pose proof (holdersConsistent_listed s from to amount Hc Hpos Hbal) as Hl.
  assert (Hb : balances (listed s from to amount) = credit s from to amount).
  { destruct (negb (readBool (isHolder s) to)); reflexivity. }
  destruct (Z.eqb_spec (read (credit s from to amount) from) 0) as [Hz|];
    [|injection H as <-; exact Hl].
  destruct Hl as (Hnd & Hcl).
  assert (Hin : from ∈ holders (listed s from to amount)).
  { apply (proj1 (Hcl from)). unfold _removeHolder in H.
    apply bind_Success in H as (? & Hh%require_Success & _). exact Hh. }
  pose proof (_removeHolder_frame _ _ _ H) as Hf.
  apply (_removeHolder_holders _ _ _ Hnd Hin) in H as (Hnd' & Hmem & Hflags).
  split; [exact Hnd'|]. intros a. rewrite Hmem. split.
  - rewrite Hflags. unfold readBool. rewrite lookup_insert. case_decide; cbn.
    + subst. split; [discriminate | tauto].
    + destruct (Hcl a) as [Hflag _]. unfold readBool in Hflag. rewrite Hflag.
      split; [intros ?; split; [assumption | congruence] | tauto].
  - unfold balanceOf. rewrite Hf. cbn. intros Ha. split.
    + apply (proj2 (Hcl a)). exact Ha.
    + intros ->. rewrite Hb in Ha. contradiction.
Qed.

Lemma nonneg_transfer s from to amount s' events r :
  (forall a, 0 <= balanceOf s a) -> 0 <= amount ->
  _transfer s from to amount = Success (s', events, r) ->
  forall a, 0 <= balanceOf s' a.
Proof.
  intros Hs Hpos H a. rewrite (_transfer_balanceOf _ _ _ _ _ _ _ a H).
  apply _transfer_unfold in H as (_ & _ & Hbal & _).
  pose proof (Hs a). pose proof (Hs to). unfold balanceOf in *.
  repeat case_decide; lia.
Qed.

Lemma other_calls_keep_holders env call s s' events :
  isTransferCall call = false ->
  execute env call s = Success (s', events) ->
  balances s' = balances s /\ holders s' = holders s /\ isHolder s' = isHolder s.
Proof.
  intros Hc H. destruct call; try discriminate Hc; cbn in H.
  - unfold whitelistInvestor in H. unbind H. now injection H as <- _.
  - unfold emergencyPause in H. unbind H. now injection H as <- _.
  - unfold resumeTransfers in H. unbind H. now injection H as <- _.
  - unfold updateAssetStatus in H. unbind H. injection H as <- _.
    destruct (bool_decide (newStatus = DEFAULT)); repeat split.
  - injection H as <- _. repeat split.
Qed.

Lemma deployed_reachable s : deployed s -> reachable s.
Proof.
  induction 1 as [data adapter s _ _ Hc | env call s s' events _ IH _ He].
  - exact (reachable_constructor data adapter s Hc).
  - exact (reachable_execute env call s s' events IH He).
Qed.

Lemma deployed_invariant s :
  deployed s -> holdersConsistent s /\ forall a, 0 <= balanceOf s a.
Proof.
  induction 1 as [data adapter s Hf _ Hc | env call s s' events _ [IHc IHn] Ht He].
  - unfold constructor in Hc.
    apply bind_Success in Hc as (supply & Hmul & Hc). injection Hc as <-.
    unfold checked_mul in Hmul.
    destruct (totalFractions data * 10 ^ 18 <=? MAX_UINT256); [|discriminate Hmul].
    injection Hmul as <-.
    unfold holdersConsistent, balanceOf, read, readBool. cbn [holders isHolder balances].
    split; [split|].
    + apply NoDup_singleton.
    + intros a. rewrite list_elem_of_singleton, !lookup_insert.
      case_decide; cbn; [subst; tauto|]. rewrite !lookup_empty. cbn.
      split; [split; [discriminate | congruence] | lia].
    + intros a. rewrite lookup_insert. case_decide; cbn.
      * destruct Hf. lia.
      * rewrite lookup_empty. cbn. lia.
  - destruct (isTransferCall call) eqn:Hc.
    + destruct call; try discriminate Hc; cbn in He, Ht;
        apply bind_Success in He as ([[s1 ev1] r1] & E & He); injection He as <- _;
        destruct Ht as [Hpos _].
      * apply transfer_unfold in E as (_ & moved & E & _). split.
        -- exact (holdersConsistent_transfer _ _ _ _ _ _ _ IHc Hpos E).
        -- exact (nonneg_transfer _ _ _ _ _ _ _ IHn Hpos E).
      * apply transferFrom_unfold in E as (_ & _ & E). split.
        -- exact (holdersConsistent_transfer (setAllowances s _) _ _ _ _ _ _ IHc Hpos E).
        -- exact (nonneg_transfer (setAllowances s _) _ _ _ _ _ _ IHn Hpos E).
    + destruct (other_calls_keep_holders _ _ _ _ _ Hc He) as (Hb & Hh & Hi).
      unfold holdersConsistent, balanceOf in *. rewrite Hb, Hh, Hi. auto.
Qed.

(** X29: as long as the amounts passed are [uint256] values, the [holders]
    array never lists an account twice, lists exactly the accounts whose
    [isHolder] flag is set, and contains every account with a non-zero
    balance; every balance lies between 0 and [totalSupply]. *)
Theorem holders_list_is_consistent s :
  deployed s ->
  NoDup (getHolders s)
  /\ forall a,
       (readBool (isHolder s) a = true <-> a ∈ getHolders s)
       /\ (balanceOf s a <> 0 -> a ∈ getHolders s)
       /\ 0 <= balanceOf s a <= totalSupply s.
Proof.
  intros Hd. destruct (deployed_invariant s Hd) as ((Hnd & Hc) & Hn).
  pose proof (reachable_supply s (deployed_reachable s Hd)) as Hsum.
  split; [exact Hnd|]. intros a. destruct (Hc a) as [Hflag Hbal].
  split; [exact Hflag|]. split; [exact Hbal|]. split; [apply Hn|].
  rewrite <- Hsum. apply sumBalances_one. exact Hn.
Qed.

(** X30: in a state reached with [uint256] amounts, [transfer] of a
    [uint256] amount succeeds exactly
    when [isTransferCompliant] holds for it, neither party is the zero
    address, the caller's balance covers the amount and, if the caller
    holds nothing, the caller is the recipient or still listed as a
    holder {- otherwise the zero transfer reverts in [_removeHolder] -};
    in particular the credit to the recipient never overflows. *)
Theorem transfer_succeeds_iff env s to amount :
  deployed s -> uint256 amount ->
  ((exists s' events, transfer env s to amount = Success (s', events, true))
   <-> isTransferCompliant s (sender env) to amount = true
       /\ sender env <> 0 /\ to <> 0
       /\ amount <= balanceOf s (sender env)
       /\ (balanceOf s (sender env) = 0 ->
           sender env = to \/ sender env ∈ getHolders s)).
Proof.
  intros Hd [Hpos _].
  destruct (deployed_invariant s Hd) as (Hcons & Hn).
  pose proof (proj2 Hcons) as Hc.
  pose proof (reachable_supply s (deployed_reachable s Hd)) as Hsum.
  pose proof (reachable_supply_fits s (deployed_reachable s Hd)) as Hmax.
  pose proof (holdersConsistent_listed s (sender env) to amount Hcons Hpos) as Hl.
  assert (Hflag : sender env <> to ->
                  readBool (isHolder (listed s (sender env) to amount)) (sender env)
                  = readBool (isHolder s) (sender env)).
  { intros Hne. destruct (negb (readBool (isHolder s) to)); [|reflexivity].
    cbn. unfold readBool. now rewrite lookup_insert_ne by congruence. }
  split.
  - intros (s' & events & H). apply transfer_unfold in H as (Hcomp & moved & H & _).
    apply _transfer_unfold in H as (Hfrom & Hto & Hbal & _ & H & _).
    split; [exact Hcomp|]. split; [exact Hfrom|]. split; [exact Hto|].
    split; [exact Hbal|]. intros Hzero.
    destruct (decide (sender env = to)) as [|Hne]; [now left | right].
    unfold balanceOf in Hzero.
    assert (Hz : read (credit s (sender env) to amount) (sender env) = 0).
    { rewrite credit_read. rewrite decide_False by exact Hne.
      rewrite decide_True by reflexivity. lia. }
    rewrite Hz in H. cbn in H. unfold _removeHolder in H.
    apply bind_Success in H as (? & Hh%require_Success & _).
    rewrite (Hflag Hne) in Hh. apply (proj1 (Hc (sender env))). exact Hh.
  - intros (Hcomp & Hfrom & Hto & Hbal & Hzero). unfold balanceOf in Hbal, Hzero.
    destruct (_transfer_succeeds s (sender env) to amount Hfrom Hto Hbal)
      as [s' H].
    + destruct (decide (sender env = to)) as [<-|Hne].
      * unfold read at 1. rewrite lookup_insert_eq. cbn.
        pose proof (sumBalances_one (balances s) (sender env) Hn). lia.
      * unfold read at 1. rewrite lookup_insert_ne by exact Hne.
        pose proof (sumBalances_two (balances s) (sender env) to Hne Hn).
        unfold read in *. lia.
    + rewrite credit_read. intros Hz.
      destruct (decide (sender env = to)) as [Heq|Hne].
      * apply (proj1 (proj2 (Hl Hbal) (sender env))). rewrite Heq at 2.
        destruct (negb (readBool (isHolder s) to)) eqn:Hh; cbn.
        -- rewrite elem_of_app, list_elem_of_singleton. now right.
        -- apply negb_false_iff in Hh. rewrite Heq. apply (proj1 (Hc to)). exact Hh.
      * transitivity (readBool (isHolder s) (sender env)); [exact (Hflag Hne)|].
        apply (proj1 (Hc (sender env))).
        destruct (decide (read (balances s) (sender env) = 0)) as [Hb|Hb].
        -- destruct (Hzero Hb) as [?|?]; [contradiction | assumption].
        -- apply (proj2 (Hc (sender env))). exact Hb.
    + exists s'. eexists. apply transfer_unfold. split; [exact Hcomp|]. eauto.
Qed.

(** ** The demonstration asset *)

Lemma uint256_small (z : Z) : 0 <= z <= 2 ^ 64 -> uint256 z.
Proof. unfold uint256, MAX_UINT256. lia. Qed.

Lemma minted_deployed : deployed Fixture.minted.
Proof.
  apply (deployed_constructor Fixture.assetData 2).
  - apply uint256_small. cbn. lia.
  - apply uint256_small. cbn. lia.
  - vm_compute. reflexivity.
Qed.

Lemma whitelisted_deployed : deployed Fixture.whitelisted.
Proof.
  eapply (deployed_execute Fixture.managerEnv (CallWhitelistInvestor 20 1) Fixture.minted).
  - exact minted_deployed.
  - apply uint256_small. lia.
  - vm_compute. reflexivity.
Qed.

Lemma transferred_deployed : deployed Fixture.transferred.
Proof.
  eapply (deployed_execute Fixture.managerEnv (CallTransfer 20 1000) Fixture.whitelisted).
  - exact whitelisted_deployed.
  - apply uint256_small. lia.
  - vm_compute. reflexivity.
Qed.

(** X24, witness: the manager's transfer of 1000 units to account 20. *)
Lemma transfer_moves_exactly_amount_witness :
  balanceOf Fixture.transferred 10 = balanceOf Fixture.whitelisted 10 - 1000
  /\ balanceOf Fixture.transferred 20 = balanceOf Fixture.whitelisted 20 + 1000.
Proof.
  edestruct (transfer_moves_exactly_amount Fixture.managerEnv Fixture.whitelisted 20 1000
               Fixture.transferred) as (_ & _ & Hb & _).
  { vm_compute. reflexivity. }
  split; [exact (Hb 10) | exact (Hb 20)].
Defined.

(** X25, witness: account 30 spends 200 of the 500 units the manager
    allowed it. *)
Lemma transferFrom_spends_allowance_witness :
  exists s',
    transferFrom Scenarios.spenderEnv Scenarios.approved 10 20 200
      = Success (s', [Transfer 10 20 200], true)
    /\ allowance s' 10 30 = allowance Scenarios.approved 10 30 - 200
    /\ balanceOf s' 20 = balanceOf Scenarios.approved 20 + 200.
Proof.
  eexists. split; [vm_compute; reflexivity|].
  edestruct (transferFrom_spends_allowance Scenarios.spenderEnv Scenarios.approved
               10 20 200) as (_ & _ & _ & Ha & _ & Hb & _).
  { vm_compute. reflexivity. }
  split; [exact Ha | exact (Hb 20)].
Defined.

(** X26, witness: the manager's [emergencyPause]. *)
Lemma transfers_are_switched_by_the_manager_witness :
  exists s' events,
    execute Fixture.managerEnv CallEmergencyPause Fixture.whitelisted
      = Success (s', events)
    /\ transfersEnabled s' = false.
Proof.
  eexists _, _. split; [vm_compute; reflexivity|].
  refine (proj1 (transfers_are_switched_by_the_manager Fixture.managerEnv
                   CallEmergencyPause Fixture.whitelisted _ _ _)).
  vm_compute. reflexivity.
Defined.

(** X27, witness: whitelisting account 20 keeps the manager whitelisted. *)
Lemma whitelist_only_grows_witness :
  readBool (whitelistedInvestors Fixture.whitelisted) 10 = true.
Proof.
  edestruct (whitelist_only_grows Fixture.managerEnv (CallWhitelistInvestor 20 1)
               Fixture.minted Fixture.whitelisted) as (_ & _ & Hw).
  { vm_compute. reflexivity. }
  apply (proj1 (Hw 10)). vm_compute. reflexivity.
Defined.

(** X28, witness: the asset after the first transfer. *)
Lemma token_follows_asset_data_witness :
  totalSupply Fixture.transferred
    = totalFractions (assetData Fixture.transferred) * 10 ^ 18.
Proof.
  exact (proj1 (token_follows_asset_data Fixture.transferred
                  (deployed_reachable _ transferred_deployed))).
Defined.

(** X29, witness: the asset after the first transfer. *)
Lemma holders_list_is_consistent_witness :
  NoDup (getHolders Fixture.transferred)
  /\ 0 <= balanceOf Fixture.transferred 20 <= totalSupply Fixture.transferred.
Proof.
  destruct (holders_list_is_consistent Fixture.transferred transferred_deployed)
    as (Hnd & Ha).
  split; [exact Hnd | apply (Ha 20)].
Defined.

(** X30, witness: the manager can transfer 1000 units to account 20. *)
Lemma transfer_succeeds_iff_witness :
  exists s' events,
    transfer Fixture.managerEnv Fixture.whitelisted 20 1000 = Success (s', events, true).
Proof.
  refine (proj2 (transfer_succeeds_iff Fixture.managerEnv Fixture.whitelisted 20 1000
                   whitelisted_deployed _) _).
  - apply uint256_small. lia.
  - split; [vm_compute; reflexivity|]. split; [discriminate|]. split; [discriminate|].
    split; [vm_compute; discriminate|].
    intros H. vm_compute in H. discriminate H.
Defined.

End AssetExtra.